(** * ai-factory: configuration migration, skill installation and MCP provisioning

    A shallow embedding of [src/core/config.ts], [src/core/installer.ts] and
    the MCP provisioner, with the properties of the specification stated
    over it.

    JavaScript values that come out of [JSON.parse] are modelled by [json];
    objects are finite maps from property names to values.  The helpers of
    [utils/fs.js], the agent registry and the transformer registry are not
    part of the embedded sources: they are fields of interfaces ([Registry],
    [HostOps]) over which the embedded functions are parametrised. *)

From Stdlib Require Import String Ascii ZArith List.
From stdpp Require Import base option gmap strings list fin_maps pretty.

Local Open Scope string_scope.
Local Open Scope list_scope.
Local Set Warnings "-register-all".

(** ** JSON values *)

Module Json.

(** Numbers are only ever tested for truthiness by the code below, so an
    integer payload is enough to tell [0] from the rest. *)
Inductive json : Type :=
| JNull
| JBool (b : bool)
| JNum (z : Z)
| JStr (s : string)
| JArr (l : list json)
| JObj (m : gmap string json).

(** [!!v] in JavaScript. *)
Definition truthy (v : json) : bool :=
  match v with
  | JNull => false
  | JBool b => b
  | JNum z => negb (Z.eqb z 0)
  | JStr s => negb (String.eqb s "")
  | JArr _ => true
  | JObj _ => true
  end.

(** Truthiness of a property read, where [None] stands for [undefined]. *)
Definition truthy_opt (v : option json) : bool :=
  match v with
  | Some x => truthy x
  | None => false
  end.

(** [Array.isArray(v)]. *)
Definition isArray (v : option json) : bool :=
  match v with
  | Some (JArr _) => true
  | _ => false
  end.

(** Decimal rendering of an array index, as used for property names. *)
Definition index_key (i : nat) : string := pretty i.

(** Own enumerable properties copied by an object spread [{...v}]:
    the properties of an object, the elements of an array under their
    indices, the characters of a string under their indices, and nothing
    for [null], [undefined], numbers and booleans. *)
Definition own_props (v : option json) : gmap string json :=
  match v with
  | Some (JObj m) => m
  | Some (JArr l) => list_to_map (imap (fun i x => (index_key i, x)) l)
  | Some (JStr s) =>
      list_to_map
        (imap (fun i c => (index_key i, JStr (String c EmptyString)))
              (list_ascii_of_string s))
  | _ => ∅
  end.

(** [a ?? b]: [b] when [a] is [null] or [undefined]. *)
Definition nullish_or (a : option json) (b : json) : json :=
  match a with
  | None | Some JNull => b
  | Some x => x
  end.

(** [{...a, ...b}]: later spreads win. *)
Definition spread (a b : gmap string json) : gmap string json := b ∪ a.

End Json.

Export Json.

(** ** Effects: exceptions, the host state and the trace of host calls *)

Module Effects.

(** A JavaScript computation either returns or throws; a thrown value is
    kept as its rendering in a template literal. *)
Inductive result (A : Type) : Type :=
| Ok (a : A)
| Throw (e : string).
Arguments Ok {A} a.
Arguments Throw {A} e.

Definition is_ok {A} (r : result A) : bool :=
  match r with Ok _ => true | Throw _ => false end.

(** One entry per call that leaves the process: the helpers of
    [utils/fs.js], the template and transformer hooks, [console.warn]. *)
Inductive event : Type :=
| EvEnsureDir (dir : string)
| EvReadJson (file : string)
| EvWriteJson (file : string) (doc : gmap string json)
| EvFileExists (file : string)
| EvReadText (file : string)
| EvWriteText (file : string) (text : string)
| EvCopyDir (src dst : string)
| EvListDirs (dir : string)
| EvProcessSkillTemplates (dir : string)
| EvPostInstall (projectDir : string)
| EvWarn (msg : string).

Definition is_warning (e : event) : bool :=
  match e with EvWarn _ => true | _ => false end.

Definition warnings (t : list event) : list event := List.filter is_warning t.

Record outcome (S A : Type) : Type := Outcome {
  res : result A;
  final : S;
  trace : list event
}.
Arguments Outcome {S A} res final trace.
Arguments res {S A} o.
Arguments final {S A} o.
Arguments trace {S A} o.

(** State ([S]), exceptions and an append-only trace. *)
Definition M (S A : Type) : Type := S -> outcome S A.

Definition ret {S A} (a : A) : M S A := fun s => Outcome (Ok a) s [].

Definition throw {S A} (e : string) : M S A := fun s => Outcome (Throw e) s [].

Definition bind {S A B} (m : M S A) (k : A -> M S B) : M S B :=
  fun s =>
    let o := m s in
    match res o with
    | Ok a =>
        let o' := k a (final o) in
        Outcome (res o') (final o') (trace o ++ trace o')
    | Throw e => Outcome (Throw e) (final o) (trace o)
    end.

(** [try { m } catch (error) { h error }]: what [m] did before it threw
    stays done. *)
Definition try_catch {S A} (m : M S A) (h : string -> M S A) : M S A :=
  fun s =>
    let o := m s in
    match res o with
    | Ok a => o
    | Throw e =>
        let o' := h e (final o) in
        Outcome (res o') (final o') (trace o ++ trace o')
    end.

#[global] Instance M_ret {S} : MRet (M S) := fun A a => ret a.
#[global] Instance M_bind {S} : MBind (M S) := fun A B k m => bind m k.

Definition of_result {S A} (r : result A) : M S A :=
  fun s => Outcome r s [].

(** A host call that only looks at the state. *)
Definition observe {S A} (e : event) (f : S -> result A) : M S A :=
  fun s => Outcome (f s) s [e].

(** A host call that may change the state, also when it fails. *)
Definition mutate {S} (e : event) (f : S -> result unit * S) : M S unit :=
  fun s => Outcome (f s).1 (f s).2 [e].

(** [console.warn(msg)]. *)
Definition warn {S} (msg : string) : M S unit :=
  fun s => Outcome (Ok tt) s [EvWarn msg].

(** [for (const x of l) { body x }]. *)
Fixpoint for_each {S A} (l : list A) (body : A -> M S unit) : M S unit :=
  match l with
  | [] => ret tt
  | x :: l' => bind (body x) (fun _ => for_each l' body)
  end.

(** A computation on the host state run next to a local variable of
    type [L] (an array the enclosing function pushes to). *)
Definition lift {W L A} (m : M W A) : M (W * L) A :=
  fun s =>
    let o := m s.1 in
    Outcome (res o) (final o, s.2) (trace o).

Definition get_local {W L} : M (W * L) L :=
  fun s => Outcome (Ok s.2) s [].

(** [arr.push(x)]. *)
Definition push {W A} (x : A) : M (W * list A) unit :=
  fun s => Outcome (Ok tt) (s.1, s.2 ++ [x]) [].

(** Scope of a local variable: declared with [init], dropped at the end. *)
Definition with_local {W L A} (init : L) (m : M (W * L) A) : M W A :=
  fun w =>
    let o := m (w, init) in
    Outcome (res o) (final o).1 (trace o).

End Effects.

Export Effects.

(** ** Collaborators outside the embedded sources *)

Module Host.

(** The agent profile returned by [getAgentConfig] ([agents.js]);
    [settingsFile] is [None] when the profile has none. *)
Record AgentConfig : Type := {
  agent_skillsDir : string;
  agent_configDir : string;
  supportsMcp : bool;
  settingsFile : option string
}.

(** The value returned by a transformer's [transform]. *)
Record TransformResult : Type := {
  flat : bool;
  targetDir : string;
  targetName : string;
  content : string
}.

(** A transformer ([transformer.js]): [transform] and the optional
    [postInstall] hook. *)
Record Transformer (World : Type) : Type := {
  transform : string -> string -> result TransformResult;
  postInstall : option (string -> World -> result unit * World)
}.
Arguments transform {World} t skillName content.
Arguments postInstall {World} t.

(** [package.json]'s version and the agent registry.  [getAgentConfig]
    throws for an identifier it does not know; being a JavaScript
    function it can be handed any value. *)
Class Registry : Type := {
  CURRENT_VERSION : string;
  getAgentConfig : json -> result AgentConfig
}.

(** The helpers of [utils/fs.js], [template.js], [transformer.js] and
    Node's [path], over a host state [World].  Reads look at the state;
    the other calls may change it.  Every call may throw.  A JSON
    document is an object at top level, as the type arguments of
    [readJsonFile] in the sources say. *)
Class HostOps (World : Type) : Type := {
  getSkillsDir : string;
  getMcpDir : string;
  path_join : list string -> string;
  path_dirname : string -> string;
  readJsonFile : string -> World -> result (option (gmap string json));
  fileExists : string -> World -> result bool;
  readTextFile : string -> World -> result (option string);
  listDirectories : string -> World -> result (list string);
  writeJsonFile : string -> gmap string json -> World -> result unit * World;
  writeTextFile : string -> string -> World -> result unit * World;
  ensureDir : string -> World -> result unit * World;
  copyDirectory : string -> string -> World -> result unit * World;
  processSkillTemplates : string -> AgentConfig -> World -> result unit * World;
  buildTemplateVars : AgentConfig -> gmap string string;
  processTemplate : string -> gmap string string -> string;
  getTransformer : string -> result (Transformer World)
}.

End Host.

Export Host.

(** ** [src/core/config.ts] *)

Module Config.
Section Config.

Context {Reg : Registry} {World : Type} {Host : HostOps World}.

Definition CONFIG_FILENAME : string := ".ai-factory.json".

Definition resolveAgentId (agentId : option json) : json :=
  match agentId with
  | None => JStr "claude"
  | Some a =>
      if negb (truthy a) then JStr "claude"
      else
        match getAgentConfig a with
        | Ok _ => a
        | Throw _ => JStr "claude"
        end
  end.

Definition getConfigPath (projectDir : string) : string :=
  path_join [projectDir; CONFIG_FILENAME].

(** The object literal returned by [createDefaultConfig]; [None] for the
    argument takes the default parameter ['claude']. *)
Definition createDefaultConfig (agentId : option json) : result (gmap string json) :=
  let resolvedAgentId := resolveAgentId (Some (default (JStr "claude") agentId)) in
  match getAgentConfig resolvedAgentId with
  | Throw e => Throw e
  | Ok agent =>
      Ok (<["mcp" := JObj (<["chromeDevtools" := JBool false]>
                          (<["postgres" := JBool false]>
                          (<["filesystem" := JBool false]>
                          (<["github" := JBool false]> ∅))))]>
         (<["installedSkills" := JArr []]>
         (<["skillsDir" := JStr (agent_skillsDir agent)]>
         (<["agent" := resolvedAgentId]>
         (<["version" := JStr CURRENT_VERSION]> ∅)))))
  end.

(** [Array.isArray(config.installedSkills) ? config.installedSkills
    : defaults.installedSkills]. *)
Definition pick_installedSkills (config defaults : gmap string json) : option json :=
  if isArray (config !! "installedSkills") then config !! "installedSkills"
  else defaults !! "installedSkills".

(** An object literal's [k: e] where [e] may evaluate to [undefined]
    ([None]); the property is then left out, as it is once the object is
    serialized. *)
Definition set_field (k : string) (v : option json) (o : gmap string json)
  : gmap string json :=
  match v with
  | Some x => <[k := x]> o
  | None => o
  end.

Definition migrateConfig (config : gmap string json) : result (gmap string json) :=
  let resolvedAgentId := resolveAgentId (config !! "agent") in
  match createDefaultConfig (Some resolvedAgentId) with
  | Throw e => Throw e
  | Ok defaults =>
      Ok (<["mcp" := JObj (spread (own_props (defaults !! "mcp"))
                                 (own_props (Some (nullish_or (config !! "mcp") (JObj ∅)))))]>
         (set_field "installedSkills" (pick_installedSkills config defaults)
         (<["agent" := resolvedAgentId]>
         (spread defaults config))))
  end.

Definition loadConfig (projectDir : string) : M World (option (gmap string json)) :=
  let configPath := getConfigPath projectDir in
  loadedConfig ← observe (EvReadJson configPath) (readJsonFile configPath);
  match loadedConfig with
  | None => ret None
  | Some c =>
      migrated ← of_result (migrateConfig c);
      ret (Some migrated)
  end.

Definition getCurrentVersion : string := CURRENT_VERSION.

Definition saveConfig (projectDir : string) (config : gmap string json) : M World unit :=
  let configPath := getConfigPath projectDir in
  mutate (EvWriteJson configPath config) (writeJsonFile configPath config).

Definition configExists (projectDir : string) : M World bool :=
  let configPath := getConfigPath projectDir in
  observe (EvFileExists configPath) (fileExists configPath).

(** [r.k] for the value a call returned; [None] when the call threw or
    the object has no such property. *)
Definition field_of (r : result (gmap string json)) (k : string) : option json :=
  match r with
  | Ok o => o !! k
  | Throw _ => None
  end.

End Config.
End Config.

Export Config.

(** ** [src/core/installer.ts] *)

Module Installer.
Section Installer.

Context {Reg : Registry} {World : Type} {Host : HostOps World}.

Record InstallOptions : Type := {
  projectDir : string;
  skillsDir : string;
  skills : list string;
  stack : option string;
  agentId : string
}.

(** The fields of [AiFactoryConfig] the installer reads. *)
Record AiFactoryConfig : Type := {
  cfg_agent : string;
  cfg_skillsDir : string;
  cfg_installedSkills : list string
}.

Definition dquote : string := String "034"%char EmptyString.

(** Truthiness of a [string | null | undefined]. *)
Definition nonempty (s : option string) : bool :=
  match s with
  | Some x => negb (String.eqb x "")
  | None => false
  end.

Definition installSkillWithTransformer
    (sourceSkillDir skillName projectDir skillsDir agentId : string)
    (agentConfig : AgentConfig) : M World unit :=
  transformer ← of_result (getTransformer agentId);
  let skillMdPath := path_join [sourceSkillDir; "SKILL.md"] in
  content ← observe (EvReadText skillMdPath) (readTextFile skillMdPath);
  if negb (nonempty content) then
    throw ("Error: SKILL.md not found in " +:+ sourceSkillDir)
  else
    let content := default "" content in
    result ← of_result (transform transformer skillName content);
    let vars := buildTemplateVars agentConfig in
    if flat result then
      let targetPath :=
        path_join [projectDir; agent_configDir agentConfig;
                   targetDir result; targetName result] in
      let text := processTemplate (Host.content result) vars in
      mutate (EvWriteText targetPath text) (writeTextFile targetPath text)
    else
      let targetSkillDir := path_join [projectDir; skillsDir; targetDir result] in
      _ ← mutate (EvCopyDir sourceSkillDir targetSkillDir)
                 (copyDirectory sourceSkillDir targetSkillDir);
      _ ← (if negb (String.eqb (Host.content result) content) then
             let skillMd := path_join [targetSkillDir; "SKILL.md"] in
             mutate (EvWriteText skillMd (Host.content result))
                    (writeTextFile skillMd (Host.content result))
           else ret tt);
      mutate (EvProcessSkillTemplates targetSkillDir)
             (processSkillTemplates targetSkillDir agentConfig).

(** [s.split('/')]: the pieces between the separators, never empty. *)
Fixpoint split_slash (s : string) : list string :=
  match s with
  | EmptyString => [""]
  | String c s' =>
      if Ascii.eqb c "/"%char then "" :: split_slash s'
      else
        match split_slash s' with
        | [] => [String c ""]
        | piece :: rest => String c piece :: rest
        end
  end.

Definition reconcile_one (packageSkillsDir projectDir : string)
    (config : AiFactoryConfig) (agentConfig : AgentConfig)
    (customSkill : string) : M (World * list string) unit :=
  let parts := split_slash customSkill in
  let stack := parts !! 0%nat in
  let templateSkill := parts !! 1%nat in
  if negb (nonempty stack) || negb (nonempty templateSkill) then
    warn ("Warning: Invalid custom skill entry " +:+ dquote +:+ customSkill
          +:+ dquote +:+ ". Skipping.")
  else
    let stack := default "" stack in
    let templateSkill := default "" templateSkill in
    let templateSkillDir :=
      path_join [packageSkillsDir; "_templates"; stack; templateSkill] in
    let skillMd := path_join [templateSkillDir; "SKILL.md"] in
    found ← lift (observe (EvFileExists skillMd) (fileExists skillMd));
    if found : bool then
      try_catch
        (_ ← lift (installSkillWithTransformer templateSkillDir templateSkill
                     projectDir (cfg_skillsDir config) (cfg_agent config)
                     agentConfig);
         push customSkill)
        (fun error =>
           warn ("Warning: Could not reconcile custom skill " +:+ dquote
                 +:+ customSkill +:+ dquote +:+ ": " +:+ error))
    else
      warn ("Warning: Custom skill source not found for " +:+ dquote
            +:+ customSkill +:+ dquote +:+ ". Skipping.").

Definition reconcileCustomSkills (customSkills : list string)
    (projectDir : string) (config : AiFactoryConfig) : M World (list string) :=
  let packageSkillsDir := getSkillsDir in
  with_local ([] : list string)
    (agentConfig ← of_result (getAgentConfig (JStr (cfg_agent config)));
     _ ← for_each customSkills
           (reconcile_one packageSkillsDir projectDir config agentConfig);
     get_local).

(** One round of the loop over the requested skills. *)
Definition install_requested (packageSkillsDir : string) (options : InstallOptions)
    (agentConfig : AgentConfig) (skill : string) : M (World * list string) unit :=
  let sourceSkillDir := path_join [packageSkillsDir; skill] in
  try_catch
    (_ ← lift (installSkillWithTransformer sourceSkillDir skill
                 (projectDir options) (skillsDir options) (agentId options)
                 agentConfig);
     push skill)
    (fun error =>
       warn ("Warning: Could not install skill " +:+ dquote +:+ skill
             +:+ dquote +:+ ": " +:+ error)).

(** One round of the loop over the template skills of a stack. *)
Definition install_template (templateDir stack : string) (options : InstallOptions)
    (agentConfig : AgentConfig) (templateSkill : string)
  : M (World * list string) unit :=
  let sourceDir := path_join [templateDir; templateSkill] in
  _ ← lift (installSkillWithTransformer sourceDir templateSkill
              (projectDir options) (skillsDir options) (agentId options)
              agentConfig);
  push (stack +:+ "/" +:+ templateSkill).

Definition install_stack (packageSkillsDir : string) (options : InstallOptions)
    (agentConfig : AgentConfig) : M (World * list string) unit :=
  if nonempty (stack options) then
    let stack := default "" (stack options) in
    let templateDir := path_join [packageSkillsDir; "_templates"; stack] in
    try_catch
      (templateSkills ← lift (observe (EvListDirs templateDir)
                                      (listDirectories templateDir));
       for_each templateSkills
                (install_template templateDir stack options agentConfig))
      (fun _ => ret tt)
  else ret tt.

Definition installSkills (options : InstallOptions) : M World (list string) :=
  with_local ([] : list string)
    (agentConfig ← of_result (getAgentConfig (JStr (agentId options)));
     let targetDir := path_join [projectDir options; skillsDir options] in
     _ ← lift (mutate (EvEnsureDir targetDir) (ensureDir targetDir));
     let packageSkillsDir := getSkillsDir in
     _ ← for_each (skills options)
           (install_requested packageSkillsDir options agentConfig);
     _ ← install_stack packageSkillsDir options agentConfig;
     transformer ← of_result (getTransformer (agentId options));
     _ ← match postInstall transformer with
         | Some hook =>
             lift (mutate (EvPostInstall (projectDir options))
                          (hook (projectDir options)))
         | None => ret tt
         end;
     get_local).

(** [dir.startsWith('_')]. *)
Definition starts_with_underscore (dir : string) : bool :=
  match dir with
  | String c _ => Ascii.eqb c "_"%char
  | EmptyString => false
  end.

(** [s.includes('/')]. *)
Fixpoint includes_slash (s : string) : bool :=
  match s with
  | EmptyString => false
  | String c s' => Ascii.eqb c "/"%char || includes_slash s'
  end.

Definition getAvailableSkills : M World (list string) :=
  let packageSkillsDir := getSkillsDir in
  dirs ← observe (EvListDirs packageSkillsDir) (listDirectories packageSkillsDir);
  ret (List.filter (fun dir => negb (starts_with_underscore dir)) dirs).

Definition getAvailableTemplates : M World (list string) :=
  let templatesDir := path_join [getSkillsDir; "_templates"] in
  observe (EvListDirs templatesDir) (listDirectories templatesDir).

Definition updateSkills (config : AiFactoryConfig) (projectDir : string)
  : M World (list string) :=
  availableSkills ← getAvailableSkills;
  let customSkills := List.filter includes_slash (cfg_installedSkills config) in
  installedBaseSkills ←
    installSkills {| projectDir := projectDir;
                     skillsDir := cfg_skillsDir config;
                     skills := availableSkills;
                     stack := None;
                     agentId := cfg_agent config |};
  reconciledCustomSkills ← reconcileCustomSkills customSkills projectDir config;
  ret (installedBaseSkills ++ reconciledCustomSkills).

End Installer.
End Installer.

Export Installer.

(** ** The MCP provisioner *)

Module Mcp.
Section Mcp.

Context {Reg : Registry} {World : Type} {Host : HostOps World}.

Record McpOptions : Type := {
  github : bool;
  filesystem : bool;
  postgres : bool;
  chromeDevtools : bool
}.

(** [keyof McpOptions]. *)
Inductive McpServerKey : Type :=
| KGithub
| KFilesystem
| KPostgres
| KChromeDevtools.

Definition key_name (key : McpServerKey) : string :=
  match key with
  | KGithub => "github"
  | KFilesystem => "filesystem"
  | KPostgres => "postgres"
  | KChromeDevtools => "chromeDevtools"
  end.

Definition MCP_SERVER_FILES (key : McpServerKey) : string :=
  match key with
  | KGithub => "github.json"
  | KFilesystem => "filesystem.json"
  | KPostgres => "postgres.json"
  | KChromeDevtools => "chrome-devtools.json"
  end.

(** [Object.keys(MCP_SERVER_FILES)], in insertion order. *)
Definition server_keys : list McpServerKey :=
  [KGithub; KFilesystem; KPostgres; KChromeDevtools].

(** [options[key]]. *)
Definition flag (options : McpOptions) (key : McpServerKey) : bool :=
  match key with
  | KGithub => github options
  | KFilesystem => filesystem options
  | KPostgres => postgres options
  | KChromeDevtools => chromeDevtools options
  end.

(** [[...v]] for a truthy [v]: arrays and strings are iterable, the other
    values are not. *)
Definition iterate (v : json) : result (list json) :=
  match v with
  | JArr l => Ok l
  | JStr s => Ok (List.map (fun c => JStr (String c EmptyString)) (list_ascii_of_string s))
  | _ => Throw "TypeError: config.args is not iterable"
  end.

(** A template as read from its file is an object; an absent [command]
    leaves [undefined] in the array, which is written out as [null]. *)
Definition toOpenCodeFormat (config : gmap string json) : result json :=
  let args := if truthy_opt (config !! "args")
              then iterate (default JNull (config !! "args"))
              else Ok [] in
  match args with
  | Throw e => Throw e
  | Ok args =>
      let command := default JNull (config !! "command") :: args in
      let result : gmap string json :=
        <["command" := JArr command]> (<["type" := JStr "local"]> ∅) in
      Ok (JObj (if truthy_opt (config !! "env")
                then set_field "environment" (config !! "env") result
                else result))
  end.





Definition template_path (mcpTemplatesDir : string) (key : McpServerKey) : string :=
  path_join [mcpTemplatesDir; MCP_SERVER_FILES key].

Definition select_one (options : McpOptions) (mcpTemplatesDir : string)
    (key : McpServerKey)
  : M (World * list (McpServerKey * gmap string json)) unit :=
  if negb (flag options key) then ret tt
  else
    let file := template_path mcpTemplatesDir key in
    template ← lift (observe (EvReadJson file) (readJsonFile file));
    match template with
    | Some t => push (key, t)
    | None => ret tt
    end.

Definition getSelectedServerTemplates (options : McpOptions) (mcpTemplatesDir : string)
  : M World (list (McpServerKey * gmap string json)) :=
  with_local ([] : list (McpServerKey * gmap string json))
    (_ ← for_each server_keys (select_one options mcpTemplatesDir);
     get_local).

(** [target[k] = v] in strict mode, for a truthy [target], as far as the
    serialized document shows it: an object gets the property, an array
    keeps its elements (a named property of an array is not serialized),
    a primitive makes the assignment throw. *)
Definition assign_prop (target : json) (k : string) (v : json) : result json :=
  match target with
  | JObj m => Ok (JObj (<[k := v]> m))
  | JArr l => Ok (JArr l)
  | _ => Throw ("TypeError: Cannot create property '" +:+ k +:+ "'")
  end.

(** The loop over the selected templates: the MCP sub-map and
    [configuredServers] after it. *)
Fixpoint merge_servers (convert : gmap string json -> result json)
    (selected : list (McpServerKey * gmap string json))
    (sub : json) (configuredServers : list string)
  : result (json * list string) :=
  match selected with
  | [] => Ok (sub, configuredServers)
  | (key, template) :: rest =>
      match convert template with
      | Throw e => Throw e
      | Ok entry =>
          match assign_prop sub (key_name key) entry with
          | Throw e => Throw e
          | Ok sub' =>
              merge_servers convert rest sub' (configuredServers ++ [key_name key])
          end
      end
  end.

(** [settings] after [if (!settings.k) settings.k = {}]. *)
Definition ensure_sub_map (k : string) (settings : gmap string json)
  : gmap string json :=
  if truthy_opt (settings !! k) then settings else <[k := JObj ∅]> settings.

(** The branch shared by both shapes: [k] is the name of the MCP sub-map
    and [convert] the shape conversion. *)
Definition merge_and_write (settingsPath k : string)
    (convert : gmap string json -> result json)
    (selectedTemplates : list (McpServerKey * gmap string json))
  : M World (list string) :=
  found ← observe (EvFileExists settingsPath) (fileExists settingsPath);
  settings ← (if found : bool then
                existing ← observe (EvReadJson settingsPath) (readJsonFile settingsPath);
                ret (default ∅ existing)
              else ret ∅);
  let settings := ensure_sub_map k settings in
  merged ← of_result (merge_servers convert selectedTemplates
                        (default JNull (settings !! k)) []);
  let settings := <[k := merged.1]> settings in
  _ ← mutate (EvWriteJson settingsPath settings) (writeJsonFile settingsPath settings);
  ret merged.2.

(** [agentId] has the default value ['claude'] in the source. *)
Definition configureMcp (projectDir : string) (options : McpOptions)
    (agentId : string) : M World (list string) :=
  agent ← of_result (getAgentConfig (JStr agentId));
  if negb (supportsMcp agent) || negb (nonempty (settingsFile agent)) then ret []
  else
    let isOpenCode := String.eqb agentId "opencode" in
    let settingsPath := path_join [projectDir; default "" (settingsFile agent)] in
    let settingsDir := path_dirname settingsPath in
    _ ← mutate (EvEnsureDir settingsDir) (ensureDir settingsDir);
    let mcpTemplatesDir := path_join [getMcpDir; "templates"] in
    selectedTemplates ← getSelectedServerTemplates options mcpTemplatesDir;
    if Nat.eqb (length selectedTemplates) 0 then ret []
    else if isOpenCode then
      merge_and_write settingsPath "mcp" toOpenCodeFormat selectedTemplates
    else
      merge_and_write settingsPath "mcpServers" (fun template => Ok (JObj template))
                      selectedTemplates.

(** [servers.includes(name)]. *)
Definition includes (servers : list string) (name : string) : bool :=
  existsb (String.eqb name) servers.

Definition getMcpInstructions (servers : list string) : list string :=
  (if includes servers "github" then
     ["GitHub MCP: Set GITHUB_TOKEN environment variable with your GitHub personal access token"]
   else [])
  ++ (if includes servers "filesystem" then
        ["Filesystem MCP: No additional configuration needed. Server provides file access tools."]
      else [])
  ++ (if includes servers "postgres" then
        ["Postgres MCP: Set DATABASE_URL environment variable with your PostgreSQL connection string"]
      else [])
  ++ (if includes servers "chromeDevtools" then
        ["Chrome Devtools MCP: No additional configuration needed. Server provides your coding agent control and inspect a live Chrome browser."]
      else []).

End Mcp.
End Mcp.

Export Mcp.

(** ** A small host to run the embedded functions on

    Text files, JSON documents and directory listings are three finite
    maps keyed by path; directories need no creation. *)

Module Sample.

Record world : Type := World {
  texts : gmap string string;
  docs : gmap string (gmap string json);
  listings : gmap string (list string)
}.

Definition claude : AgentConfig :=
  {| agent_skillsDir := ".claude/skills"; agent_configDir := ".claude";
     supportsMcp := true; settingsFile := Some ".mcp.json" |}.

Definition opencode : AgentConfig :=
  {| agent_skillsDir := ".opencode/skills"; agent_configDir := ".opencode";
     supportsMcp := true; settingsFile := Some "opencode.json" |}.

Definition plain : AgentConfig :=
  {| agent_skillsDir := ".plain/skills"; agent_configDir := ".plain";
     supportsMcp := false; settingsFile := None |}.

Definition registry : Registry :=
  {| CURRENT_VERSION := "2.0.0";
     getAgentConfig := fun v =>
       match v with
       | JStr s =>
           if String.eqb s "claude" then Ok claude
           else if String.eqb s "opencode" then Ok opencode
           else if String.eqb s "plain" then Ok plain
           else Throw ("Error: Unknown agent: " +:+ s)
       | _ => Throw "Error: Unknown agent"
       end |}.

Definition join (parts : list string) : string := String.concat "/" parts.

Definition dirname (p : string) : string :=
  String.concat "/" (removelast (split_slash p)).

Definition has_file (p : string) (w : world) : bool :=
  bool_decide (is_Some (texts w !! p)) || bool_decide (is_Some (docs w !! p)).

Definition copy_skill (src dst : string) (w : world) : world :=
  match texts w !! join [src; "SKILL.md"] with
  | Some c => World (<[join [dst; "SKILL.md"] := c]> (texts w)) (docs w) (listings w)
  | None => w
  end.

Definition directory_transformer : Transformer world :=
  {| transform := fun skillName content =>
       Ok {| flat := false; targetDir := skillName;
             targetName := skillName +:+ ".md"; content := content |};
     postInstall := None |}.

Definition host : HostOps world :=
  {| getSkillsDir := "/pkg/skills";
     getMcpDir := "/pkg/mcp";
     path_join := join;
     path_dirname := dirname;
     readJsonFile := fun p w => Ok (docs w !! p);
     fileExists := fun p w => Ok (has_file p w);
     readTextFile := fun p w => Ok (texts w !! p);
     listDirectories := fun p w =>
       match listings w !! p with
       | Some l => Ok l
       | None => Throw "Error: ENOENT: no such file or directory"
       end;
     writeJsonFile := fun p d w =>
       (Ok tt, World (texts w) (<[p := d]> (docs w)) (listings w));
     writeTextFile := fun p c w =>
       (Ok tt, World (<[p := c]> (texts w)) (docs w) (listings w));
     ensureDir := fun _ w => (Ok tt, w);
     copyDirectory := fun src dst w => (Ok tt, copy_skill src dst w);
     processSkillTemplates := fun _ _ w => (Ok tt, w);
     buildTemplateVars := fun _ => ∅;
     processTemplate := fun text _ => text;
     getTransformer := fun _ => Ok directory_transformer |}.

(** A package with three skills, the second without [SKILL.md], and a
    stack [web] whose first template skill has no [SKILL.md]. *)
Definition package : world :=
  World
    (<["/pkg/skills/plan/SKILL.md" := "# plan"]>
     (<["/pkg/skills/review/SKILL.md" := "# review"]>
     (<["/pkg/skills/_templates/web/api/SKILL.md" := "# api"]> ∅)))
    (<["/pkg/mcp/templates/github.json" :=
         <["command" := JStr "npx"]>
         (<["args" := JArr [JStr "-y"; JStr "server"]]>
         (<["env" := JObj (<["TOKEN" := JStr "x"]> ∅)]> ∅))]> ∅)
    (<["/pkg/skills/_templates/web" := ["broken"; "api"]]> ∅).

End Sample.

(** ** Vocabulary of the properties *)

Section ConfigTerms.

Context {Reg : Registry}.

(** The default agent is in the registry. *)
Definition claude_registered : Prop :=
  is_ok (getAgentConfig (JStr "claude")) = true.

(** No falsy value ([null], [false], [0], the empty string) is an agent
    identifier. *)
Definition ids_truthy : Prop :=
  forall v, truthy v = false -> is_ok (getAgentConfig v) = false.

(** The flags [createDefaultConfig] starts from. *)
Definition default_mcp : gmap string json :=
  <["chromeDevtools" := JBool false]>
  (<["postgres" := JBool false]>
  (<["filesystem" := JBool false]>
  (<["github" := JBool false]> ∅))).

End ConfigTerms.

(** A stored configuration of an older release, with one MCP flag, a
    custom agent and a damaged [installedSkills]. *)
Definition stored_config : gmap string json :=
  <["version" := JStr "0.0.1"]>
  (<["agent" := JStr "opencode"]>
  (<["installedSkills" := JStr "plan"]>
  (<["mcp" := JObj (<["github" := JBool true]> ∅)]> ∅))).

Section InstallerTerms.

Context {Reg : Registry} {World : Type} {Host : HostOps World}.

(** The same request for another list of skills. *)
Definition with_skills (options : InstallOptions) (l : list string) : InstallOptions :=
  {| projectDir := projectDir options;
     skillsDir := skillsDir options;
     skills := l;
     stack := stack options;
     agentId := agentId options |}.

(** Where a requested skill's [SKILL.md] is read from. *)
Definition skill_md (skill : string) : string :=
  path_join [path_join [getSkillsDir; skill]; "SKILL.md"].

(** The installation of one requested skill, outside any [try]. *)
Definition install_of (options : InstallOptions) (agentConfig : AgentConfig)
    (skill : string) : M World unit :=
  installSkillWithTransformer (path_join [getSkillsDir; skill]) skill
    (projectDir options) (skillsDir options) (agentId options) agentConfig.

Definition install_warning (skill error : string) : string :=
  "Warning: Could not install skill " +:+ dquote +:+ skill +:+ dquote
  +:+ ": " +:+ error.

Definition missing_error (sourceSkillDir : string) : string :=
  "Error: SKILL.md not found in " +:+ sourceSkillDir.

(** The state in which the loop over the requested skills starts. *)
Definition start_of (options : InstallOptions) (w : World) : World * list string :=
  ((ensureDir (path_join [projectDir options; skillsDir options]) w).2, []).

(** The host state once the requested skills [done] have been gone through. *)
Definition world_after (options : InstallOptions) (agentConfig : AgentConfig)
    (done : list string) (w : World) : World :=
  (final (for_each done (install_requested getSkillsDir options agentConfig)
                   (start_of options w))).1.

(** A [SKILL.md] that is absent or empty. *)
Definition no_skill_md (file : string) (w : World) : Prop :=
  exists c, readTextFile file w = Ok c /\ nonempty c = false.

(** The agent's transformer is found and its [postInstall] hook, when it
    has one, does not fail. *)
Definition hook_succeeds (options : InstallOptions) : Prop :=
  exists tr,
    getTransformer (agentId options) = Ok tr /\
    forall hook, postInstall tr = Some hook ->
      forall w, (hook (projectDir options) w).1 = Ok tt.

(** The key recorded for a template skill of the requested stack. *)
Definition stack_key (options : InstallOptions) (templateSkill : string) : string :=
  default "" (stack options) +:+ "/" +:+ templateSkill.

(** The template directory of the requested stack. *)
Definition stack_dir (options : InstallOptions) : string :=
  path_join [getSkillsDir; "_templates"; default "" (stack options)].

(** The requested skills that install, each tried in the state the skills
    before it left. *)
Fixpoint installed_requested (options : InstallOptions) (ac : AgentConfig)
    (requested : list string) (w : World) : list string :=
  match requested with
  | [] => []
  | skill :: rest =>
      (if is_ok (res (install_of options ac skill w)) then [skill] else [])
      ++ installed_requested options ac rest (final (install_of options ac skill w))
  end.

(** The installation of one template skill of the stack, outside any [try]. *)
Definition template_of (options : InstallOptions) (ac : AgentConfig)
    (templateSkill : string) : M World unit :=
  installSkillWithTransformer (path_join [stack_dir options; templateSkill])
    templateSkill (projectDir options) (skillsDir options) (agentId options) ac.

(** The template skills that install before the first one that fails. *)
Fixpoint installed_templates (options : InstallOptions) (ac : AgentConfig)
    (listing : list string) (w : World) : list string :=
  match listing with
  | [] => []
  | templateSkill :: rest =>
      if is_ok (res (template_of options ac templateSkill w))
      then templateSkill
           :: installed_templates options ac rest
                (final (template_of options ac templateSkill w))
      else []
  end.

(** The template skills installed for the requested stack, if any. *)
Definition installed_stack (options : InstallOptions) (ac : AgentConfig)
    (w : World) : list string :=
  if nonempty (stack options) then
    match listDirectories (stack_dir options) w with
    | Ok listing => installed_templates options ac listing w
    | Throw _ => []
    end
  else [].

(** *** Custom skill keys *)

Definition custom_stack (key : string) : option string := split_slash key !! 0%nat.

Definition custom_skill (key : string) : option string := split_slash key !! 1%nat.

(** Both parts around the first ['/'] are there and not empty. *)
Definition wellformed (key : string) : bool :=
  nonempty (custom_stack key) && nonempty (custom_skill key).

Definition custom_source (key : string) : string :=
  path_join [getSkillsDir; "_templates";
             default "" (custom_stack key); default "" (custom_skill key)].

Definition custom_md (key : string) : string :=
  path_join [custom_source key; "SKILL.md"].

(** The source template's [SKILL.md] exists. *)
Definition source_found (key : string) (w : World) : bool :=
  match fileExists (custom_md key) w with
  | Ok b => b
  | Throw _ => false
  end.

(** The reinstallation of one custom skill, outside any [try]. *)
Definition reinstall_of (projectDir : string) (config : AiFactoryConfig)
    (ac : AgentConfig) (key : string) : M World unit :=
  installSkillWithTransformer (custom_source key) (default "" (custom_skill key))
    projectDir (cfg_skillsDir config) (cfg_agent config) ac.

(** The three conditions under which a key stays in the list. *)
Definition kept (projectDir : string) (config : AiFactoryConfig)
    (ac : AgentConfig) (key : string) (w : World) : bool :=
  wellformed key && source_found key w
  && is_ok (res (reinstall_of projectDir config ac key w)).

(** The host state after a key has been dealt with: only a reinstallation
    that was attempted can have changed it. *)
Definition world_past (projectDir : string) (config : AiFactoryConfig)
    (ac : AgentConfig) (key : string) (w : World) : World :=
  if wellformed key && source_found key w
  then final (reinstall_of projectDir config ac key w)
  else w.

Definition world_past_all (projectDir : string) (config : AiFactoryConfig)
    (ac : AgentConfig) (keys : list string) (w : World) : World :=
  fold_left (fun w key => world_past projectDir config ac key w) keys w.

(** The keys that stay, each judged in the state the keys before it left. *)
Fixpoint reconciled (projectDir : string) (config : AiFactoryConfig)
    (ac : AgentConfig) (keys : list string) (w : World) : list string :=
  match keys with
  | [] => []
  | key :: rest =>
      (if kept projectDir config ac key w then [key] else [])
      ++ reconciled projectDir config ac rest (world_past projectDir config ac key w)
  end.

(** The existence check answers, whatever the path and the state. *)
Definition exists_answers : Prop :=
  forall p w, is_ok (fileExists p w) = true.

End InstallerTerms.

(** *** Sample requests *)

Definition three_skills : InstallOptions :=
  {| projectDir := "/proj"; skillsDir := ".claude/skills";
     skills := ["plan"; "missing"; "review"]; stack := None; agentId := "claude" |}.

(** The stack [web]: its first template skill has no [SKILL.md], its
    second has one. *)
Definition web_stack : InstallOptions :=
  {| projectDir := "/proj"; skillsDir := ".claude/skills";
     skills := []; stack := Some "web"; agentId := "claude" |}.

(** The same two directories, asked for as requested skills. *)
Definition web_as_requested : InstallOptions :=
  {| projectDir := "/proj"; skillsDir := ".claude/skills";
     skills := ["_templates/web/broken"; "_templates/web/api"];
     stack := None; agentId := "claude" |}.

Definition saved_config : AiFactoryConfig :=
  {| cfg_agent := "claude"; cfg_skillsDir := ".claude/skills";
     cfg_installedSkills := ["plan"; "web/api"; "web/gone"] |}.

Definition all_flags : McpOptions :=
  {| github := true; filesystem := true; postgres := true; chromeDevtools := true |}.

Definition no_flag : McpOptions :=
  {| github := false; filesystem := false; postgres := false; chromeDevtools := false |}.

Definition github_only : McpOptions :=
  {| github := true; filesystem := false; postgres := false; chromeDevtools := false |}.

(** The sample package next to a project whose two settings files already
    hold a top-level key of the user and an MCP server of the user. *)
Definition user_settings (k : string) : gmap string json :=
  <["theme" := JStr "dark"]>
  (<[k := JObj (<["custom" := JObj (<["command" := JStr "my-server"]> ∅)]> ∅)]> ∅).

Definition configured_project : Sample.world :=
  Sample.World (Sample.texts Sample.package)
    (<["/proj/.mcp.json" := user_settings "mcpServers"]>
     (<["/proj/opencode.json" := user_settings "mcp"]>
     (Sample.docs Sample.package)))
    (Sample.listings Sample.package).

Definition github_template : gmap string json :=
  <["command" := JStr "npx"]>
  (<["args" := JArr [JStr "-y"; JStr "server"]]>
  (<["env" := JObj (<["TOKEN" := JStr "x"]> ∅)]> ∅)).

Definition github_opencode : json :=
  JObj (<["type" := JStr "local"]>
       (<["command" := JArr [JStr "npx"; JStr "-y"; JStr "server"]]>
       (<["environment" := JObj (<["TOKEN" := JStr "x"]> ∅)]> ∅))).

(** What the sample runs write to the two settings files. *)
Definition written_mcp_json : gmap string json :=
  <["theme" := JStr "dark"]>
  (<["mcpServers" :=
       JObj (<["custom" := JObj (<["command" := JStr "my-server"]> ∅)]>
            (<["github" := JObj github_template]> ∅))]> ∅).

Definition written_opencode_json : gmap string json :=
  <["theme" := JStr "dark"]>
  (<["mcp" :=
       JObj (<["custom" := JObj (<["command" := JStr "my-server"]> ∅)]>
            (<["github" := github_opencode]> ∅))]> ∅).

(** The documents a trace writes, in order. *)
Definition json_writes (t : list event) : list (string * gmap string json) :=
  omap (fun e => match e with
                 | EvWriteJson p d => Some (p, d)
                 | _ => None
                 end) t.

Section McpTerms.

Context {Reg : Registry} {World : Type} {Host : HostOps World}.

Definition settings_path (projectDir : string) (agent : AgentConfig) : string :=
  path_join [projectDir; default "" (settingsFile agent)].

Definition settings_dir (projectDir : string) (agent : AgentConfig) : string :=
  path_dirname (settings_path projectDir agent).

Definition templates_dir : string := path_join [getMcpDir; "templates"].

(** The capability gate: no MCP support, or no settings file. *)
Definition gated (agent : AgentConfig) : bool :=
  negb (supportsMcp agent) || negb (nonempty (settingsFile agent)).

(** The host state in which templates and settings are read: the one
    [ensureDir] leaves. *)
Definition prepared (projectDir : string) (agent : AgentConfig) (w : World) : World :=
  (ensureDir (settings_dir projectDir agent) w).2.

(** The template selected for a key: its flag is set and its file is
    there. *)
Definition selected_template (options : McpOptions) (key : McpServerKey)
    (w : World) : option (gmap string json) :=
  if flag options key then
    match readJsonFile (template_path templates_dir key) w with
    | Ok (Some t) => Some t
    | _ => None
    end
  else None.

(** Every flag is off or its template file is missing. *)
Definition none_selected (options : McpOptions) (w : World) : Prop :=
  forall key,
    flag options key = false \/
    readJsonFile (template_path templates_dir key) w = Ok None.

(** The settings document the merge starts from. *)
Definition loaded_settings (path : string) (w : World) : gmap string json :=
  match fileExists path w with
  | Ok true =>
      match readJsonFile path w with
      | Ok (Some d) => d
      | _ => ∅
      end
  | _ => ∅
  end.

(** The name of the MCP sub-map in the agent's settings. *)
Definition sub_map_name (agentId : string) : string :=
  if String.eqb agentId "opencode" then "mcp" else "mcpServers".

(** The shape conversion the agent's settings call for. *)
Definition conversion (agentId : string) (template : gmap string json) : result json :=
  if String.eqb agentId "opencode" then toOpenCodeFormat template
  else Ok (JObj template).

(** A trace made of reads of template files only. *)
Definition reads_only (t : list event) : Prop :=
  forall e, e ∈ t -> exists key, e = EvReadJson (template_path templates_dir key).

(** The selected templates, read in the order of [server_keys]. *)
Fixpoint selection (options : McpOptions) (dir : string)
    (keys : list McpServerKey) (w : World)
  : result (list (McpServerKey * gmap string json)) :=
  match keys with
  | [] => Ok []
  | key :: rest =>
      if negb (flag options key) then selection options dir rest w
      else
        match readJsonFile (template_path dir key) w with
        | Throw e => Throw e
        | Ok None => selection options dir rest w
        | Ok (Some t) =>
            match selection options dir rest w with
            | Ok l => Ok ((key, t) :: l)
            | Throw e => Throw e
            end
        end
  end.

End McpTerms.

(** ** Vocabulary of the further properties *)

Section MoreConfigTerms.

Context {Reg : Registry}.

(** The five properties [createDefaultConfig] sets. *)
Definition schema_key (k : string) : bool :=
  String.eqb k "version" || String.eqb k "agent" || String.eqb k "skillsDir"
  || String.eqb k "installedSkills" || String.eqb k "mcp".

(** The value of property [k] after migration, for the profile [agent] of
    the resolved agent: [agent], [installedSkills] and [mcp] are set
    last; every other property is the stored one when there is one, and
    the default one otherwise. *)
Definition migrated_field (config : gmap string json) (agent : AgentConfig)
    (k : string) : option json :=
  if String.eqb k "mcp" then
    Some (JObj (spread default_mcp (own_props (config !! "mcp"))))
  else if String.eqb k "installedSkills" then
    Some (if isArray (config !! "installedSkills")
          then default (JArr []) (config !! "installedSkills")
          else JArr [])
  else if String.eqb k "agent" then Some (resolveAgentId (config !! "agent"))
  else
    match config !! k with
    | Some v => Some v
    | None =>
        if String.eqb k "version" then Some (JStr CURRENT_VERSION)
        else if String.eqb k "skillsDir" then Some (JStr (agent_skillsDir agent))
        else None
    end.

End MoreConfigTerms.

Section HostLaws.

Context {World : Type} {Host : HostOps World}.

(** A JSON document that was written is the one read back. *)
Definition reads_back_writes : Prop :=
  forall p d w,
    (writeJsonFile p d w).1 = Ok tt ->
    readJsonFile p (writeJsonFile p d w).2 = Ok (Some d).

End HostLaws.

Section MoreInstallerTerms.

Context {Reg : Registry} {World : Type} {Host : HostOps World}.

(** The skills of the package: the directories whose name does not start
    with an underscore. *)
Definition available_of (dirs : list string) : list string :=
  List.filter (fun dir => negb (starts_with_underscore dir)) dirs.

(** The recorded keys [updateSkills] passes on for reconciliation. *)
Definition custom_keys (config : AiFactoryConfig) : list string :=
  List.filter includes_slash (cfg_installedSkills config).

(** The request [updateSkills] makes of [installSkills]. *)
Definition update_request (config : AiFactoryConfig) (projectDir : string)
    (available : list string) : InstallOptions :=
  {| projectDir := projectDir;
     skillsDir := cfg_skillsDir config;
     skills := available;
     stack := None;
     agentId := cfg_agent config |}.

Definition is_post (e : event) : bool :=
  match e with EvPostInstall _ => true | _ => false end.

(** The calls of the [postInstall] hook in a trace. *)
Definition posts (t : list event) : list event := List.filter is_post t.

(** Neither a warning nor a call of the hook. *)
Definition plain_event (e : event) : bool := negb (is_warning e) && negb (is_post e).

(** The steps of [installSkills] after its two loops: the transformer's
    [postInstall] hook, when there is one, then the list pushed so far. *)
Definition finish_of (options : InstallOptions) : M (World * list string) (list string) :=
  transformer ← of_result (getTransformer (agentId options));
  _ ← match postInstall transformer with
      | Some hook =>
          lift (mutate (EvPostInstall (projectDir options))
                       (hook (projectDir options)))
      | None => ret tt
      end;
  get_local.

End MoreInstallerTerms.

Section MoreMcpTerms.

Context {Reg : Registry} {World : Type} {Host : HostOps World}.

(** The names of the servers of a selection, in its order. *)
Definition names_of (sel : list (McpServerKey * gmap string json)) : list string :=
  (fun entry => key_name entry.1) <$> sel.

(** The document [configureMcp] writes for the selection [sel] when the
    settings it loaded are [loaded] and the merge gave the sub-map [sub]. *)
Definition merged_document (k : string) (loaded : gmap string json) (sub : json)
  : gmap string json :=
  <[k := sub]> (ensure_sub_map k loaded).

(** Laws of a host whose files are what was last written to them. *)
Record lawful_host : Prop := {
  law_read_back : reads_back_writes;
  law_written_exists :
    forall p d w,
      (writeJsonFile p d w).1 = Ok tt ->
      fileExists p (writeJsonFile p d w).2 = Ok true;
  law_write_elsewhere :
    forall p p' d w,
      p' <> p ->
      readJsonFile p' (writeJsonFile p d w).2 = readJsonFile p' w;
  law_ensureDir_reads :
    forall dir p w, readJsonFile p (ensureDir dir w).2 = readJsonFile p w;
  law_ensureDir_exists :
    forall dir p w, fileExists p (ensureDir dir w).2 = fileExists p w
}.

(** The server names [getMcpInstructions] knows, in its order. *)
Definition known_servers : list string :=
  ["github"; "filesystem"; "postgres"; "chromeDevtools"].

(** Whether [toOpenCodeFormat] can spread the [args] of a template:
    absent or falsy [args] count as none, arrays and strings are spread,
    any other value is not iterable. *)
Definition args_spreadable (args : option json) : bool :=
  match args with
  | Some (JObj _) => false
  | Some (JNum z) => Z.eqb z 0
  | Some (JBool b) => negb b
  | _ => true
  end.

(** No template file is the agent's settings file. *)
Definition templates_apart (projectDir : string) (agent : AgentConfig) : Prop :=
  forall key, template_path templates_dir key <> settings_path projectDir agent.

End MoreMcpTerms.

(** *** Further samples *)

(** The sample package with its skill directories listed. *)
Definition listed_package : Sample.world :=
  Sample.World (Sample.texts Sample.package) (Sample.docs Sample.package)
    (<["/pkg/skills" := ["plan"; "_templates"; "review"]]>
     (Sample.listings Sample.package)).

(** A stored configuration with a property the schema does not know. *)
Definition annotated_config : gmap string json :=
  <["note" := JStr "kept"]> (<["skillsDir" := JStr "my/skills"]> ∅).

(** A template with a property [toOpenCodeFormat] does not read. *)
Definition described_template : gmap string json :=
  <["description" := JStr "GitHub"]>
  (<["command" := JStr "npx"]> (<["args" := JArr [JStr "-y"]]> ∅)).

Section ShapeTerms.

Context {Reg : Registry} {World : Type} {Host : HostOps World}.



End ShapeTerms.




(** * Properties *)

(** ** Configuration migration *)

Section ConfigFacts.

Context {Reg : Registry} {World : Type} {Host : HostOps World}.

Lemma resolveAgentId_cases (a : option json) :
  resolveAgentId a =
    match a with
    | Some v => if truthy v && is_ok (getAgentConfig v) then v else JStr "claude"
    | None => JStr "claude"
    end.
Proof.
  unfold resolveAgentId. destruct a as [v|]; [|reflexivity].
  destruct (truthy v); simpl; [|reflexivity].
  destruct (getAgentConfig v); reflexivity.
Qed.

Lemma resolveAgentId_idem (a : option json) :
  resolveAgentId (Some (resolveAgentId a)) = resolveAgentId a.
Proof.
  rewrite (resolveAgentId_cases a).
  destruct a as [v|].
  - destruct (truthy v && is_ok (getAgentConfig v)) eqn:E.
    + rewrite resolveAgentId_cases, E. reflexivity.
    + rewrite resolveAgentId_cases. simpl.
      destruct (is_ok (getAgentConfig (JStr "claude"))); reflexivity.
  - rewrite resolveAgentId_cases. simpl.
    destruct (is_ok (getAgentConfig (JStr "claude"))); reflexivity.
Qed.

Lemma resolveAgentId_known (a : option json) :
  claude_registered -> is_ok (getAgentConfig (resolveAgentId a)) = true.
Proof.
  intros Hc. rewrite resolveAgentId_cases.
  destruct a as [v|]; [|exact Hc].
  destruct (truthy v && is_ok (getAgentConfig v)) eqn:E; [|exact Hc].
  apply andb_true_iff in E. tauto.
Qed.

(** Under [claude_registered] the migration returns, and this is the
    object it returns. *)
Lemma migrateConfig_returns (config : gmap string json) :
  claude_registered ->
  exists agent,
    getAgentConfig (resolveAgentId (config !! "agent")) = Ok agent /\
    migrateConfig config =
      Ok (<["mcp" := JObj (spread default_mcp (own_props (config !! "mcp")))]>
         (set_field "installedSkills"
            (if isArray (config !! "installedSkills")
             then config !! "installedSkills" else Some (JArr []))
         (<["agent" := resolveAgentId (config !! "agent")]>
         (spread
            (<["mcp" := JObj default_mcp]>
            (<["installedSkills" := JArr []]>
            (<["skillsDir" := JStr (agent_skillsDir agent)]>
            (<["agent" := resolveAgentId (config !! "agent")]>
            (<["version" := JStr CURRENT_VERSION]> ∅)))))
            config)))).
Proof.
  intros Hc.
  pose proof (resolveAgentId_known (config !! "agent") Hc) as Hk.
  destruct (getAgentConfig (resolveAgentId (config !! "agent"))) as [agent|e] eqn:Hg;
    [|discriminate].
  exists agent. split; [reflexivity|].
  unfold migrateConfig, createDefaultConfig. cbn [from_option id].
  rewrite resolveAgentId_idem, Hg.
  unfold pick_installedSkills.
  rewrite lookup_insert_eq.
  rewrite lookup_insert_ne by discriminate. rewrite lookup_insert_eq.
  assert (own_props (Some (nullish_or (config !! "mcp") (JObj ∅)))
          = own_props (config !! "mcp")) as ->
    by (destruct (config !! "mcp") as [[]|]; reflexivity).
  reflexivity.
Qed.

Lemma loadConfig_returns (projectDir : string) (w : World)
    (config out : gmap string json) :
  readJsonFile (getConfigPath projectDir) w = Ok (Some config) ->
  migrateConfig config = Ok out ->
  loadConfig projectDir w
  = Outcome (Ok (Some out)) w [EvReadJson (getConfigPath projectDir)].
Proof.
  intros Hr Hm. unfold loadConfig, mbind, M_bind, bind, observe. simpl.
  rewrite Hr. simpl. unfold of_result, bind. simpl. rewrite Hm. reflexivity.
Qed.

Lemma default_mcp_flag (key : McpServerKey) :
  default_mcp !! key_name key = Some (JBool false).
Proof. destruct key; reflexivity. Qed.

Lemma spread_lookup (a b : gmap string json) (k : string) :
  spread a b !! k = match b !! k with Some v => Some v | None => a !! k end.
Proof.
  unfold spread. rewrite lookup_union.
  destruct (b !! k), (a !! k); reflexivity.
Qed.

(** C1 (amended): the migrated configuration, and the one [loadConfig]
    returns for an existing file, carries the stored [version] when the
    stored configuration has one, and the tool's current version when it
    has none. *)
Theorem migrateConfig_version (config : gmap string json) :
  claude_registered ->
  (exists out,
      migrateConfig config = Ok out /\
      out !! "version" = Some (default (JStr CURRENT_VERSION) (config !! "version")))
  /\ (forall projectDir w,
        readJsonFile (getConfigPath projectDir) w = Ok (Some config) ->
        exists out,
          res (loadConfig projectDir w) = Ok (Some out) /\
          out !! "version"
          = Some (default (JStr CURRENT_VERSION) (config !! "version"))).
Proof.
  intros Hc.
  destruct (migrateConfig_returns config Hc) as (agent & _ & Hm).
  assert (forall out, migrateConfig config = Ok out ->
            out !! "version"
            = Some (default (JStr CURRENT_VERSION) (config !! "version"))) as Hv.
  { intros out Ho. rewrite Hm in Ho. injection Ho as <-.
    rewrite lookup_insert_ne by discriminate.
    assert (forall v o, set_field "installedSkills" v o !! "version" = o !! "version") as ->.
    { intros [v|] o; simpl; [|reflexivity]. apply lookup_insert_ne. discriminate. }
    rewrite lookup_insert_ne by discriminate.
    rewrite spread_lookup.
    destruct (config !! "version"); [reflexivity|]. simpl.
    repeat rewrite lookup_insert_ne by discriminate.
    apply lookup_insert_eq. }
  split.
  - eexists. split; [exact Hm|]. apply Hv, Hm.
  - intros projectDir w Hr. eexists.
    rewrite (loadConfig_returns _ _ _ _ Hr Hm). simpl.
    split; [reflexivity|]. apply Hv, Hm.
Qed.

(** C3: the [mcp] object of the result is the stored one laid over the
    default flags key by key: a flag the input has keeps the input's
    value, a flag it lacks (or every flag, when [mcp] itself is absent)
    keeps its default [false], and [{github: true}] alone gives the four
    flags with only [github] set. *)
Theorem migrateConfig_mcp_merge (config : gmap string json) :
  claude_registered ->
  exists out m,
    migrateConfig config = Ok out /\
    out !! "mcp" = Some (JObj m) /\
    (forall k,
        m !! k = match own_props (config !! "mcp") !! k with
                 | Some v => Some v
                 | None => default_mcp !! k
                 end) /\
    (forall given key v,
        config !! "mcp" = Some (JObj given) ->
        given !! key_name key = Some v ->
        m !! key_name key = Some v) /\
    (forall given key,
        config !! "mcp" = Some (JObj given) ->
        given !! key_name key = None ->
        m !! key_name key = Some (JBool false)) /\
    (config !! "mcp" = None ->
     forall key, m !! key_name key = Some (JBool false)) /\
    (config !! "mcp" = Some (JObj (<["github" := JBool true]> ∅)) ->
     m = <["github" := JBool true]>
         (<["filesystem" := JBool false]>
         (<["postgres" := JBool false]>
         (<["chromeDevtools" := JBool false]> ∅)))).
Proof.
  intros Hc.
  destruct (migrateConfig_returns config Hc) as (agent & _ & Hm).
  eexists. exists (spread default_mcp (own_props (config !! "mcp"))).
  split; [exact Hm|]. split; [apply lookup_insert_eq|].
  split; [intros k; apply spread_lookup|].
  repeat split.
  - intros given key v Hg Hk. rewrite spread_lookup, Hg. simpl. rewrite Hk. reflexivity.
  - intros given key Hg Hk. rewrite spread_lookup, Hg. simpl. rewrite Hk.
    apply default_mcp_flag.
  - intros Hg key. rewrite spread_lookup, Hg. simpl. rewrite lookup_empty.
    apply default_mcp_flag.
  - intros Hg. rewrite Hg. simpl. vm_compute. exact eq_refl.
Qed.

(** C9: with the default agent in the registry the migration never
    fails; the result's [agent] is ['claude'] when the stored one is
    missing or not in the registry, and the stored one when it is. *)
Theorem migrateConfig_total_agent (config : gmap string json) :
  claude_registered ->
  ids_truthy ->
  exists out,
    migrateConfig config = Ok out /\
    out !! "agent"
    = Some (match config !! "agent" with
            | Some a => if is_ok (getAgentConfig a) then a else JStr "claude"
            | None => JStr "claude"
            end).
Proof.
  intros Hc Ht.
  destruct (migrateConfig_returns config Hc) as (agent & _ & Hm).
  eexists. split; [exact Hm|].
  rewrite lookup_insert_ne by discriminate.
  assert (forall v o, set_field "installedSkills" v o !! "agent" = o !! "agent") as ->.
  { intros [v|] o; simpl; [|reflexivity]. apply lookup_insert_ne. discriminate. }
  rewrite lookup_insert_eq. f_equal.
  rewrite resolveAgentId_cases.
  destruct (config !! "agent") as [a|]; [|reflexivity].
  destruct (truthy a) eqn:E; simpl; [reflexivity|].
  rewrite (Ht a E). reflexivity.
Qed.

(** C10: the result's [installedSkills] is always an array: the stored
    one when that is an array, the empty one otherwise (absent, a
    string, an object, ...); the same holds for what [loadConfig]
    returns. *)
Theorem migrateConfig_installedSkills_array (config : gmap string json) :
  claude_registered ->
  (exists out l,
      migrateConfig config = Ok out /\
      out !! "installedSkills" = Some (JArr l) /\
      (isArray (config !! "installedSkills") = false -> l = []) /\
      (forall l', config !! "installedSkills" = Some (JArr l') -> l = l'))
  /\ (forall projectDir w,
        readJsonFile (getConfigPath projectDir) w = Ok (Some config) ->
        exists out l,
          res (loadConfig projectDir w) = Ok (Some out) /\
          out !! "installedSkills" = Some (JArr l)).
Proof.
  intros Hc.
  destruct (migrateConfig_returns config Hc) as (agent & _ & Hm).
  assert (exists l,
            (if isArray (config !! "installedSkills")
             then config !! "installedSkills" else Some (JArr [])) = Some (JArr l)
            /\ (isArray (config !! "installedSkills") = false -> l = [])
            /\ (forall l', config !! "installedSkills" = Some (JArr l') -> l = l'))
    as (l & Hl & Hnil & Hkeep).
  { destruct (config !! "installedSkills") as [[| b | z | s | stored | m]|] eqn:E;
      simpl;
      try (exists []; split; [reflexivity|]; split; [reflexivity | discriminate]).
    exists stored. split; [reflexivity|].
    split; [discriminate | intros l' [= <-]; reflexivity]. }
  rewrite Hl in Hm. simpl in Hm.
  assert (forall out, migrateConfig config = Ok out ->
            out !! "installedSkills" = Some (JArr l)) as Hv.
  { intros out Ho. rewrite Hm in Ho. injection Ho as <-.
    rewrite lookup_insert_ne by discriminate. apply lookup_insert_eq. }
  split.
  - eexists. exists l. split; [exact Hm|]. split; [apply Hv, Hm|]. split; assumption.
  - intros projectDir w Hr. eexists. exists l.
    rewrite (loadConfig_returns _ _ _ _ Hr Hm). simpl.
    split; [reflexivity|]. apply Hv, Hm.
Qed.

End ConfigFacts.

(** *** The configuration properties on the sample registry *)

(** C1, refuted as stated: a stored [version: "0.0.1"] comes back as
    ["0.0.1"], not as the current version ["2.0.0"]. *)
Lemma migrateConfig_version_not_forced :
  field_of (migrateConfig (Reg := Sample.registry) (<["version" := JStr "0.0.1"]> ∅))
           "version" = Some (JStr "0.0.1") /\
  field_of (migrateConfig (Reg := Sample.registry) (<["version" := JStr "0.0.1"]> ∅))
           "version" <> Some (JStr (@CURRENT_VERSION Sample.registry)).
Proof.
  assert (field_of (migrateConfig (Reg := Sample.registry)
                      (<["version" := JStr "0.0.1"]> ∅)) "version"
          = Some (JStr "0.0.1")) as E by (vm_compute; exact eq_refl).
  split; [exact E|]. rewrite E. simpl. discriminate.
Qed.

Lemma migrateConfig_version_witness :
  claude_registered (Reg := Sample.registry) /\
  exists out,
    migrateConfig (Reg := Sample.registry) stored_config = Ok out /\
    out !! "version"
    = Some (default (JStr (@CURRENT_VERSION Sample.registry))
                    (stored_config !! "version")).
Proof.
  split; [reflexivity|].
  apply (migrateConfig_version (Reg := Sample.registry) (Host := Sample.host)
           stored_config).
  reflexivity.
Defined.

Lemma migrateConfig_mcp_merge_witness :
  claude_registered (Reg := Sample.registry) /\
  exists out m,
    migrateConfig (Reg := Sample.registry) stored_config = Ok out /\
    out !! "mcp" = Some (JObj m) /\
    m !! "github" = Some (JBool true) /\
    m !! "filesystem" = Some (JBool false).
Proof.
  split; [reflexivity|].
  destruct (migrateConfig_mcp_merge (Reg := Sample.registry) stored_config)
    as (out & m & Hm & Hl & _ & Hin & Hout & _); [reflexivity|].
  exists out, m. split; [exact Hm|]. split; [exact Hl|]. split.
  - apply (Hin (<["github" := JBool true]> ∅) KGithub); reflexivity.
  - apply (Hout (<["github" := JBool true]> ∅) KFilesystem); reflexivity.
Defined.

Lemma migrateConfig_total_agent_witness :
  claude_registered (Reg := Sample.registry) /\
  ids_truthy (Reg := Sample.registry) /\
  exists out,
    migrateConfig (Reg := Sample.registry)
      (<["agent" := JStr "no-such-agent"]> ∅) = Ok out /\
    out !! "agent" = Some (JStr "claude").
Proof.
  assert (ids_truthy (Reg := Sample.registry)) as Ht.
  { intros v Hv. destruct v as [| b | z | s | l | m]; try reflexivity.
    destruct s; [reflexivity | discriminate]. }
  split; [reflexivity|]. split; [exact Ht|].
  destruct (migrateConfig_total_agent (Reg := Sample.registry)
              (<["agent" := JStr "no-such-agent"]> ∅))
    as (out & Hm & Ha); [reflexivity | exact Ht |].
  exists out. split; [exact Hm|]. rewrite Ha. vm_compute. reflexivity.
Defined.

Lemma migrateConfig_installedSkills_array_witness :
  claude_registered (Reg := Sample.registry) /\
  exists out,
    migrateConfig (Reg := Sample.registry) stored_config = Ok out /\
    out !! "installedSkills" = Some (JArr []).
Proof.
  split; [reflexivity|].
  destruct (migrateConfig_installedSkills_array (Reg := Sample.registry)
              (Host := Sample.host) stored_config)
    as [(out & l & Hm & Hl & Hnil & _) _]; [reflexivity|].
  exists out. split; [exact Hm|].
  rewrite Hl, (Hnil eq_refl). reflexivity.
Defined.

(** ** Loops, exceptions and traces *)

Section MonadFacts.

Context {S : Type}.

Lemma outcome_eta {A} (o : outcome S A) :
  Outcome (res o) (final o) (trace o) = o.
Proof. destruct o; reflexivity. Qed.

Lemma bind_of_result {A B} (a : A) (k : A -> M S B) (s : S) :
  bind (of_result (Ok a)) k s = k a s.
Proof. unfold bind, of_result. simpl. apply outcome_eta. Qed.

Lemma bind_mutate {B} (e : event) (f : S -> result unit * S)
    (k : unit -> M S B) (s : S) :
  bind (mutate e f) k s
  = match (f s).1 with
    | Ok _ =>
        Outcome (res (k tt (f s).2)) (final (k tt (f s).2))
                (e :: trace (k tt (f s).2))
    | Throw err => Outcome (Throw err) (f s).2 [e]
    end.
Proof. unfold bind, mutate. simpl. destruct (f s).1 as [[]|err]; reflexivity. Qed.

Lemma for_each_app {A} (l1 l2 : list A) (body : A -> M S unit) (s : S) :
  for_each (l1 ++ l2) body s
  = bind (for_each l1 body) (fun _ => for_each l2 body) s.
Proof.
  revert s. induction l1 as [|x l1 IH]; intros s; simpl.
  - unfold bind, ret. simpl. symmetry. apply outcome_eta.
  - unfold bind in *. simpl.
    destruct (body x s) as [[[]|e] s1 t1]; simpl; [|reflexivity].
    rewrite IH.
    destruct (for_each l1 body s1) as [[[]|e] s2 t2]; simpl; [|reflexivity].
    rewrite app_assoc. reflexivity.
Qed.

Lemma for_each_cons_ok {A} (x : A) (l : list A) (body : A -> M S unit)
    (s s' : S) (t : list event) :
  body x s = Outcome (Ok tt) s' t ->
  for_each (x :: l) body s
  = Outcome (res (for_each l body s')) (final (for_each l body s'))
            (t ++ trace (for_each l body s')).
Proof. intros E. simpl. unfold bind. rewrite E. reflexivity. Qed.

(** A loop whose body never throws never throws. *)
Lemma for_each_ok {A} (l : list A) (body : A -> M S unit) :
  (forall x s, res (body x s) = Ok tt) ->
  forall s, res (for_each l body s) = Ok tt.
Proof.
  intros Hb. induction l as [|x l IH]; intros s; simpl; [reflexivity|].
  unfold bind. rewrite Hb. simpl. apply IH.
Qed.

(** Fault isolation for a loop: an element whose round fails back to the
    state it started from, leaving only the events [tb], changes
    nothing for the rounds after it nor for what follows the loop. *)
Lemma for_each_skip {A B} (pre post : list A) (bad : A)
    (body : A -> M S unit) (k : unit -> M S B) (s : S) (tb : list event) :
  res (for_each pre body s) = Ok tt ->
  body bad (final (for_each pre body s))
  = Outcome (Ok tt) (final (for_each pre body s)) tb ->
  let o := bind (for_each (pre ++ bad :: post) body) k s in
  let o' := bind (for_each (pre ++ post) body) k s in
  res o = res o' /\ final o = final o' /\
  exists t1 t2, trace o = t1 ++ tb ++ t2 /\ trace o' = t1 ++ t2.
Proof.
  intros Hpre Hbad o o'.
  assert (for_each (pre ++ bad :: post) body s
          = Outcome (res (for_each post body (final (for_each pre body s))))
                    (final (for_each post body (final (for_each pre body s))))
                    (trace (for_each pre body s) ++ tb
                     ++ trace (for_each post body (final (for_each pre body s)))))
    as E.
  { rewrite for_each_app. unfold bind. rewrite Hpre. simpl.
    unfold bind. rewrite Hbad. reflexivity. }
  assert (for_each (pre ++ post) body s
          = Outcome (res (for_each post body (final (for_each pre body s))))
                    (final (for_each post body (final (for_each pre body s))))
                    (trace (for_each pre body s)
                     ++ trace (for_each post body (final (for_each pre body s)))))
    as E'.
  { rewrite for_each_app. unfold bind. rewrite Hpre. reflexivity. }
  subst o o'. unfold bind. rewrite E, E'. simpl.
  destruct (res (for_each post body (final (for_each pre body s)))) as [[]|e]; simpl.
  - split; [reflexivity|]. split; [reflexivity|].
    exists (trace (for_each pre body s)),
           (trace (for_each post body (final (for_each pre body s)))
            ++ trace (k () (final (for_each post body (final (for_each pre body s)))))).
    rewrite <- !app_assoc. split; reflexivity.
  - split; [reflexivity|]. split; [reflexivity|].
    exists (trace (for_each pre body s)),
           (trace (for_each post body (final (for_each pre body s)))).
    split; reflexivity.
Qed.

End MonadFacts.

(** ** Skill installation *)

Section InstallerFacts.

Context {Reg : Registry} {World : Type} {Host : HostOps World}.

Lemma install_without_skill_md
    (sourceSkillDir skillName pd sd aid : string) (ac : AgentConfig)
    (tr : Transformer World) (w : World) :
  getTransformer aid = Ok tr ->
  no_skill_md (path_join [sourceSkillDir; "SKILL.md"]) w ->
  installSkillWithTransformer sourceSkillDir skillName pd sd aid ac w
  = Outcome (Throw (missing_error sourceSkillDir)) w
            [EvReadText (path_join [sourceSkillDir; "SKILL.md"])].
Proof.
  intros Ht (c & Hr & Hc).
  unfold installSkillWithTransformer, mbind, M_bind, bind, of_result, observe.
  simpl. rewrite Ht. simpl. rewrite Hr. simpl. rewrite Hc. reflexivity.
Qed.

Lemma install_requested_cases (options : InstallOptions) (ac : AgentConfig)
    (skill : string) (w : World) (acc : list string) :
  install_requested getSkillsDir options ac skill (w, acc)
  = match res (install_of options ac skill w) with
    | Ok _ =>
        Outcome (Ok tt) (final (install_of options ac skill w), acc ++ [skill])
                (trace (install_of options ac skill w))
    | Throw e =>
        Outcome (Ok tt) (final (install_of options ac skill w), acc)
                (trace (install_of options ac skill w)
                 ++ [EvWarn (install_warning skill e)])
    end.
Proof.
  unfold install_requested, try_catch, mbind, M_bind, bind, lift, push, warn.
  fold (install_of options ac skill). simpl.
  destruct (install_of options ac skill w) as [[[]|e] w' t]; simpl.
  - rewrite app_nil_r. reflexivity.
  - reflexivity.
Qed.

Lemma install_requested_ok (options : InstallOptions) (ac : AgentConfig)
    (skill : string) (s : World * list string) :
  res (install_requested getSkillsDir options ac skill s) = Ok tt.
Proof.
  destruct s as [w acc]. rewrite install_requested_cases.
  destruct (res (install_of options ac skill w)); reflexivity.
Qed.

Lemma requested_loop (options : InstallOptions) (ac : AgentConfig)
    (requested : list string) :
  forall w acc,
    (final (for_each requested (install_requested getSkillsDir options ac) (w, acc))).2
    = acc ++ installed_requested options ac requested w.
Proof.
  induction requested as [|skill rest IH]; intros w acc; simpl.
  - rewrite app_nil_r. reflexivity.
  - unfold bind. rewrite install_requested_cases.
    destruct (res (install_of options ac skill w)) as [[]|e]; simpl;
      rewrite IH; [rewrite <- app_assoc|]; reflexivity.
Qed.

Lemma installed_requested_sublist (options : InstallOptions) (ac : AgentConfig)
    (requested : list string) (w : World) :
  installed_requested options ac requested w `sublist_of` requested.
Proof.
  revert w. induction requested as [|skill rest IH]; intros w; simpl; [constructor|].
  destruct (is_ok (res (install_of options ac skill w))); simpl.
  - apply sublist_skip, IH.
  - apply sublist_cons, IH.
Qed.

Lemma installed_templates_prefix (options : InstallOptions) (ac : AgentConfig)
    (listing : list string) (w : World) :
  installed_templates options ac listing w `prefix_of` listing.
Proof.
  revert w. induction listing as [|t rest IH]; intros w; simpl; [reflexivity|].
  destruct (is_ok (res (template_of options ac t w))).
  - apply prefix_cons, IH.
  - apply prefix_nil.
Qed.

Lemma install_template_cases (options : InstallOptions) (ac : AgentConfig)
    (templateSkill : string) (w : World) (acc : list string) :
  install_template (stack_dir options) (default "" (stack options)) options ac
                   templateSkill (w, acc)
  = match res (template_of options ac templateSkill w) with
    | Ok _ =>
        Outcome (Ok tt)
                (final (template_of options ac templateSkill w),
                 acc ++ [stack_key options templateSkill])
                (trace (template_of options ac templateSkill w))
    | Throw e =>
        Outcome (Throw e) (final (template_of options ac templateSkill w), acc)
                (trace (template_of options ac templateSkill w))
    end.
Proof.
  unfold install_template, mbind, M_bind, bind, lift, push.
  fold (template_of options ac templateSkill). simpl.
  destruct (template_of options ac templateSkill w) as [[[]|e] w' t]; simpl.
  - rewrite app_nil_r. reflexivity.
  - reflexivity.
Qed.

Lemma templates_loop (options : InstallOptions) (ac : AgentConfig)
    (listing : list string) :
  forall w acc,
    (final (for_each listing
              (install_template (stack_dir options) (default "" (stack options))
                                options ac)
              (w, acc))).2
    = acc ++ (stack_key options <$> installed_templates options ac listing w).
Proof.
  induction listing as [|t rest IH]; intros w acc; simpl.
  - rewrite app_nil_r. reflexivity.
  - unfold bind. rewrite install_template_cases.
    destruct (res (template_of options ac t w)) as [[]|e]; simpl.
    + rewrite IH, <- app_assoc. reflexivity.
    + rewrite app_nil_r. reflexivity.
Qed.

Lemma install_stack_exact (options : InstallOptions) (ac : AgentConfig)
    (s : World * list string) :
  (final (install_stack getSkillsDir options ac s)).2
  = s.2 ++ (stack_key options <$> installed_stack options ac s.1).
Proof.
  unfold install_stack, installed_stack.
  destruct (nonempty (stack options)); [|simpl; rewrite app_nil_r; reflexivity].
  fold (stack_dir options).
  unfold try_catch, mbind, M_bind, bind, lift, observe, ret. simpl.
  destruct (listDirectories (stack_dir options) s.1) as [listing|e]; simpl.
  - pose proof (templates_loop options ac listing s.1 s.2) as Hl.
    match goal with
    | |- context [match res ?o with _ => _ end] => destruct (res o)
    end; exact Hl.
  - rewrite app_nil_r. reflexivity.
Qed.

(** The steps after the two loops return the local array as it stands. *)
Lemma installSkills_unfold (options : InstallOptions) (ac : AgentConfig) (w : World) :
  getAgentConfig (JStr (agentId options)) = Ok ac ->
  exists finish : M (World * list string) (list string),
    (forall s l, res (finish s) = Ok l -> l = s.2) /\
    (hook_succeeds options ->
     forall s, res (finish s) = Ok s.2 /\ warnings (trace (finish s)) = []) /\
    forall skills',
      installSkills (with_skills options skills') w
      = with_local []
          (bind (lift (mutate (EvEnsureDir (path_join [projectDir options; skillsDir options]))
                              (ensureDir (path_join [projectDir options; skillsDir options]))))
             (fun _ =>
                bind (for_each skills' (install_requested getSkillsDir options ac))
                     (fun _ => bind (install_stack getSkillsDir options ac)
                                    (fun _ => finish)))) w.
Proof.
  intros Hg.
  exists (transformer ← of_result (getTransformer (agentId options));
          _ ← match postInstall transformer with
              | Some hook =>
                  lift (mutate (EvPostInstall (projectDir options))
                               (hook (projectDir options)))
              | None => ret tt
              end;
          get_local).
  split; [|split].
  - intros s l. unfold mbind, M_bind, bind, of_result, get_local, lift, mutate, ret.
    simpl. destruct (getTransformer (agentId options)) as [tr|e]; simpl; [|discriminate].
    destruct (postInstall tr) as [hook|]; simpl.
    + destruct (hook (projectDir options) s.1) as [[[]|e] w']; simpl;
        [intros [= <-]; reflexivity | discriminate].
    + intros [= <-]; reflexivity.
  - intros (tr & Ht & Hh) s.
    unfold mbind, M_bind, bind, of_result, get_local, lift, mutate, ret.
    simpl. rewrite Ht. simpl.
    destruct (postInstall tr) as [hook|]; simpl; [|split; reflexivity].
    rewrite (Hh hook eq_refl). simpl. split; reflexivity.
  - intros skills'. unfold installSkills, with_local. simpl.
    unfold mbind, M_bind. unfold bind at 1, of_result at 1. simpl. rewrite Hg. simpl.
    reflexivity.
Qed.

Lemma installSkills_run (options : InstallOptions) (ac : AgentConfig) (w : World) :
  getAgentConfig (JStr (agentId options)) = Ok ac ->
  (ensureDir (path_join [projectDir options; skillsDir options]) w).1 = Ok tt ->
  exists finish : M (World * list string) (list string),
    (forall s l, res (finish s) = Ok l -> l = s.2) /\
    (hook_succeeds options ->
     forall s, res (finish s) = Ok s.2 /\ warnings (trace (finish s)) = []) /\
    forall skills',
      let rest :=
        bind (for_each skills' (install_requested getSkillsDir options ac))
             (fun _ => bind (install_stack getSkillsDir options ac) (fun _ => finish))
             (start_of options w) in
      installSkills (with_skills options skills') w
      = Outcome (res rest) (final rest).1
          (EvEnsureDir (path_join [projectDir options; skillsDir options])
           :: trace rest).
Proof.
  intros Hg He.
  destruct (installSkills_unfold options ac w Hg) as (finish & H1 & H2 & H3).
  exists finish. split; [exact H1|]. split; [exact H2|].
  intros skills' rest. rewrite H3. unfold with_local.
  unfold bind at 1 4 7. unfold lift at 1 2 3 4 5 6, mutate. simpl. rewrite He. simpl.
  reflexivity.
Qed.

Lemma install_no_warning (src name pd sd aid : string) (ac : AgentConfig) (w : World) :
  warnings (trace (installSkillWithTransformer src name pd sd aid ac w)) = [].
Proof.
  unfold installSkillWithTransformer, mbind, M_bind, bind, of_result, observe,
    mutate, throw, ret.
  simpl.
  repeat match goal with
         | |- context [match ?x with _ => _ end] => destruct x; simpl
         | |- context [if ?x then _ else _] => destruct x; simpl
         end; reflexivity.
Qed.

Lemma install_stack_ok (options : InstallOptions) (ac : AgentConfig)
    (s : World * list string) :
  res (install_stack getSkillsDir options ac s) = Ok tt.
Proof.
  unfold install_stack. destruct (nonempty (stack options)); [|reflexivity].
  unfold try_catch.
  match goal with
  | |- context [match res ?o with _ => _ end] => destruct o as [[[]|e] s' t]
  end; reflexivity.
Qed.

Lemma with_skills_same (options : InstallOptions) :
  with_skills options (skills options) = options.
Proof. destruct options; reflexivity. Qed.

Lemma install_requested_missing (options : InstallOptions) (ac : AgentConfig)
    (tr : Transformer World) (bad : string) (s : World * list string) :
  getTransformer (agentId options) = Ok tr ->
  no_skill_md (skill_md bad) s.1 ->
  install_requested getSkillsDir options ac bad s
  = Outcome (Ok tt) s
      [EvReadText (skill_md bad);
       EvWarn (install_warning bad (missing_error (path_join [getSkillsDir; bad])))].
Proof.
  intros Ht Hm. destruct s as [w acc]. rewrite install_requested_cases.
  unfold install_of.
  rewrite (install_without_skill_md _ _ _ _ _ _ tr w Ht Hm). reflexivity.
Qed.

(** C7: once the agent is known and the target directory is ensured,
    the list [installSkills] returns is the requested skills that
    installed, in request order, followed by the keys of the stack's
    template skills that installed, in listing order; it does return it
    when the [postInstall] hook does not fail.  A requested skill without
    [SKILL.md] costs one warning and changes neither the result nor the
    final state of the call that leaves it out.  With three requested
    skills of which the second has no [SKILL.md] and the others install,
    the result is the first and the third, with that single warning. *)
Theorem installSkills_fault_isolation
    (options : InstallOptions) (ac : AgentConfig) (w : World) :
  getAgentConfig (JStr (agentId options)) = Ok ac ->
  (ensureDir (path_join [projectDir options; skillsDir options]) w).1 = Ok tt ->
  (forall l,
      res (installSkills options w) = Ok l ->
      l = installed_requested options ac (skills options) (start_of options w).1
          ++ (stack_key options
                <$> installed_stack options ac
                      (world_after options ac (skills options) w)))
  /\ (hook_succeeds options ->
      res (installSkills options w)
      = Ok (installed_requested options ac (skills options) (start_of options w).1
            ++ (stack_key options
                  <$> installed_stack options ac
                        (world_after options ac (skills options) w))))
  /\ installed_requested options ac (skills options) (start_of options w).1
     `sublist_of` skills options
  /\ (forall listing w',
        installed_templates options ac listing w' `prefix_of` listing)
  /\ (forall pre bad post tr,
        getTransformer (agentId options) = Ok tr ->
        no_skill_md (skill_md bad) (world_after options ac pre w) ->
        let o := installSkills (with_skills options (pre ++ bad :: post)) w in
        let o' := installSkills (with_skills options (pre ++ post)) w in
        res o = res o' /\ final o = final o' /\
        exists t1 t2,
          trace o
          = t1 ++ [EvReadText (skill_md bad);
                   EvWarn (install_warning bad
                             (missing_error (path_join [getSkillsDir; bad])))]
               ++ t2 /\
          trace o' = t1 ++ t2)
  /\ (forall s1 s2 s3,
        skills options = [s1; s2; s3] ->
        stack options = None ->
        hook_succeeds options ->
        res (install_of options ac s1 (start_of options w).1) = Ok tt ->
        no_skill_md (skill_md s2) (world_after options ac [s1] w) ->
        res (install_of options ac s3 (world_after options ac [s1] w)) = Ok tt ->
        res (installSkills options w) = Ok [s1; s3] /\
        warnings (trace (installSkills options w))
        = [EvWarn (install_warning s2
                     (missing_error (path_join [getSkillsDir; s2])))]).
Proof.
  intros Hg He.
  destruct (installSkills_run options ac w Hg He) as (finish & Hf1 & Hf2 & Hrun).
  assert (forall s2,
            s2 = final (install_stack getSkillsDir options ac
                          (final (for_each (skills options)
                                    (install_requested getSkillsDir options ac)
                                    (start_of options w)))) ->
            s2.2 = installed_requested options ac (skills options) (start_of options w).1
                   ++ (stack_key options
                         <$> installed_stack options ac
                               (world_after options ac (skills options) w))
            /\ res (installSkills options w) = res (finish s2)) as Hexact.
  { intros s2 ->. rewrite install_stack_exact.
    pose proof (requested_loop options ac (skills options) (start_of options w).1 [])
      as Hl.
    change ((start_of options w).1, []) with (start_of options w) in Hl.
    rewrite Hl. fold (world_after options ac (skills options) w).
    split; [reflexivity|].
    specialize (Hrun (skills options)). rewrite with_skills_same in Hrun.
    rewrite Hrun. simpl. unfold bind.
    rewrite (for_each_ok _ _ (install_requested_ok options ac)). simpl.
    rewrite install_stack_ok. reflexivity. }
  destruct (Hexact _ eq_refl) as [Hlist Hsame].
  split; [|split; [|split; [|split; [|split]]]].
  - intros l Hl. rewrite Hsame in Hl. apply Hf1 in Hl. rewrite Hl. exact Hlist.
  - intros Hh. rewrite Hsame, <- Hlist. apply (Hf2 Hh).
  - apply installed_requested_sublist.
  - intros listing w'. apply installed_templates_prefix.
  - intros pre bad post tr Ht Hm o o'. subst o o'.
    rewrite !Hrun. simpl.
    pose proof (for_each_skip pre post bad
                  (install_requested getSkillsDir options ac)
                  (fun _ => bind (install_stack getSkillsDir options ac)
                                 (fun _ => finish))
                  (start_of options w) _
                  (for_each_ok _ _ (install_requested_ok options ac) _)
                  (install_requested_missing options ac tr bad _ Ht Hm))
      as (Hr & Hfin & t1 & t2 & T & T').
    simpl in Hr, Hfin, T, T'.
    split; [exact Hr|]. split; [rewrite Hfin; reflexivity|].
    exists (EvEnsureDir (path_join [projectDir options; skillsDir options]) :: t1), t2.
    rewrite T, T'. split; reflexivity.
  - intros s1 s2 s3 Hs Hst Hh H1 H2 H3.
    destruct (Hh) as (tr & Ht & _).
    specialize (Hrun (skills options)). rewrite with_skills_same in Hrun.
    rewrite Hrun. simpl. rewrite Hs. clear Hrun.
    unfold world_after in H2, H3. unfold start_of in *. simpl in H1, H2, H3.
    set (w0 := (ensureDir (path_join [projectDir options; skillsDir options]) w).2) in *.
    unfold bind in H2, H3. rewrite install_requested_cases in H2, H3.
    rewrite H1 in H2, H3. simpl in H2, H3.
    assert (for_each [s1; s2; s3] (install_requested getSkillsDir options ac) (w0, [])
            = Outcome (Ok tt)
                (final (install_of options ac s3 (final (install_of options ac s1 w0))),
                 [s1; s3])
                (trace (install_of options ac s1 w0)
                 ++ [EvReadText (skill_md s2);
                     EvWarn (install_warning s2
                               (missing_error (path_join [getSkillsDir; s2])))]
                 ++ trace (install_of options ac s3
                             (final (install_of options ac s1 w0)))))
      as Eloop.
    { rewrite (for_each_cons_ok s1 _ _ _
                 (final (install_of options ac s1 w0), [s1])
                 (trace (install_of options ac s1 w0)))
        by (rewrite install_requested_cases, H1; reflexivity).
      rewrite (for_each_cons_ok s2 _ _ _ _ _
                 (install_requested_missing options ac tr s2
                    (final (install_of options ac s1 w0), [s1]) Ht H2)).
      rewrite (for_each_cons_ok s3 _ _ _
                 (final (install_of options ac s3
                           (final (install_of options ac s1 w0))), [s1; s3])
                 (trace (install_of options ac s3
                           (final (install_of options ac s1 w0)))))
        by (rewrite install_requested_cases, H3; reflexivity).
      simpl. rewrite app_nil_r. reflexivity. }
    unfold bind at 1 3. rewrite Eloop. simpl.
    unfold install_stack. rewrite Hst. simpl. unfold bind, ret. simpl.
    destruct (Hf2 Hh (final (install_of options ac s3
                               (final (install_of options ac s1 w0))), [s1; s3]))
      as [Hres Hquiet].
    split; [exact Hres|].
    unfold warnings in *. rewrite !List.filter_app, Hquiet. simpl.
    unfold install_of.
    pose proof install_no_warning as Hn. unfold warnings in Hn.
    rewrite !Hn. reflexivity.
Qed.

(** *** Custom skill reconciliation *)

Lemma reconcile_one_cases (pd : string) (config : AiFactoryConfig)
    (ac : AgentConfig) (key : string) (w : World) (acc : list string) :
  exists_answers ->
  exists t,
    reconcile_one getSkillsDir pd config ac key (w, acc)
    = Outcome (Ok tt)
        (world_past pd config ac key w,
         acc ++ (if kept pd config ac key w then [key] else []))
        t /\
    length (warnings t) = (if kept pd config ac key w then 0 else 1)%nat.
Proof.
  intros Hex. unfold reconcile_one, kept, world_past.
  fold (custom_stack key) (custom_skill key). fold (custom_source key).
  fold (custom_md key). fold (reinstall_of pd config ac key).
  replace (negb (nonempty (custom_stack key)) || negb (nonempty (custom_skill key)))
    with (negb (wellformed key))
    by (unfold wellformed; destruct (nonempty (custom_stack key)),
          (nonempty (custom_skill key)); reflexivity).
  destruct (wellformed key); simpl.
  - unfold source_found. specialize (Hex (custom_md key) w).
    unfold mbind, M_bind, bind, lift, observe, try_catch, push, warn. simpl.
    destruct (fileExists (custom_md key) w) as [[|]|e]; simpl; [| |discriminate].
    + pose proof (install_no_warning (custom_source key)
                    (default "" (custom_skill key)) pd (cfg_skillsDir config)
                    (cfg_agent config) ac w) as Hq.
      fold (reinstall_of pd config ac key) in Hq.
      destruct (reinstall_of pd config ac key w) as [[[]|e] w' t]; simpl in *.
      * eexists. split; [reflexivity|]. simpl. rewrite app_nil_r.
        unfold warnings in *. rewrite Hq. reflexivity.
      * eexists. split; [rewrite app_nil_r; reflexivity|]. simpl.
        unfold warnings in *. rewrite List.filter_app, Hq. reflexivity.
    + eexists. split; [rewrite app_nil_r; reflexivity|]. reflexivity.
  - unfold warn. eexists. split; [rewrite app_nil_r; reflexivity|]. reflexivity.
Qed.

Lemma reconciled_app (pd : string) (config : AiFactoryConfig) (ac : AgentConfig)
    (l1 l2 : list string) (w : World) :
  reconciled pd config ac (l1 ++ l2) w
  = reconciled pd config ac l1 w
    ++ reconciled pd config ac l2 (world_past_all pd config ac l1 w).
Proof.
  revert w. induction l1 as [|key l1 IH]; intros w; simpl; [reflexivity|].
  rewrite IH, app_assoc. reflexivity.
Qed.

Lemma reconciled_sublist (pd : string) (config : AiFactoryConfig) (ac : AgentConfig)
    (keys : list string) (w : World) :
  reconciled pd config ac keys w `sublist_of` keys.
Proof.
  revert w. induction keys as [|key keys IH]; intros w; simpl; [constructor|].
  destruct (kept pd config ac key w); simpl.
  - apply sublist_skip, IH.
  - apply sublist_cons, IH.
Qed.

Lemma reconciled_wellformed (pd : string) (config : AiFactoryConfig)
    (ac : AgentConfig) (keys : list string) (w : World) (key : string) :
  key ∈ reconciled pd config ac keys w -> wellformed key = true.
Proof.
  revert w. induction keys as [|k keys IH]; intros w; simpl.
  - intros Hin. inversion Hin.
  - rewrite elem_of_app. intros [Hin|Hin]; [|exact (IH _ Hin)].
    destruct (kept pd config ac k w) eqn:Hk; [|inversion Hin].
    apply list_elem_of_singleton in Hin. subst k.
    unfold kept in Hk. apply andb_true_iff in Hk as [Hk _].
    apply andb_true_iff in Hk as [Hk _]. exact Hk.
Qed.

Lemma reconcile_loop (pd : string) (config : AiFactoryConfig) (ac : AgentConfig)
    (keys : list string) :
  exists_answers ->
  forall w acc, exists t,
    for_each keys (reconcile_one getSkillsDir pd config ac) (w, acc)
    = Outcome (Ok tt)
        (world_past_all pd config ac keys w, acc ++ reconciled pd config ac keys w)
        t /\
    (length (warnings t) + length (reconciled pd config ac keys w))%nat = length keys.
Proof.
  intros Hex. induction keys as [|key keys IH]; intros w acc.
  - exists []. simpl. rewrite app_nil_r. split; reflexivity.
  - destruct (reconcile_one_cases pd config ac key w acc Hex) as (t1 & E1 & L1).
    destruct (IH (world_past pd config ac key w)
                 (acc ++ (if kept pd config ac key w then [key] else [])))
      as (t2 & E2 & L2).
    exists (t1 ++ t2). split.
    + rewrite (for_each_cons_ok _ _ _ _ _ _ E1), E2. simpl.
      rewrite <- app_assoc. reflexivity.
    + simpl. unfold warnings in *.
      rewrite List.filter_app, !length_app, L1.
      destruct (kept pd config ac key w); simpl in *; lia.
Qed.

Lemma reconcile_run (pd : string) (config : AiFactoryConfig) (ac : AgentConfig)
    (keys : list string) (w : World) :
  getAgentConfig (JStr (cfg_agent config)) = Ok ac ->
  exists_answers ->
  exists t,
    reconcileCustomSkills keys pd config w
    = Outcome (Ok (reconciled pd config ac keys w))
              (world_past_all pd config ac keys w) t /\
    (length (warnings t) + length (reconciled pd config ac keys w))%nat = length keys.
Proof.
  intros Hg Hex.
  destruct (reconcile_loop pd config ac keys Hex w []) as (t & E & L).
  exists t. split; [|exact L].
  unfold reconcileCustomSkills, with_local, mbind, M_bind.
  unfold bind at 1 3 5, of_result. simpl. rewrite Hg. simpl.
  unfold bind. rewrite E. simpl. rewrite app_nil_r. reflexivity.
Qed.

(** C6: with a known agent and an existence check that answers,
    [reconcileCustomSkills] never fails and returns exactly the keys, in
    input order, that are well formed, whose source [SKILL.md] exists and
    whose reinstallation succeeds; every other key costs exactly one
    warning.  A key that is malformed or whose source is gone is left out
    as if it had not been given: the result and the final state are those
    of the call without it, with one warning more. *)
Theorem reconcileCustomSkills_exact (pd : string) (config : AiFactoryConfig)
    (ac : AgentConfig) (keys : list string) (w : World) :
  getAgentConfig (JStr (cfg_agent config)) = Ok ac ->
  exists_answers ->
  let o := reconcileCustomSkills keys pd config w in
  res o = Ok (reconciled pd config ac keys w) /\
  final o = world_past_all pd config ac keys w /\
  reconciled pd config ac keys w `sublist_of` keys /\
  (forall key, key ∈ reconciled pd config ac keys w ->
               wellformed key = true) /\
  (length (warnings (trace o)) + length (reconciled pd config ac keys w))%nat
  = length keys /\
  (forall pre bad post,
      keys = pre ++ bad :: post ->
      wellformed bad = false \/
      source_found bad (world_past_all pd config ac pre w) = false ->
      let o' := reconcileCustomSkills (pre ++ post) pd config w in
      res o = res o' /\ final o = final o' /\
      length (warnings (trace o)) = Datatypes.S (length (warnings (trace o')))).
Proof.
  intros Hg Hex o.
  destruct (reconcile_run pd config ac keys w Hg Hex) as (t & E & L).
  subst o. rewrite E. cbn [res final trace].
  split; [reflexivity|]. split; [reflexivity|].
  split; [apply reconciled_sublist|].
  split; [apply reconciled_wellformed|].
  split; [exact L|].
  intros pre bad post -> Hbad.
  destruct (reconcile_run pd config ac (pre ++ post) w Hg Hex) as (t' & E' & L').
  rewrite E'. cbn [res final trace].
  assert (kept pd config ac bad (world_past_all pd config ac pre w) = false
          /\ world_past pd config ac bad (world_past_all pd config ac pre w)
             = world_past_all pd config ac pre w) as [Hk Hw].
  { unfold kept, world_past. destruct Hbad as [-> | ->];
      [|rewrite andb_false_r]; split; reflexivity. }
  assert (reconciled pd config ac (pre ++ bad :: post) w
          = reconciled pd config ac (pre ++ post) w) as Er.
  { rewrite !reconciled_app. simpl. rewrite Hk, Hw. reflexivity. }
  assert (world_past_all pd config ac (pre ++ bad :: post) w
          = world_past_all pd config ac (pre ++ post) w) as Ew.
  { unfold world_past_all. rewrite !fold_left_app. simpl.
    fold (world_past_all pd config ac pre w). rewrite Hw. reflexivity. }
  rewrite Er, Ew. split; [reflexivity|]. split; [reflexivity|].
  rewrite Er in L. rewrite length_app in L, L'. simpl in L. lia.
Qed.

End InstallerFacts.

(** ** MCP provisioning *)

(** Membership in an explicit trace: one case per event, the impossible
    ones dropped. *)
Ltac trace_in H :=
  repeat (apply elem_of_cons in H as [H|H]; [try discriminate|]);
  try (inversion H; fail).

Section McpFacts.

Context {Reg : Registry} {World : Type} {Host : HostOps World}.

Lemma select_one_cases (options : McpOptions) (key : McpServerKey)
    (w : World) (acc : list (McpServerKey * gmap string json)) :
  select_one options templates_dir key (w, acc)
  = if flag options key then
      match readJsonFile (template_path templates_dir key) w with
      | Ok (Some t) =>
          Outcome (Ok tt) (w, acc ++ [(key, t)])
                  [EvReadJson (template_path templates_dir key)]
      | Ok None =>
          Outcome (Ok tt) (w, acc) [EvReadJson (template_path templates_dir key)]
      | Throw e =>
          Outcome (Throw e) (w, acc) [EvReadJson (template_path templates_dir key)]
      end
    else Outcome (Ok tt) (w, acc) [].
Proof.
  unfold select_one. destruct (flag options key); simpl; [|reflexivity].
  unfold mbind, M_bind, bind, lift, observe, push, ret. simpl.
  destruct (readJsonFile (template_path templates_dir key) w) as [[t|]|e];
    reflexivity.
Qed.

Lemma reads_only_cons (key : McpServerKey) (t : list event) :
  reads_only t -> reads_only (EvReadJson (template_path templates_dir key) :: t).
Proof.
  intros Ht e He. apply elem_of_cons in He as [->|He]; [eauto | exact (Ht e He)].
Qed.

Lemma select_loop (options : McpOptions) (keys : list McpServerKey) :
  forall (w : World) (acc : list (McpServerKey * gmap string json)),
    let o := for_each keys (select_one options templates_dir) (w, acc) in
    (final o).1 = w /\ reads_only (trace o) /\
    match selection options templates_dir keys w with
    | Ok l => res o = Ok tt /\ (final o).2 = acc ++ l
    | Throw e => res o = Throw e
    end.
Proof.
  induction keys as [|key keys IH]; intros w acc; cbv zeta.
  - simpl. split; [reflexivity|]. split; [intros e He; inversion He|].
    rewrite app_nil_r. split; reflexivity.
  - pose proof (select_one_cases options key w acc) as Hc.
    cbn [selection]. destruct (flag options key); cbn [negb] in *.
    + destruct (readJsonFile (template_path templates_dir key) w) as [[t|]|e].
      * rewrite (for_each_cons_ok _ _ _ _ _ _ Hc). cbn [res final trace].
        destruct (IH w (acc ++ [(key, t)])) as (H1 & H2 & H3).
        split; [exact H1|]. split; [apply reads_only_cons, H2|].
        destruct (selection options templates_dir keys w) as [l|e]; [|exact H3].
        destruct H3 as [H3 H4]. split; [exact H3|].
        rewrite H4, <- app_assoc. reflexivity.
      * rewrite (for_each_cons_ok _ _ _ _ _ _ Hc). cbn [res final trace].
        destruct (IH w acc) as (H1 & H2 & H3).
        split; [exact H1|]. split; [apply reads_only_cons, H2 | exact H3].
      * cbn [for_each]. unfold bind. rewrite Hc. cbn [res final trace].
        split; [reflexivity|]. split; [|reflexivity].
        apply reads_only_cons. intros e' He. inversion He.
    + rewrite (for_each_cons_ok _ _ _ _ _ _ Hc). cbn [res final trace].
      destruct (IH w acc) as (H1 & H2 & H3).
      split; [exact H1|]. split; [exact H2 | exact H3].
Qed.

Lemma getSelectedServerTemplates_run (options : McpOptions) (w : World) :
  let o := getSelectedServerTemplates options templates_dir w in
  res o = selection options templates_dir server_keys w /\
  final o = w /\ reads_only (trace o).
Proof.
  destruct (select_loop options server_keys w []) as (H1 & H2 & H3).
  unfold getSelectedServerTemplates, with_local, mbind, M_bind, bind, get_local.
  cbv zeta.
  destruct (for_each server_keys (select_one options templates_dir) (w, []))
    as [r [w' acc'] t].
  cbn [res final trace fst snd] in *. subst w'.
  destruct (selection options templates_dir server_keys w) as [l|e].
  - destruct H3 as [-> ->]. cbn [res final trace fst snd]. rewrite app_nil_r.
    split; [reflexivity|]. split; [reflexivity | exact H2].
  - rewrite H3. cbn [res final trace fst snd].
    split; [reflexivity|]. split; [reflexivity | exact H2].
Qed.

Lemma configureMcp_run (projectDir : string) (options : McpOptions)
    (agentId : string) (agent : AgentConfig) (w : World) :
  getAgentConfig (JStr agentId) = Ok agent ->
  gated agent = false ->
  let w1 := prepared projectDir agent w in
  let d := settings_dir projectDir agent in
  let o := configureMcp projectDir options agentId w in
  match (ensureDir d w).1 with
  | Throw e => o = Outcome (Throw e) w1 [EvEnsureDir d]
  | Ok _ =>
      exists ts, reads_only ts /\
        match selection options templates_dir server_keys w1 with
        | Throw e => o = Outcome (Throw e) w1 (EvEnsureDir d :: ts)
        | Ok [] => o = Outcome (Ok []) w1 (EvEnsureDir d :: ts)
        | Ok sel =>
            let m := merge_and_write (settings_path projectDir agent)
                       (sub_map_name agentId) (conversion agentId) sel w1 in
            o = Outcome (res m) (final m) (EvEnsureDir d :: ts ++ trace m)
        end
  end.
Proof.
  intros Hg Hgate. cbv zeta.
  unfold configureMcp, mbind, M_bind. rewrite Hg, bind_of_result.
  unfold gated in Hgate. rewrite Hgate.
  fold (settings_path projectDir agent). fold (settings_dir projectDir agent).
  fold templates_dir.
  rewrite bind_mutate.
  change (ensureDir (settings_dir projectDir agent) w).2
    with (prepared projectDir agent w).
  destruct (ensureDir (settings_dir projectDir agent) w).1 as [[]|e]; [|reflexivity].
  destruct (getSelectedServerTemplates_run options (prepared projectDir agent w))
    as (H1 & H2 & H3).
  exists (trace (getSelectedServerTemplates options templates_dir
                   (prepared projectDir agent w))).
  split; [exact H3|].
  unfold bind.
  destruct (getSelectedServerTemplates options templates_dir
              (prepared projectDir agent w)) as [r w' ts].
  cbn [res final trace] in *. subst w'. rewrite <- H1.
  destruct r as [[|[key t] sel]|e]; cbn [res final trace length Nat.eqb].
  - unfold ret. cbn [res final trace]. rewrite app_nil_r. reflexivity.
  - unfold conversion, sub_map_name.
    destruct (String.eqb agentId "opencode"); reflexivity.
  - reflexivity.
Qed.

Lemma merge_and_write_writes (path k : string)
    (convert : gmap string json -> result json)
    (sel : list (McpServerKey * gmap string json)) (w : World)
    (p : string) (doc : gmap string json) :
  EvWriteJson p doc ∈ trace (merge_and_write path k convert sel w) ->
  p = path /\
  exists sub' configured,
    merge_servers convert sel
      (default JNull (ensure_sub_map k (loaded_settings path w) !! k)) []
    = Ok (sub', configured) /\
    doc = <[k := sub']> (ensure_sub_map k (loaded_settings path w)).
Proof.
  unfold merge_and_write, loaded_settings, mbind, M_bind, bind, observe, of_result,
    mutate, ret.
  cbn [res final trace].
  destruct (fileExists path w) as [[|]|e]; cbn [res final trace].
  - destruct (readJsonFile path w) as [existing|e]; cbn [res final trace].
    + replace (default ∅ existing)
        with (match existing with Some d => d | None => ∅ end)
        by (destruct existing; reflexivity).
      destruct (merge_servers convert sel _ []) as [[sub' conf]|e];
        cbn [res final trace fst snd app]; [|intros Hin; trace_in Hin].
      destruct (writeJsonFile path _ w).1 as [[]|e];
        cbn [res final trace fst snd app]; intros Hin; trace_in Hin;
        injection Hin as -> ->; (split; [reflexivity|]); eauto.
    + intros Hin; trace_in Hin.
  - destruct (merge_servers convert sel _ []) as [[sub' conf]|e];
      cbn [res final trace fst snd app]; [|intros Hin; trace_in Hin].
    destruct (writeJsonFile path _ w).1 as [[]|e];
      cbn [res final trace fst snd app]; intros Hin; trace_in Hin;
      injection Hin as -> ->; (split; [reflexivity|]); eauto.
  - intros Hin; trace_in Hin.
Qed.

Lemma configureMcp_gated (projectDir : string) (options : McpOptions)
    (agentId : string) (agent : AgentConfig) (w : World) :
  getAgentConfig (JStr agentId) = Ok agent ->
  gated agent = true ->
  configureMcp projectDir options agentId w = Outcome (Ok []) w [].
Proof.
  intros Hg Hgate. unfold configureMcp, mbind, M_bind.
  rewrite Hg, bind_of_result. unfold gated in Hgate. rewrite Hgate. reflexivity.
Qed.

Lemma reads_only_no_write (t : list event) (p : string) (doc : gmap string json) :
  reads_only t -> EvWriteJson p doc ∉ t.
Proof. intros Ht Hin. destruct (Ht _ Hin) as (key & Hk). discriminate. Qed.

(** A write by [configureMcp] is the write of the merged document. *)
Lemma configureMcp_writes (projectDir : string) (options : McpOptions)
    (agentId : string) (agent : AgentConfig) (w : World)
    (p : string) (doc : gmap string json) :
  getAgentConfig (JStr agentId) = Ok agent ->
  EvWriteJson p doc ∈ trace (configureMcp projectDir options agentId w) ->
  let w1 := prepared projectDir agent w in
  let loaded := loaded_settings (settings_path projectDir agent) w1 in
  let k := sub_map_name agentId in
  p = settings_path projectDir agent /\
  exists sel sub' configured,
    selection options templates_dir server_keys w1 = Ok sel /\
    merge_servers (conversion agentId) sel
      (default JNull (ensure_sub_map k loaded !! k)) [] = Ok (sub', configured) /\
    doc = <[k := sub']> (ensure_sub_map k loaded).
Proof.
  intros Hg Hin. cbv zeta.
  destruct (gated agent) eqn:Hgate.
  { rewrite (configureMcp_gated _ _ _ _ _ Hg Hgate) in Hin. inversion Hin. }
  pose proof (configureMcp_run projectDir options agentId agent w Hg Hgate) as Hrun.
  cbv zeta in Hrun.
  destruct (ensureDir (settings_dir projectDir agent) w).1 as [[]|e].
  - destruct Hrun as (ts & Hts & Hrun).
    destruct (selection options templates_dir server_keys
                (prepared projectDir agent w)) as [[|[key t] sel]|e] eqn:Hsel;
      rewrite Hrun in Hin; cbn [trace] in Hin.
    + apply elem_of_cons in Hin as [Hin|Hin]; [discriminate|].
      exfalso. exact (reads_only_no_write _ _ _ Hts Hin).
    + apply elem_of_cons in Hin as [Hin|Hin]; [discriminate|].
      apply elem_of_app in Hin as [Hin|Hin];
        [exfalso; exact (reads_only_no_write _ _ _ Hts Hin)|].
      apply merge_and_write_writes in Hin as (Hp & sub' & conf & Hm & Hd).
      split; [exact Hp|]. exists ((key, t) :: sel), sub', conf. auto.
    + apply elem_of_cons in Hin as [Hin|Hin]; [discriminate|].
      exfalso. exact (reads_only_no_write _ _ _ Hts Hin).
  - rewrite Hrun in Hin. trace_in Hin.
Qed.

Lemma key_name_inj (k1 k2 : McpServerKey) : key_name k1 = key_name k2 -> k1 = k2.
Proof. destruct k1, k2; simpl; intros E; try reflexivity; discriminate. Qed.

Lemma merge_servers_obj (convert : gmap string json -> result json)
    (sel : list (McpServerKey * gmap string json)) :
  forall (m : gmap string json) (acc : list string) (sub' : json)
         (configured : list string),
    merge_servers convert sel (JObj m) acc = Ok (sub', configured) ->
    exists m',
      sub' = JObj m' /\
      (forall name,
          (forall key t, (key, t) ∈ sel -> key_name key <> name) ->
          m' !! name = m !! name) /\
      (NoDup (fst <$> sel) ->
       forall key t, (key, t) ∈ sel ->
         exists entry, convert t = Ok entry /\ m' !! key_name key = Some entry).
Proof.
  induction sel as [|[k0 t0] sel IH]; intros m acc sub' configured; simpl.
  - intros [= <- <-]. exists m. split; [reflexivity|]. split; [reflexivity|].
    intros _ key t Hin. inversion Hin.
  - destruct (convert t0) as [e0|err] eqn:Hc; [|discriminate].
    intros Hm. destruct (IH _ _ _ _ Hm) as (m' & -> & Hframe & Hsel).
    exists m'. split; [reflexivity|]. split.
    + intros name Hname. rewrite Hframe.
      * apply lookup_insert_ne. apply (Hname k0 t0). apply elem_of_cons. auto.
      * intros key t Hin. apply (Hname key t). apply elem_of_cons. auto.
    + intros Hnd key t Hin. apply NoDup_cons in Hnd as [Hk0 Hnd].
      apply elem_of_cons in Hin as [[= -> ->]|Hin].
      * exists e0. split; [exact Hc|]. rewrite Hframe; [apply lookup_insert_eq|].
        intros key t Hin E. apply key_name_inj in E. subst key.
        apply Hk0. apply list_elem_of_fmap. exists (k0, t). auto.
      * exact (Hsel Hnd key t Hin).
Qed.

Lemma merge_servers_arr (convert : gmap string json -> result json)
    (sel : list (McpServerKey * gmap string json)) (l : list json) :
  forall (acc : list string) (sub' : json) (configured : list string),
    merge_servers convert sel (JArr l) acc = Ok (sub', configured) ->
    sub' = JArr l.
Proof.
  induction sel as [|[k0 t0] sel IH]; intros acc sub' configured; simpl.
  - intros [= <- <-]. reflexivity.
  - destruct (convert t0); [|discriminate]. apply IH.
Qed.

Lemma selection_spec (options : McpOptions) (keys : list McpServerKey) (w : World) :
  forall sel,
    selection options templates_dir keys w = Ok sel ->
    (forall key t, (key, t) ∈ sel <->
                   key ∈ keys /\ selected_template options key w = Some t) /\
    (forall key, key ∈ (fst <$> sel) -> key ∈ keys) /\
    (NoDup keys -> NoDup (fst <$> sel)).
Proof.
  induction keys as [|k0 keys IH]; intros sel; simpl.
  - intros [= <-]. split; [|split].
    + intros key t. split; [intros Hin; inversion Hin|].
      intros [Hin _]; inversion Hin.
    + intros key Hin. inversion Hin.
    + intros _. constructor.
  - assert (forall sel0,
               selection options templates_dir keys w = Ok sel0 ->
               selected_template options k0 w = None ->
               (forall key t, (key, t) ∈ sel0 <->
                              key ∈ k0 :: keys /\
                              selected_template options key w = Some t) /\
               (forall key, key ∈ (fst <$> sel0) -> key ∈ k0 :: keys) /\
               (NoDup (k0 :: keys) -> NoDup (fst <$> sel0))) as Hskip.
    { intros sel0 Hs Hnone. destruct (IH sel0 Hs) as (H1 & H2 & H3).
      split; [|split].
      - intros key t. rewrite H1, elem_of_cons. split; [tauto|].
        intros [[->|Hin] Ht]; [congruence | tauto].
      - intros key Hin. apply elem_of_cons. right. exact (H2 key Hin).
      - intros Hnd. apply NoDup_cons in Hnd as [_ Hnd]. exact (H3 Hnd). }
    unfold selected_template in Hskip.
    destruct (flag options k0) eqn:Hf; simpl.
    + destruct (readJsonFile (template_path templates_dir k0) w) as [[t0|]|e] eqn:Hr.
      * destruct (selection options templates_dir keys w) as [sel0|e];
          [|discriminate].
        intros [= <-]. destruct (IH sel0 eq_refl) as (H1 & H2 & H3).
        split; [|split].
        -- intros key t. rewrite !elem_of_cons, H1. split.
           ++ intros [[= -> ->]|[Hin Ht]]; [|tauto].
              split; [auto|]. unfold selected_template. rewrite Hf, Hr. reflexivity.
           ++ intros [[->|Hin] Ht]; [|tauto].
              left. unfold selected_template in Ht. rewrite Hf, Hr in Ht.
              congruence.
        -- intros key Hin. rewrite fmap_cons in Hin. simpl in Hin.
           apply elem_of_cons in Hin as [->|Hin]; apply elem_of_cons; auto.
        -- intros Hnd. apply NoDup_cons in Hnd as [Hk Hnd].
           rewrite fmap_cons. simpl. apply NoDup_cons. split; [|exact (H3 Hnd)].
           intros Hin. apply Hk. exact (H2 k0 Hin).
      * intros Hs. apply Hskip; [exact Hs | reflexivity].
      * discriminate.
    + intros Hs. apply Hskip; [exact Hs | reflexivity].
Qed.

Lemma server_keys_NoDup : NoDup server_keys.
Proof. unfold server_keys. repeat constructor; intros Hin; trace_in Hin. Qed.

Lemma server_keys_all (key : McpServerKey) : key ∈ server_keys.
Proof. destruct key; unfold server_keys; repeat constructor. Qed.

Lemma selection_none (options : McpOptions) (keys : list McpServerKey) (w : World) :
  none_selected options w ->
  selection options templates_dir keys w = Ok [].
Proof.
  intros Hn. induction keys as [|key keys IH]; simpl; [reflexivity|].
  destruct (Hn key) as [Hf|Hr].
  - rewrite Hf. exact IH.
  - destruct (flag options key); simpl; [|exact IH]. rewrite Hr. exact IH.
Qed.

(** C4: behind the capability gate [configureMcp] returns the empty list
    and does nothing at all; and when the directory is ensured and no
    template ends up selected, it returns the empty list having only
    ensured the directory and read template files: nothing is written,
    and the host state is the one [ensureDir] left. *)
Theorem configureMcp_noop (projectDir : string) (options : McpOptions)
    (agentId : string) (agent : AgentConfig) (w : World) :
  getAgentConfig (JStr agentId) = Ok agent ->
  (gated agent = true ->
   configureMcp projectDir options agentId w = Outcome (Ok []) w [])
  /\ (gated agent = false ->
      (ensureDir (settings_dir projectDir agent) w).1 = Ok tt ->
      none_selected options (prepared projectDir agent w) ->
      let o := configureMcp projectDir options agentId w in
      res o = Ok [] /\
      final o = prepared projectDir agent w /\
      (forall e, e ∈ trace o ->
                 e = EvEnsureDir (settings_dir projectDir agent) \/
                 exists key, e = EvReadJson (template_path templates_dir key)) /\
      (forall p doc, EvWriteJson p doc ∉ trace o)).
Proof.
  intros Hg. split; [apply configureMcp_gated; exact Hg|].
  intros Hgate He Hn. cbv zeta.
  pose proof (configureMcp_run projectDir options agentId agent w Hg Hgate) as Hrun.
  cbv zeta in Hrun. rewrite He in Hrun. destruct Hrun as (ts & Hts & Hrun).
  rewrite (selection_none _ _ _ Hn) in Hrun. rewrite Hrun. cbn [res final trace].
  split; [reflexivity|]. split; [reflexivity|].
  assert (forall e, e ∈ EvEnsureDir (settings_dir projectDir agent) :: ts ->
                    e = EvEnsureDir (settings_dir projectDir agent) \/
                    exists key, e = EvReadJson (template_path templates_dir key))
    as Hev.
  { intros e Hin. apply elem_of_cons in Hin as [->|Hin]; [auto|]. right. exact (Hts e Hin). }
  split; [exact Hev|].
  intros p doc Hin. destruct (Hev _ Hin) as [E|[key E]]; discriminate.
Qed.

Lemma ensure_sub_map_other (k k' : string) (settings : gmap string json) :
  k' <> k -> ensure_sub_map k settings !! k' = settings !! k'.
Proof.
  intros Hne. unfold ensure_sub_map.
  destruct (truthy_opt (settings !! k)); [reflexivity|].
  apply lookup_insert_ne. congruence.
Qed.

Lemma ensure_sub_map_truthy (k : string) (settings : gmap string json) (v : json) :
  settings !! k = Some v -> truthy v = true ->
  ensure_sub_map k settings !! k = Some v.
Proof.
  intros Hs Ht. unfold ensure_sub_map. rewrite Hs. simpl. rewrite Ht. exact Hs.
Qed.

(** C8: a settings document written by [configureMcp] goes to the
    agent's settings file and differs from the loaded one under the MCP
    sub-map only: every other top-level key is as loaded, every entry of
    a loaded sub-map whose name is not that of a server selected in this
    call is as loaded, and a sub-map that is an array is written back as
    it was. *)
Theorem configureMcp_preserves (projectDir : string) (options : McpOptions)
    (agentId : string) (agent : AgentConfig) (w : World)
    (p : string) (doc : gmap string json) :
  getAgentConfig (JStr agentId) = Ok agent ->
  EvWriteJson p doc ∈ trace (configureMcp projectDir options agentId w) ->
  let w1 := prepared projectDir agent w in
  let loaded := loaded_settings (settings_path projectDir agent) w1 in
  let k := sub_map_name agentId in
  p = settings_path projectDir agent /\
  (forall k', k' <> k -> doc !! k' = loaded !! k') /\
  (forall m,
      loaded !! k = Some (JObj m) ->
      exists m',
        doc !! k = Some (JObj m') /\
        forall name,
          (forall key, key_name key = name ->
                       selected_template options key w1 = None) ->
          m' !! name = m !! name) /\
  (forall l, loaded !! k = Some (JArr l) -> doc !! k = Some (JArr l)).
Proof.
  intros Hg Hin. cbv zeta.
  destruct (configureMcp_writes _ _ _ _ _ _ _ Hg Hin)
    as (Hp & sel & sub' & conf & Hsel & Hm & ->).
  split; [exact Hp|]. split; [|split].
  - intros k' Hne. rewrite lookup_insert_ne by congruence.
    apply ensure_sub_map_other. exact Hne.
  - intros m Hl. rewrite (ensure_sub_map_truthy _ _ _ Hl eq_refl) in Hm.
    simpl in Hm.
    destruct (merge_servers_obj _ _ _ _ _ _ Hm) as (m' & -> & Hframe & _).
    exists m'. split; [apply lookup_insert_eq|].
    intros name Hname. apply Hframe. intros key t Hk E.
    destruct (selection_spec _ _ _ _ Hsel) as (Hspec & _).
    apply Hspec in Hk as [_ Hk]. rewrite (Hname key E) in Hk. discriminate.
  - intros l Hl. rewrite (ensure_sub_map_truthy _ _ _ Hl eq_refl) in Hm.
    simpl in Hm. rewrite (merge_servers_arr _ _ _ _ _ _ Hm).
    apply lookup_insert_eq.
Qed.





End McpFacts.

(** ** The properties on the sample host *)

Lemma json_writes_elem (t : list event) (p : string) (doc : gmap string json) :
  (p, doc) ∈ json_writes t -> EvWriteJson p doc ∈ t.
Proof.
  unfold json_writes. rewrite list_elem_of_omap. intros (e & Hin & He).
  destruct e; try discriminate. injection He as -> ->. exact Hin.
Qed.

Lemma sample_exists_answers : exists_answers (Host := Sample.host).
Proof. intros p w. reflexivity. Qed.

Lemma sample_hook_succeeds (options : InstallOptions) :
  hook_succeeds (Host := Sample.host) options.
Proof.
  exists Sample.directory_transformer. split; [reflexivity|].
  intros hook Hh. discriminate.
Qed.

Lemma claude_writes_mcp_json :
  EvWriteJson "/proj/.mcp.json" written_mcp_json
  ∈ trace (configureMcp (Reg := Sample.registry) (Host := Sample.host)
             "/proj" github_only "claude" configured_project).
Proof.
  apply json_writes_elem.
  assert (json_writes (trace (configureMcp (Reg := Sample.registry) (Host := Sample.host)
                                "/proj" github_only "claude" configured_project))
          = [("/proj/.mcp.json", written_mcp_json)]) as ->
    by (vm_compute; exact eq_refl).
  apply list_elem_of_singleton. reflexivity.
Qed.

Lemma opencode_writes_opencode_json :
  EvWriteJson "/proj/opencode.json" written_opencode_json
  ∈ trace (configureMcp (Reg := Sample.registry) (Host := Sample.host)
             "/proj" github_only "opencode" configured_project).
Proof.
  apply json_writes_elem.
  assert (json_writes (trace (configureMcp (Reg := Sample.registry) (Host := Sample.host)
                                "/proj" github_only "opencode" configured_project))
          = [("/proj/opencode.json", written_opencode_json)]) as ->
    by (vm_compute; exact eq_refl).
  apply list_elem_of_singleton. reflexivity.
Qed.

(** C2, evaluated: for the stack [web], whose first template skill has no
    [SKILL.md], the call returns no key and warns about nothing, and the
    second template skill, which has one, is never installed; the same two
    directories asked for as requested skills give one warning and the
    second skill installed. *)
Theorem stack_templates_share_one_try :
  let o := installSkills (Reg := Sample.registry) (Host := Sample.host)
             web_stack Sample.package in
  let o' := installSkills (Reg := Sample.registry) (Host := Sample.host)
              web_as_requested Sample.package in
  res o = Ok [] /\
  warnings (trace o) = [] /\
  Sample.texts (final o) !! "/proj/.claude/skills/api/SKILL.md" = None /\
  res o' = Ok ["_templates/web/api"] /\
  length (warnings (trace o')) = 1%nat /\
  Sample.texts (final o') !! "/proj/.claude/skills/_templates/web/api/SKILL.md"
  = Some "# api".
Proof. cbv zeta. repeat split; vm_compute; exact eq_refl. Qed.

Lemma configureMcp_noop_witness :
  (getAgentConfig (Registry := Sample.registry) (JStr "plain") = Ok Sample.plain /\
   gated Sample.plain = true /\
   configureMcp (Reg := Sample.registry) (Host := Sample.host)
     "/proj" all_flags "plain" configured_project
   = Outcome (Ok []) configured_project [])
  /\ (getAgentConfig (Registry := Sample.registry) (JStr "claude") = Ok Sample.claude /\
      gated Sample.claude = false /\
      none_selected (Host := Sample.host) no_flag configured_project /\
      res (configureMcp (Reg := Sample.registry) (Host := Sample.host)
             "/proj" no_flag "claude" configured_project) = Ok [] /\
      final (configureMcp (Reg := Sample.registry) (Host := Sample.host)
               "/proj" no_flag "claude" configured_project) = configured_project).
Proof.
  split.
  - split; [reflexivity|]. split; [reflexivity|].
    apply (configureMcp_noop (Reg := Sample.registry) (Host := Sample.host)
             "/proj" all_flags "plain" Sample.plain configured_project);
      reflexivity.
  - assert (none_selected (Host := Sample.host) no_flag configured_project) as Hn
      by (intros key; left; destruct key; reflexivity).
    split; [reflexivity|]. split; [reflexivity|]. split; [exact Hn|].
    destruct (configureMcp_noop (Reg := Sample.registry) (Host := Sample.host)
                "/proj" no_flag "claude" Sample.claude configured_project eq_refl)
      as [_ Hquiet].
    destruct (Hquiet eq_refl eq_refl Hn) as (Hres & Hfinal & _).
    split; [exact Hres | exact Hfinal].
Defined.

Lemma configureMcp_preserves_witness :
  EvWriteJson "/proj/.mcp.json" written_mcp_json
  ∈ trace (configureMcp (Reg := Sample.registry) (Host := Sample.host)
             "/proj" github_only "claude" configured_project) /\
  written_mcp_json !! "theme"
  = loaded_settings (Host := Sample.host) "/proj/.mcp.json" configured_project
    !! "theme".
Proof.
  split; [exact claude_writes_mcp_json|].
  destruct (configureMcp_preserves (Reg := Sample.registry) (Host := Sample.host)
              "/proj" github_only "claude" Sample.claude configured_project
              "/proj/.mcp.json" written_mcp_json eq_refl claude_writes_mcp_json)
    as (_ & Hother & _).
  apply (Hother "theme"). discriminate.
Defined.

Lemma reconcileCustomSkills_exact_witness :
  res (reconcileCustomSkills (Reg := Sample.registry) (Host := Sample.host)
         ["web/api"; "plain"; "web/gone"] "/proj" saved_config Sample.package)
  = Ok ["web/api"].
Proof.
  destruct (reconcileCustomSkills_exact (Reg := Sample.registry) (Host := Sample.host)
              "/proj" saved_config Sample.claude ["web/api"; "plain"; "web/gone"]
              Sample.package eq_refl sample_exists_answers)
    as (Hres & _).
  rewrite Hres. vm_compute. exact eq_refl.
Defined.

Lemma installSkills_fault_isolation_witness :
  res (installSkills (Reg := Sample.registry) (Host := Sample.host)
         three_skills Sample.package)
  = Ok ["plan"; "review"].
Proof.
  destruct (installSkills_fault_isolation (Reg := Sample.registry) (Host := Sample.host)
              three_skills Sample.claude Sample.package eq_refl eq_refl)
    as (_ & _ & _ & _ & _ & Hthree).
  apply (Hthree "plan" "missing" "review").
  - reflexivity.
  - reflexivity.
  - apply sample_hook_succeeds.
  - vm_compute. exact eq_refl.
  - exists None. split; vm_compute; exact eq_refl.
  - vm_compute. exact eq_refl.
Defined.

(** * Further properties *)

(** ** Configuration *)

Section MoreConfigFacts.

Context {Reg : Registry} {World : Type} {Host : HostOps World}.

Lemma eqb_string_cases (k k' : string) :
  (String.eqb k k' = true /\ k = k') \/ (String.eqb k k' = false /\ k <> k').
Proof.
  destruct (String.eqb_spec k k'); [left | right]; split; auto.
Qed.

(** Every property of a migrated configuration. *)
Lemma migrateConfig_fields (config : gmap string json) :
  claude_registered ->
  exists agent out,
    getAgentConfig (resolveAgentId (config !! "agent")) = Ok agent /\
    migrateConfig config = Ok out /\
    forall k, out !! k = migrated_field config agent k.
Proof.
  intros Hc. destruct (migrateConfig_returns config Hc) as (agent & Hg & Hm).
  exists agent. eexists. split; [exact Hg|]. split; [exact Hm|].
  intros k. unfold migrated_field.
  destruct (eqb_string_cases k "mcp") as [[-> ->]|[-> Hmcp]];
    [apply lookup_insert_eq|].
  rewrite lookup_insert_ne by congruence.
  destruct (eqb_string_cases k "installedSkills") as [[-> ->]|[-> Hinst]].
  { destruct (config !! "installedSkills") as [[| b | z | s | l | m]|]; simpl;
      apply lookup_insert_eq. }
  assert (forall v o, set_field "installedSkills" v o !! k = o !! k) as ->.
  { intros [v|] o; simpl; [|reflexivity]. apply lookup_insert_ne. congruence. }
  destruct (eqb_string_cases k "agent") as [[-> ->]|[-> Hagent]];
    [apply lookup_insert_eq|].
  rewrite lookup_insert_ne by congruence.
  rewrite spread_lookup. destruct (config !! k); [reflexivity|].
  rewrite lookup_insert_ne by congruence.
  rewrite lookup_insert_ne by congruence.
  destruct (eqb_string_cases k "version") as [[-> ->]|[-> Hver]].
  { rewrite !lookup_insert_ne by discriminate. apply lookup_insert_eq. }
  destruct (eqb_string_cases k "skillsDir") as [[-> ->]|[-> Hsk]];
    [apply lookup_insert_eq|].
  rewrite !lookup_insert_ne by congruence. apply lookup_empty.
Qed.

Lemma spread_absorb (d x : gmap string json) :
  spread d (spread d x) = spread d x.
Proof.
  apply map_eq. intros k. rewrite !spread_lookup.
  destruct (x !! k); [reflexivity|]. destruct (d !! k); reflexivity.
Qed.

Lemma migrated_field_agent (config : gmap string json) (agent : AgentConfig) :
  migrated_field config agent "agent" = Some (resolveAgentId (config !! "agent")).
Proof. reflexivity. Qed.

(** X1: migration is idempotent: migrating a migrated configuration
    returns it unchanged. *)
Theorem migrateConfig_idempotent (config out : gmap string json) :
  claude_registered ->
  migrateConfig config = Ok out ->
  migrateConfig out = Ok out.
Proof.
  intros Hc Hm.
  destruct (migrateConfig_fields config Hc) as (agent & out' & Hg & Hm' & Hf).
  rewrite Hm in Hm'. injection Hm' as <-.
  destruct (migrateConfig_fields out Hc) as (agent2 & out2 & Hg2 & Hm2 & Hf2).
  rewrite Hm2. f_equal. apply map_eq. intros k. rewrite Hf2, Hf.
  assert (out !! "agent" = Some (resolveAgentId (config !! "agent"))) as Ha
    by (rewrite Hf; reflexivity).
  rewrite Ha, resolveAgentId_idem, Hg in Hg2. injection Hg2 as <-.
  unfold migrated_field at 1.
  destruct (eqb_string_cases k "mcp") as [[Ek ->]|[Ek Hmcp]].
  { rewrite Hf. unfold migrated_field. simpl. rewrite spread_absorb. reflexivity. }
  destruct (eqb_string_cases k "installedSkills") as [[Ei ->]|[Ei Hinst]].
  { rewrite Ek, Ei, Hf. unfold migrated_field. simpl.
    destruct (config !! "installedSkills") as [[| b | z | s | l | m]|]; reflexivity. }
  destruct (eqb_string_cases k "agent") as [[Eag ->]|[Eag Hagent]].
  { rewrite Ek, Ei, Eag, Ha, resolveAgentId_idem. reflexivity. }
  rewrite Ek, Ei, Eag, Hf.
  unfold migrated_field. rewrite Ek, Ei, Eag.
  destruct (config !! k); [reflexivity|].
  destruct (String.eqb k "version"); [reflexivity|].
  destruct (String.eqb k "skillsDir"); reflexivity.
Qed.

(** X2: migration keeps what is stored outside [agent], [installedSkills]
    and [mcp]: a stored [skillsDir] or [version] wins over the default,
    and a property the schema does not know is carried over as it is
    (and none is invented). *)
Theorem migrateConfig_keeps_stored_fields (config : gmap string json) :
  claude_registered ->
  exists agent out,
    getAgentConfig (resolveAgentId (config !! "agent")) = Ok agent /\
    migrateConfig config = Ok out /\
    (forall k v,
        k <> "agent" -> k <> "installedSkills" -> k <> "mcp" ->
        config !! k = Some v -> out !! k = Some v) /\
    (forall k, schema_key k = false -> out !! k = config !! k) /\
    (config !! "skillsDir" = None ->
     out !! "skillsDir" = Some (JStr (agent_skillsDir agent))).
Proof.
  intros Hc.
  destruct (migrateConfig_fields config Hc) as (agent & out & Hg & Hm & Hf).
  exists agent, out. split; [exact Hg|]. split; [exact Hm|]. split; [|split].
  - intros k v H1 H2 H3 Hk. rewrite Hf. unfold migrated_field.
    destruct (eqb_string_cases k "mcp") as [[_ ->]|[-> _]]; [congruence|].
    destruct (eqb_string_cases k "installedSkills") as [[_ ->]|[-> _]]; [congruence|].
    destruct (eqb_string_cases k "agent") as [[_ ->]|[-> _]]; [congruence|].
    rewrite Hk. reflexivity.
  - intros k Hk. rewrite Hf. unfold migrated_field. unfold schema_key in Hk.
    repeat (apply orb_false_iff in Hk as [Hk ?]).
    repeat match goal with H : String.eqb _ _ = false |- _ => rewrite H; clear H end.
    destruct (config !! k); reflexivity.
  - intros Hs. rewrite Hf. unfold migrated_field. simpl. rewrite Hs. reflexivity.
Qed.

(** The object [createDefaultConfig] returns is the migration of the
    object that holds at most the agent. *)
Lemma createDefaultConfig_as_migration (a : option json) :
  claude_registered ->
  createDefaultConfig a
  = migrateConfig (match a with
                   | Some v => <["agent" := v]> ∅
                   | None => ∅
                   end).
Proof.
  intros Hc.
  set (config := match a with Some v => <["agent" := v]> ∅ | None => ∅ end).
  assert (resolveAgentId (config !! "agent")
          = resolveAgentId (Some (default (JStr "claude") a))) as Er.
  { subst config. destruct a as [v|].
    - rewrite lookup_insert_eq. reflexivity.
    - rewrite lookup_empty, !resolveAgentId_cases. simpl.
      unfold claude_registered in Hc. rewrite Hc. reflexivity. }
  assert (forall k, k <> "agent" -> config !! k = None) as Hnone.
  { intros k Hk. subst config. destruct a as [v|]; [|apply lookup_empty].
    rewrite lookup_insert_ne by congruence. apply lookup_empty. }
  destruct (migrateConfig_fields config Hc) as (agent & out & Hg & Hm & Hf).
  rewrite Hm. unfold createDefaultConfig. rewrite <- Er, Hg. f_equal.
  apply map_eq. intros k. rewrite Hf. unfold migrated_field.
  destruct (eqb_string_cases k "mcp") as [[-> ->]|[-> Hmcp]].
  { rewrite lookup_insert_eq, (Hnone "mcp") by discriminate. reflexivity. }
  rewrite lookup_insert_ne by congruence.
  destruct (eqb_string_cases k "installedSkills") as [[-> ->]|[-> Hinst]].
  { rewrite lookup_insert_eq, (Hnone "installedSkills") by discriminate. reflexivity. }
  rewrite lookup_insert_ne by congruence.
  destruct (eqb_string_cases k "agent") as [[-> ->]|[-> Hagent]].
  { rewrite lookup_insert_ne by discriminate. apply lookup_insert_eq. }
  rewrite (Hnone k Hagent).
  destruct (eqb_string_cases k "version") as [[-> ->]|[-> Hver]].
  { rewrite !lookup_insert_ne by discriminate. apply lookup_insert_eq. }
  destruct (eqb_string_cases k "skillsDir") as [[-> ->]|[-> Hsk]];
    [apply lookup_insert_eq|].
  rewrite !lookup_insert_ne by congruence. apply lookup_empty.
Qed.

(** X3: the default configuration is what migrating the empty object
    gives, it is left unchanged by migration, and an agent the registry
    does not know gets the default configuration of ['claude']. *)
Theorem createDefaultConfig_is_migrated :
  claude_registered ->
  createDefaultConfig None = migrateConfig ∅ /\
  (forall a, exists d,
      createDefaultConfig a = Ok d /\ migrateConfig d = Ok d) /\
  (forall v, is_ok (getAgentConfig v) = false ->
             createDefaultConfig (Some v) = createDefaultConfig None).
Proof.
  intros Hc. split; [exact (createDefaultConfig_as_migration None Hc)|]. split.
  - intros a. rewrite (createDefaultConfig_as_migration a Hc).
    destruct (migrateConfig_fields
                (match a with Some v => <["agent" := v]> ∅ | None => ∅ end) Hc)
      as (agent & d & _ & Hm & _).
    exists d. split; [exact Hm|]. exact (migrateConfig_idempotent _ _ Hc Hm).
  - intros v Hv. unfold createDefaultConfig. cbn [from_option id].
    assert (resolveAgentId (Some v) = resolveAgentId (Some (JStr "claude"))) as ->;
      [|reflexivity].
    rewrite !resolveAgentId_cases, Hv, andb_false_r.
    unfold claude_registered in Hc. rewrite Hc. reflexivity.
Qed.

Lemma saveConfig_run (projectDir : string) (config : gmap string json) (w : World) :
  saveConfig projectDir config w
  = Outcome (writeJsonFile (getConfigPath projectDir) config w).1
            (writeJsonFile (getConfigPath projectDir) config w).2
            [EvWriteJson (getConfigPath projectDir) config].
Proof. reflexivity. Qed.

(** X4: a migrated configuration that was saved is loaded back unchanged,
    on a host that reads back what it wrote; and a project without
    configuration file loads as [null], with nothing but the read done. *)
Theorem save_load_round_trip (projectDir : string) (w : World) :
  claude_registered ->
  (forall config out,
      reads_back_writes ->
      migrateConfig config = Ok out ->
      res (saveConfig projectDir out w) = Ok tt ->
      res (loadConfig projectDir (final (saveConfig projectDir out w)))
      = Ok (Some out))
  /\ (readJsonFile (getConfigPath projectDir) w = Ok None ->
      loadConfig projectDir w
      = Outcome (Ok None) w [EvReadJson (getConfigPath projectDir)]).
Proof.
  intros Hc. split.
  - intros config out Hlaw Hm Hs. rewrite saveConfig_run in *. simpl in *.
    rewrite (loadConfig_returns projectDir _ out out
               (Hlaw _ _ _ Hs) (migrateConfig_idempotent _ _ Hc Hm)).
    reflexivity.
  - intros Hr. unfold loadConfig, mbind, M_bind, bind, observe. simpl.
    rewrite Hr. reflexivity.
Qed.

End MoreConfigFacts.

(** ** Skill installation *)

Section MoreInstallerFacts.

Context {Reg : Registry} {World : Type} {Host : HostOps World}.

(** X5: [installSkillWithTransformer] touches the host only once the
    transformer is found, [SKILL.md] is read with some content and the
    transformation has succeeded; in every other case it throws with the
    host state as it was, having done nothing but at most the read.  An
    empty [SKILL.md] is a missing one. *)
Theorem install_fails_before_writing
    (src name pd sd aid : string) (ac : AgentConfig) (w : World) :
  let md := path_join [src; "SKILL.md"] in
  let o := installSkillWithTransformer src name pd sd aid ac w in
  ((exists tr c r,
       getTransformer aid = Ok tr /\
       readTextFile md w = Ok (Some c) /\ c <> "" /\
       transform tr name c = Ok r)
   \/ (is_ok (res o) = false /\ final o = w /\
       (trace o = [] \/ trace o = [EvReadText md])))
  /\ (forall tr,
        getTransformer aid = Ok tr ->
        readTextFile md w = Ok (Some "") ->
        o = Outcome (Throw ("Error: SKILL.md not found in " +:+ src)) w
                    [EvReadText md]).
Proof.
  cbv zeta.
  unfold installSkillWithTransformer, mbind, M_bind, bind, of_result, observe, throw.
  cbn [res final trace].
  destruct (getTransformer aid) as [tr|e]; cbn [res final trace].
  2: { split; [right; auto | intros tr Ht; discriminate]. }
  split.
  - destruct (readTextFile (path_join [src; "SKILL.md"]) w) as [[c|]|e];
      cbn [res final trace nonempty negb from_option id].
    + destruct (String.eqb_spec c "") as [->|Hc]; cbn [negb res final trace].
      * right. auto.
      * destruct (transform tr name c) as [r|e] eqn:Hr; cbn [res final trace].
        -- left. exists tr, c, r. auto.
        -- right. auto.
    + right. auto.
    + right. auto.
  - intros tr' _ Hr. rewrite Hr. reflexivity.
Qed.

Lemma bind_ok {S A B} (m : M S A) (k : A -> M S B) (s s' : S) (a : A)
    (t : list event) :
  m s = Outcome (Ok a) s' t ->
  bind m k s = Outcome (res (k a s')) (final (k a s')) (t ++ trace (k a s')).
Proof. intros E. unfold bind. rewrite E. reflexivity. Qed.

Lemma bind_throw {S A B} (m : M S A) (k : A -> M S B) (s : S) (e : string) :
  res (m s) = Throw e ->
  bind m k s = Outcome (Throw e) (final (m s)) (trace (m s)).
Proof. intros E. unfold bind. rewrite E. reflexivity. Qed.

Lemma bind_res_ok {S A B} (m : M S A) (k : A -> M S B) (s : S) (a : A) :
  res (m s) = Ok a ->
  res (bind m k s) = res (k a (final (m s))).
Proof. intros E. unfold bind. rewrite E. reflexivity. Qed.

Lemma getAvailableSkills_run (dirs : list string) (w : World) :
  listDirectories getSkillsDir w = Ok dirs ->
  getAvailableSkills w
  = Outcome (Ok (available_of dirs)) w [EvListDirs getSkillsDir].
Proof.
  intros Hl. unfold getAvailableSkills, mbind, M_bind, bind, observe, ret.
  cbn [res final trace]. rewrite Hl. reflexivity.
Qed.

(** What [installSkills] returns when nothing outside the loops fails. *)
Lemma installSkills_res_exact (options : InstallOptions) (ac : AgentConfig) (w : World) :
  getAgentConfig (JStr (agentId options)) = Ok ac ->
  (ensureDir (path_join [projectDir options; skillsDir options]) w).1 = Ok tt ->
  hook_succeeds options ->
  res (installSkills options w)
  = Ok (installed_requested options ac (skills options) (start_of options w).1
        ++ (stack_key options
              <$> installed_stack options ac
                    (world_after options ac (skills options) w))).
Proof.
  intros Hg He Hh.
  destruct (installSkills_run options ac w Hg He) as (finish & _ & Hf & Hrun).
  specialize (Hrun (skills options)). rewrite with_skills_same in Hrun.
  rewrite Hrun. cbn [res]. unfold bind.
  rewrite (for_each_ok _ _ (install_requested_ok options ac)). cbn [res final].
  rewrite install_stack_ok. cbn [res final].
  destruct (Hf Hh (final (install_stack getSkillsDir options ac
                            (final (for_each (skills options)
                                      (install_requested getSkillsDir options ac)
                                      (start_of options w)))))) as [-> _].
  rewrite install_stack_exact.
  pose proof (requested_loop options ac (skills options) (start_of options w).1 [])
    as Hl.
  change ((start_of options w).1, []) with (start_of options w) in Hl.
  rewrite Hl. reflexivity.
Qed.

(** X6: [updateSkills] returns the package's skills (the directories not
    starting with an underscore) that installed, followed by the
    recorded custom keys that reconciled.  So every key of the result is
    a skill of the package or a well formed recorded key: a recorded
    plain skill that left the package is dropped, and no key of a
    stack is added. *)
Theorem updateSkills_result (config : AiFactoryConfig) (pd : string)
    (ac : AgentConfig) (dirs : list string) (w : World) :
  getAgentConfig (JStr (cfg_agent config)) = Ok ac ->
  exists_answers ->
  listDirectories getSkillsDir w = Ok dirs ->
  (ensureDir (path_join [pd; cfg_skillsDir config]) w).1 = Ok tt ->
  hook_succeeds (update_request config pd (available_of dirs)) ->
  let request := update_request config pd (available_of dirs) in
  let base := installed_requested request ac (available_of dirs)
                                  (start_of request w).1 in
  let custom := reconciled pd config ac (custom_keys config)
                           (final (installSkills request w)) in
  res (updateSkills config pd w) = Ok (base ++ custom) /\
  (forall key,
      key ∈ base ++ custom ->
      (key ∈ dirs /\ starts_with_underscore key = false) \/
      (key ∈ cfg_installedSkills config /\ includes_slash key = true /\
       wellformed key = true)).
Proof.
  intros Hg Hex Hl He Hh request base custom.
  pose proof (installSkills_res_exact request ac w Hg He Hh) as Hi.
  change (skills request) with (available_of dirs) in Hi.
  replace (stack_key request <$> installed_stack request ac
             (world_after request ac (available_of dirs) w))
    with ([] : list string) in Hi by reflexivity.
  rewrite app_nil_r in Hi. fold base in Hi.
  destruct (reconcile_run pd config ac (custom_keys config)
              (final (installSkills request w)) Hg Hex) as (t & Hr & _).
  fold custom in Hr.
  split.
  - unfold updateSkills, mbind, M_bind.
    rewrite (bind_ok _ _ _ _ _ _ (getAvailableSkills_run dirs w Hl)).
    cbn [res]. fold (custom_keys config).
    fold (update_request config pd (available_of dirs)). fold request.
    rewrite (bind_res_ok _ _ _ _ Hi).
    rewrite (bind_ok _ _ _ _ _ _ Hr). reflexivity.
  - intros key Hin. apply elem_of_app in Hin as [Hin|Hin].
    + left. subst base.
      pose proof (installed_requested_sublist request ac (available_of dirs)
                    (start_of request w).1) as Hs.
      apply sublist_submseteq in Hs.
      pose proof (elem_of_submseteq _ _ _ Hin Hs) as Hav.
      unfold available_of in Hav. apply list_elem_of_In, filter_In in Hav as [H1 H2].
      split; [apply list_elem_of_In; exact H1|].
      destruct (starts_with_underscore key); [discriminate | reflexivity].
    + right. subst custom.
      pose proof (reconciled_wellformed _ _ _ _ _ _ Hin) as Hw.
      pose proof (reconciled_sublist pd config ac (custom_keys config)
                    (final (installSkills request w))) as Hs.
      apply sublist_submseteq in Hs.
      pose proof (elem_of_submseteq _ _ _ Hin Hs) as Hc.
      unfold custom_keys in Hc. apply list_elem_of_In, filter_In in Hc as [H1 H2].
      split; [apply list_elem_of_In; exact H1|]. split; assumption.
Qed.

Lemma plain_quiet (t : list event) :
  forallb plain_event t = true -> warnings t = [] /\ posts t = [].
Proof.
  induction t as [|e t IH]; simpl; [auto|].
  intros H. apply andb_true_iff in H as [He Ht]. destruct (IH Ht) as [Hw Hp].
  unfold plain_event in He. apply andb_true_iff in He as [H1 H2].
  unfold warnings, posts in *. simpl.
  destruct (is_warning e); [discriminate|]. destruct (is_post e); [discriminate|].
  auto.
Qed.

Lemma install_plain (src name pd sd aid : string) (ac : AgentConfig) (w : World) :
  forallb plain_event (trace (installSkillWithTransformer src name pd sd aid ac w))
  = true.
Proof.
  unfold installSkillWithTransformer, mbind, M_bind, bind, of_result, observe,
    mutate, throw, ret.
  simpl.
  repeat match goal with
         | |- context [match ?x with _ => _ end] => destruct x; simpl
         | |- context [if ?x then _ else _] => destruct x; simpl
         end; reflexivity.
Qed.

Lemma requested_loop_events (options : InstallOptions) (ac : AgentConfig)
    (requested : list string) :
  forall w acc,
    let t := trace (for_each requested (install_requested getSkillsDir options ac)
                             (w, acc)) in
    (length (warnings t) + length (installed_requested options ac requested w))%nat
    = length requested /\
    posts t = [].
Proof.
  induction requested as [|skill rest IH]; intros w acc; cbv zeta.
  - split; reflexivity.
  - pose proof (install_requested_cases options ac skill w acc) as Hc.
    destruct (plain_quiet _ (install_plain (path_join [getSkillsDir; skill]) skill
                               (projectDir options) (skillsDir options)
                               (agentId options) ac w)) as [Hw Hp].
    fold (install_of options ac skill) in Hw, Hp.
    cbn [installed_requested].
    destruct (res (install_of options ac skill w)) as [[]|e];
      rewrite (for_each_cons_ok _ _ _ _ _ _ Hc); cbn [trace is_ok];
      match goal with
      | |- context [for_each rest _ (?w', ?acc')] =>
          destruct (IH w' acc') as [IH1 IH2]
      end;
      unfold warnings, posts in *; rewrite !List.filter_app, !length_app.
    + rewrite Hw, Hp, IH2. simpl. split; [lia | reflexivity].
    + rewrite Hw, Hp, IH2. simpl. split; [lia | reflexivity].
Qed.

Lemma templates_loop_plain (options : InstallOptions) (ac : AgentConfig)
    (listing : list string) :
  forall w acc,
    forallb plain_event
      (trace (for_each listing
                (install_template (stack_dir options) (default "" (stack options))
                                  options ac)
                (w, acc))) = true.
Proof.
  induction listing as [|t rest IH]; intros w acc; [reflexivity|].
  cbn [for_each]. unfold bind. rewrite install_template_cases.
  pose proof (install_plain (path_join [stack_dir options; t]) t
                (projectDir options) (skillsDir options) (agentId options) ac w)
    as Hp.
  fold (template_of options ac t) in Hp.
  destruct (res (template_of options ac t w)) as [[]|e]; cbn [res final trace].
  - rewrite forallb_app, Hp, IH. reflexivity.
  - exact Hp.
Qed.

Lemma install_stack_plain (options : InstallOptions) (ac : AgentConfig)
    (s : World * list string) :
  forallb plain_event (trace (install_stack getSkillsDir options ac s)) = true.
Proof.
  unfold install_stack. destruct (nonempty (stack options)); [|reflexivity].
  fold (stack_dir options).
  unfold try_catch, mbind, M_bind, bind, lift, observe, ret. cbn [res final trace].
  destruct (listDirectories (stack_dir options) s.1) as [listing|e];
    cbn [res final trace]; [|reflexivity].
  pose proof (templates_loop_plain options ac listing s.1 s.2) as Hp.
  match goal with
  | |- context [match res ?o with _ => _ end] => destruct (res o)
  end; cbn [trace app forallb plain_event is_warning is_post negb andb];
    rewrite ?app_nil_r; exact Hp.
Qed.

Lemma installSkills_trace (options : InstallOptions) (ac : AgentConfig) (w : World) :
  getAgentConfig (JStr (agentId options)) = Ok ac ->
  (ensureDir (path_join [projectDir options; skillsDir options]) w).1 = Ok tt ->
  let o1 := for_each (skills options) (install_requested getSkillsDir options ac)
                     (start_of options w) in
  let o2 := install_stack getSkillsDir options ac (final o1) in
  trace (installSkills options w)
  = EvEnsureDir (path_join [projectDir options; skillsDir options])
    :: trace o1 ++ trace o2 ++ trace (finish_of options (final o2)).
Proof.
  intros Hg He. cbv zeta.
  unfold installSkills, with_local, mbind, M_bind. cbn [trace].
  rewrite Hg, bind_of_result.
  unfold bind at 1. unfold lift at 1 2 3, mutate. cbn [res final trace fst snd].
  rewrite He. cbn [trace app].
  change ((ensureDir (path_join [projectDir options; skillsDir options]) w).2, [])
    with (start_of options w).
  f_equal. unfold bind at 1.
  rewrite (for_each_ok _ _ (install_requested_ok options ac)). cbn [trace].
  f_equal. unfold bind at 1. rewrite install_stack_ok. cbn [trace].
  reflexivity.
Qed.

Lemma finish_of_trace (options : InstallOptions) (s : World * list string) :
  trace (finish_of options s)
  = match getTransformer (agentId options) with
    | Ok tr =>
        match postInstall tr with
        | Some _ => [EvPostInstall (projectDir options)]
        | None => []
        end
    | Throw _ => []
    end.
Proof.
  unfold finish_of, mbind, M_bind, bind, of_result, lift, mutate, get_local, ret.
  cbn [res final trace].
  destruct (getTransformer (agentId options)) as [tr|e]; cbn [res final trace];
    [|reflexivity].
  destruct (postInstall tr) as [hook|]; cbn [res final trace]; [|reflexivity].
  destruct (hook (projectDir options) s.1).1; reflexivity.
Qed.

(** X7: in a call of [installSkills] that gets past the agent lookup and
    [ensureDir], each requested skill that fails costs exactly one
    warning and nothing else warns (a failing template skill of the stack
    does not); and the [postInstall] hook, when the transformer has one,
    is called exactly once, as the last host call, whatever happened to
    the skills; without a hook it is never called. *)
Theorem installSkills_events (options : InstallOptions) (ac : AgentConfig) (w : World) :
  getAgentConfig (JStr (agentId options)) = Ok ac ->
  (ensureDir (path_join [projectDir options; skillsDir options]) w).1 = Ok tt ->
  let t := trace (installSkills options w) in
  (length (warnings t)
   + length (installed_requested options ac (skills options) (start_of options w).1))%nat
  = length (skills options) /\
  (forall tr hook,
      getTransformer (agentId options) = Ok tr ->
      postInstall tr = Some hook ->
      exists t0, t = t0 ++ [EvPostInstall (projectDir options)] /\ posts t0 = []) /\
  (forall tr,
      getTransformer (agentId options) = Ok tr ->
      postInstall tr = None ->
      posts t = []).
Proof.
  intros Hg He t. subst t. rewrite (installSkills_trace options ac w Hg He).
  set (o1 := for_each (skills options) (install_requested getSkillsDir options ac)
                      (start_of options w)).
  set (o2 := install_stack getSkillsDir options ac (final o1)).
  destruct (requested_loop_events options ac (skills options)
              (start_of options w).1 []) as [Hcount Hposts].
  change ((start_of options w).1, []) with (start_of options w) in Hcount, Hposts.
  fold o1 in Hcount, Hposts.
  destruct (plain_quiet _ (install_stack_plain options ac (final o1))) as [Hw2 Hp2].
  fold o2 in Hw2, Hp2.
  rewrite finish_of_trace.
  split; [|split].
  - unfold warnings in *. cbn [List.filter is_warning].
    rewrite !List.filter_app, !length_app, Hw2.
    destruct (getTransformer (agentId options)) as [tr|e];
      [destruct (postInstall tr)|]; cbn [List.filter is_warning length]; lia.
  - intros tr hook -> ->.
    exists (EvEnsureDir (path_join [projectDir options; skillsDir options])
            :: trace o1 ++ trace o2).
    split; [cbn [app]; rewrite <- app_assoc; reflexivity|].
    unfold posts in *. cbn [List.filter is_post].
    rewrite List.filter_app, Hposts, Hp2. reflexivity.
  - intros tr -> ->. unfold posts in *. cbn [List.filter is_post].
    rewrite !List.filter_app, Hposts, Hp2. reflexivity.
Qed.

(** X8: an agent the registry does not know is a hard failure of the
    installer and of the MCP provisioner: [installSkills],
    [reconcileCustomSkills] and [configureMcp] throw the registry's error
    before any host call; and when [ensureDir] fails, [installSkills]
    throws without having looked at any skill. *)
Theorem unknown_agent_is_fatal (e : string) (w : World) :
  (forall options,
      getAgentConfig (JStr (agentId options)) = Throw e ->
      installSkills options w = Outcome (Throw e) w []) /\
  (forall keys pd config,
      getAgentConfig (JStr (cfg_agent config)) = Throw e ->
      reconcileCustomSkills keys pd config w = Outcome (Throw e) w []) /\
  (forall pd flags agentId,
      getAgentConfig (JStr agentId) = Throw e ->
      configureMcp pd flags agentId w = Outcome (Throw e) w []) /\
  (forall options ac,
      getAgentConfig (JStr (agentId options)) = Ok ac ->
      (ensureDir (path_join [projectDir options; skillsDir options]) w).1 = Throw e ->
      res (installSkills options w) = Throw e /\
      trace (installSkills options w)
      = [EvEnsureDir (path_join [projectDir options; skillsDir options])]).
Proof.
  split; [|split; [|split]].
  - intros options Hg. unfold installSkills, with_local, mbind, M_bind.
    unfold bind at 1, of_result. cbn [res final trace]. rewrite Hg. reflexivity.
  - intros keys pd config Hg. unfold reconcileCustomSkills, with_local, mbind, M_bind.
    unfold bind at 1, of_result. cbn [res final trace]. rewrite Hg. reflexivity.
  - intros pd flags agentId Hg. unfold configureMcp, mbind, M_bind.
    unfold bind at 1, of_result. cbn [res final trace]. rewrite Hg. reflexivity.
  - intros options ac Hg He. unfold installSkills, with_local, mbind, M_bind.
    cbn [res trace]. rewrite Hg, bind_of_result.
    rewrite (bind_throw _ _ _ e) by exact He. split; reflexivity.
Qed.

Lemma split_slash_nonempty (s : string) : split_slash s <> [].
Proof.
  induction s as [|c s IH]; simpl; [discriminate|].
  destruct (Ascii.eqb c "/"); [discriminate|].
  destruct (split_slash s); discriminate.
Qed.

Lemma concat_cons_nonempty (sep x : string) (l : list string) :
  l <> [] -> String.concat sep (x :: l) = x +:+ sep +:+ String.concat sep l.
Proof. destruct l; [congruence | reflexivity]. Qed.

Lemma split_slash_join (s : string) : String.concat "/" (split_slash s) = s.
Proof.
  induction s as [|c s IH]; simpl; [reflexivity|].
  destruct (Ascii.eqb_spec c "/"%char) as [->|Hc].
  - rewrite concat_cons_nonempty by apply split_slash_nonempty.
    simpl. rewrite IH. reflexivity.
  - destruct (split_slash s) as [|piece rest] eqn:E;
      [exfalso; exact (split_slash_nonempty s E)|].
    destruct rest as [|piece' rest].
    + simpl in *. rewrite IH. reflexivity.
    + rewrite concat_cons_nonempty by discriminate.
      rewrite concat_cons_nonempty in IH by discriminate.
      simpl. rewrite <- IH. reflexivity.
Qed.

Lemma split_slash_plain (s : string) :
  includes_slash s = false -> split_slash s = [s].
Proof.
  induction s as [|c s IH]; simpl; [reflexivity|].
  destruct (Ascii.eqb c "/"); simpl; [discriminate|].
  intros Hs. rewrite (IH Hs). reflexivity.
Qed.

Lemma split_slash_prefix (a b : string) :
  includes_slash a = false ->
  split_slash (a +:+ "/" +:+ b) = a :: split_slash b.
Proof.
  induction a as [|c a IH]; simpl; [reflexivity|].
  destruct (Ascii.eqb c "/"); simpl; [discriminate|].
  intros Ha. rewrite (IH Ha). reflexivity.
Qed.

(** X9: how a custom key is read.  The pieces [split('/')] gives join
    back to the key; a key without ['/'] is never well formed, so the
    filter of [updateSkills] hides no key that reconciliation would take;
    and the key [stack/skill] that [installSkills] records for a template
    skill is read back as that stack and that skill. *)
Theorem custom_key_parsing :
  (forall key, String.concat "/" (split_slash key) = key) /\
  (forall key, includes_slash key = false -> wellformed key = false) /\
  (forall key, wellformed key = true -> includes_slash key = true) /\
  (forall stack name,
      stack <> "" -> name <> "" ->
      includes_slash stack = false -> includes_slash name = false ->
      custom_stack (stack +:+ "/" +:+ name) = Some stack /\
      custom_skill (stack +:+ "/" +:+ name) = Some name /\
      wellformed (stack +:+ "/" +:+ name) = true).
Proof.
  assert (forall key, includes_slash key = false -> wellformed key = false) as Hplain.
  { intros key Hk. unfold wellformed, custom_skill.
    rewrite (split_slash_plain key Hk). simpl. apply andb_false_r. }
  split; [exact split_slash_join|]. split; [exact Hplain|]. split.
  - intros key Hw. destruct (includes_slash key) eqn:E; [reflexivity|].
    rewrite (Hplain key E) in Hw. discriminate.
  - intros stack name Hs Hn Hss Hsn.
    unfold wellformed, custom_stack, custom_skill.
    rewrite (split_slash_prefix stack name Hss), (split_slash_plain name Hsn).
    simpl. split; [reflexivity|]. split; [reflexivity|].
    destruct (String.eqb_spec stack ""); [congruence|].
    destruct (String.eqb_spec name ""); [congruence|]. reflexivity.
Qed.

End MoreInstallerFacts.

(** ** MCP provisioning *)

Section MoreMcpFacts.

Context {Reg : Registry} {World : Type} {Host : HostOps World}.

Lemma merge_servers_configured (convert : gmap string json -> result json)
    (sel : list (McpServerKey * gmap string json)) :
  forall sub acc sub' configured,
    merge_servers convert sel sub acc = Ok (sub', configured) ->
    configured = acc ++ names_of sel.
Proof.
  induction sel as [|[key t] sel IH]; intros sub acc sub' configured; simpl.
  - intros [= <- <-]. rewrite app_nil_r. reflexivity.
  - destruct (convert t) as [entry|e]; [|discriminate].
    destruct (assign_prop sub (key_name key) entry) as [sub1|e]; [|discriminate].
    intros Hm. rewrite (IH _ _ _ _ Hm), <- app_assoc. reflexivity.
Qed.

(** The outcome of the merge branch, by what the host answered. *)
Lemma merge_and_write_res (path k : string)
    (convert : gmap string json -> result json)
    (sel : list (McpServerKey * gmap string json)) (w : World) (l : list string) :
  res (merge_and_write path k convert sel w) = Ok l ->
  exists sub',
    merge_servers convert sel
      (default JNull (ensure_sub_map k (loaded_settings path w) !! k)) []
    = Ok (sub', l) /\
    (writeJsonFile path (merged_document k (loaded_settings path w) sub') w).1 = Ok tt /\
    final (merge_and_write path k convert sel w)
    = (writeJsonFile path (merged_document k (loaded_settings path w) sub') w).2.
Proof.
  unfold merge_and_write, loaded_settings, merged_document, mbind, M_bind, bind,
    observe, of_result, mutate, ret.
  cbn [res final trace].
  destruct (fileExists path w) as [[|]|e]; cbn [res final trace]; [| |discriminate].
  - destruct (readJsonFile path w) as [existing|e]; cbn [res final trace];
      [|discriminate].
    replace (default ∅ existing)
      with (match existing with Some d => d | None => ∅ end)
      by (destruct existing; reflexivity).
    destruct (merge_servers convert sel _ []) as [[sub' conf]|e];
      cbn [res final trace fst snd]; [|discriminate].
    destruct (writeJsonFile path _ w).1 as [[]|e] eqn:Hw;
      cbn [res final trace]; [|discriminate].
    intros [= <-]. exists sub'. auto.
  - destruct (merge_servers convert sel _ []) as [[sub' conf]|e];
      cbn [res final trace fst snd]; [|discriminate].
    destruct (writeJsonFile path _ w).1 as [[]|e] eqn:Hw;
      cbn [res final trace]; [|discriminate].
    intros [= <-]. exists sub'. auto.
Qed.

Lemma selection_sublist (options : McpOptions) (keys : list McpServerKey) (w : World) :
  forall sel,
    selection options templates_dir keys w = Ok sel ->
    names_of sel `sublist_of` (key_name <$> keys).
Proof.
  induction keys as [|k0 keys IH]; intros sel; simpl.
  - intros [= <-]. constructor.
  - destruct (flag options k0); simpl.
    + destruct (readJsonFile (template_path templates_dir k0) w) as [[t0|]|e].
      * destruct (selection options templates_dir keys w) as [sel0|e];
          [|discriminate].
        intros [= <-]. unfold names_of. simpl. apply sublist_skip.
        apply (IH sel0 eq_refl).
      * intros Hs. apply sublist_cons. exact (IH sel Hs).
      * discriminate.
    + intros Hs. apply sublist_cons. exact (IH sel Hs).
Qed.

(** What a returning call of [configureMcp] that is not gated did. *)
Lemma configureMcp_returned (projectDir : string) (options : McpOptions)
    (agentId : string) (agent : AgentConfig) (w : World) (l : list string) :
  getAgentConfig (JStr agentId) = Ok agent ->
  gated agent = false ->
  res (configureMcp projectDir options agentId w) = Ok l ->
  let w1 := prepared projectDir agent w in
  let path := settings_path projectDir agent in
  let k := sub_map_name agentId in
  exists sel,
    selection options templates_dir server_keys w1 = Ok sel /\
    l = names_of sel /\
    ((sel = [] /\ final (configureMcp projectDir options agentId w) = w1) \/
     (sel <> [] /\
      exists sub',
        merge_servers (conversion agentId) sel
          (default JNull (ensure_sub_map k (loaded_settings path w1) !! k)) []
        = Ok (sub', l) /\
        (writeJsonFile path (merged_document k (loaded_settings path w1) sub') w1).1
        = Ok tt /\
        final (configureMcp projectDir options agentId w)
        = (writeJsonFile path (merged_document k (loaded_settings path w1) sub') w1).2)).
Proof.
  intros Hg Hgate Hres. cbv zeta.
  pose proof (configureMcp_run projectDir options agentId agent w Hg Hgate) as Hrun.
  cbv zeta in Hrun.
  destruct (ensureDir (settings_dir projectDir agent) w).1 as [[]|e];
    [|rewrite Hrun in Hres; discriminate].
  destruct Hrun as (ts & _ & Hrun).
  destruct (selection options templates_dir server_keys
              (prepared projectDir agent w)) as [[|[key t] sel]|e] eqn:Hsel;
    rewrite Hrun in *; cbn [res final] in *.
  - injection Hres as <-. exists []. split; [reflexivity|]. split; [reflexivity|].
    left. auto.
  - destruct (merge_and_write_res _ _ _ _ _ _ Hres) as (sub' & Hm & Hw & Hf).
    exists ((key, t) :: sel). split; [reflexivity|].
    split; [exact (merge_servers_configured _ _ _ _ _ _ Hm)|].
    right. split; [discriminate|]. exists sub'. auto.
  - discriminate.
Qed.

(** X10: the list a call of [configureMcp] returns is, in the fixed order
    [github], [filesystem], [postgres], [chromeDevtools], the names of
    the servers whose flag is set and whose template file is there: no
    name twice, none of a server that was not selected, and, past the
    capability gate, every selected one. *)
Theorem configureMcp_returns_selected (projectDir : string) (options : McpOptions)
    (agentId : string) (agent : AgentConfig) (w : World) (l : list string) :
  getAgentConfig (JStr agentId) = Ok agent ->
  res (configureMcp projectDir options agentId w) = Ok l ->
  l `sublist_of` ["github"; "filesystem"; "postgres"; "chromeDevtools"] /\
  NoDup l /\
  (forall key,
      key_name key ∈ l ->
      gated agent = false /\ flag options key = true /\
      is_Some (selected_template options key (prepared projectDir agent w))) /\
  (gated agent = false ->
   forall key,
     is_Some (selected_template options key (prepared projectDir agent w)) ->
     key_name key ∈ l).
Proof.
  intros Hg Hres.
  destruct (gated agent) eqn:Hgate.
  { rewrite (configureMcp_gated _ _ _ _ _ Hg Hgate) in Hres. injection Hres as <-.
    split; [apply sublist_nil_l|]. split; [constructor|].
    split; [intros key Hin; inversion Hin | discriminate]. }
  destruct (configureMcp_returned _ _ _ _ _ _ Hg Hgate Hres) as (sel & Hsel & -> & _).
  destruct (selection_spec _ _ _ _ Hsel) as (Hspec & _ & Hnd).
  assert (forall key, key_name key ∈ names_of sel <->
                      exists t, (key, t) ∈ sel) as Hnames.
  { intros key. unfold names_of. rewrite list_elem_of_fmap. split.
    - intros ([key' t] & E & Hin). simpl in E. apply key_name_inj in E. subst key'.
      eauto.
    - intros (t & Hin). exists (key, t). auto. }
  split; [exact (selection_sublist _ _ _ _ Hsel)|]. split; [|split].
  - specialize (Hnd server_keys_NoDup).
    replace (names_of sel) with (key_name <$> (fst <$> sel))
      by (unfold names_of; rewrite <- list_fmap_compose; reflexivity).
    apply NoDup_fmap; [intros k1 k2; apply key_name_inj | exact Hnd].
  - intros key Hin. apply Hnames in Hin as (t & Hin).
    apply Hspec in Hin as [_ Ht]. split; [reflexivity|].
    split; [|rewrite Ht; eauto].
    unfold selected_template in Ht. destruct (flag options key); [reflexivity|discriminate].
  - intros _ key [t Ht]. apply Hnames. exists t. apply Hspec.
    split; [apply server_keys_all | exact Ht].
Qed.

Lemma selection_ext (options : McpOptions) (keys : list McpServerKey) (w w' : World) :
  (forall key, readJsonFile (template_path templates_dir key) w'
               = readJsonFile (template_path templates_dir key) w) ->
  selection options templates_dir keys w' = selection options templates_dir keys w.
Proof.
  intros Hr. induction keys as [|key keys IH]; simpl; [reflexivity|].
  rewrite Hr, IH. reflexivity.
Qed.

(** Merging a selection into a sub-map that already holds its entries
    changes nothing. *)
Lemma merge_servers_fixed (convert : gmap string json -> result json)
    (sel : list (McpServerKey * gmap string json)) (m : gmap string json) :
  (forall key t, (key, t) ∈ sel ->
                 exists entry, convert t = Ok entry /\ m !! key_name key = Some entry) ->
  forall acc, merge_servers convert sel (JObj m) acc = Ok (JObj m, acc ++ names_of sel).
Proof.
  induction sel as [|[key t] sel IH]; intros Hm acc; simpl.
  - rewrite app_nil_r. reflexivity.
  - destruct (Hm key t) as (entry & Hc & He); [apply elem_of_cons; auto|].
    rewrite Hc. rewrite (insert_id m _ _ He).
    rewrite IH, <- app_assoc; [reflexivity|].
    intros key' t' Hin. apply Hm. apply elem_of_cons. auto.
Qed.

Lemma merge_servers_arr_again (convert : gmap string json -> result json)
    (sel : list (McpServerKey * gmap string json)) (a : list json) :
  forall acc sub' configured,
    merge_servers convert sel (JArr a) acc = Ok (sub', configured) ->
    forall acc', merge_servers convert sel (JArr a) acc'
                 = Ok (JArr a, acc' ++ names_of sel).
Proof.
  induction sel as [|[key t] sel IH]; intros acc sub' configured; simpl.
  - intros _ acc'. rewrite app_nil_r. reflexivity.
  - destruct (convert t) as [entry|e]; [|discriminate].
    intros Hm acc'. rewrite (IH _ _ _ Hm), <- app_assoc. reflexivity.
Qed.

(** The merge is idempotent: its result, merged with the same selection
    again, is itself; and it is an object or an array. *)
Lemma merge_servers_again (convert : gmap string json -> result json)
    (sel : list (McpServerKey * gmap string json)) (sub sub' : json)
    (configured : list string) :
  NoDup (fst <$> sel) ->
  sel <> [] ->
  merge_servers convert sel sub [] = Ok (sub', configured) ->
  merge_servers convert sel sub' [] = Ok (sub', configured) /\ truthy sub' = true.
Proof.
  intros Hnd Hne Hm.
  pose proof (merge_servers_configured _ _ _ _ _ _ Hm) as Hc. simpl in Hc. subst configured.
  destruct sub as [| b | z | s | a | m].
  5: { pose proof (merge_servers_arr _ _ _ _ _ _ Hm) as ->.
       split; [|reflexivity]. apply (merge_servers_arr_again _ _ _ _ _ _ Hm []). }
  5: { destruct (merge_servers_obj _ _ _ _ _ _ Hm) as (m' & -> & _ & Hsel).
       split; [|reflexivity].
       apply (merge_servers_fixed convert sel m' (Hsel Hnd) []). }
  all: destruct sel as [|[k0 t0] sel]; [congruence|];
    simpl in Hm; destruct (convert t0); discriminate.
Qed.

Lemma merged_document_again (k : string) (loaded : gmap string json) (sub : json) :
  truthy sub = true ->
  ensure_sub_map k (merged_document k loaded sub) = merged_document k loaded sub /\
  merged_document k loaded sub !! k = Some sub /\
  merged_document k (merged_document k loaded sub) sub = merged_document k loaded sub.
Proof.
  intros Ht.
  assert (merged_document k loaded sub !! k = Some sub) as Hk
    by apply lookup_insert_eq.
  assert (ensure_sub_map k (merged_document k loaded sub) = merged_document k loaded sub)
    as He by (unfold ensure_sub_map; rewrite Hk; simpl; rewrite Ht; reflexivity).
  split; [exact He|]. split; [exact Hk|].
  unfold merged_document at 1. rewrite He. apply insert_id. exact Hk.
Qed.

(** A write by [configureMcp] comes with a selection that is not empty. *)
Lemma configureMcp_writes_selected (projectDir : string) (options : McpOptions)
    (agentId : string) (agent : AgentConfig) (w : World)
    (p : string) (doc : gmap string json) :
  getAgentConfig (JStr agentId) = Ok agent ->
  EvWriteJson p doc ∈ trace (configureMcp projectDir options agentId w) ->
  gated agent = false /\
  exists sel,
    selection options templates_dir server_keys (prepared projectDir agent w) = Ok sel /\
    sel <> [].
Proof.
  intros Hg Hin.
  destruct (gated agent) eqn:Hgate.
  { rewrite (configureMcp_gated _ _ _ _ _ Hg Hgate) in Hin. inversion Hin. }
  split; [reflexivity|].
  pose proof (configureMcp_run projectDir options agentId agent w Hg Hgate) as Hrun.
  cbv zeta in Hrun.
  destruct (ensureDir (settings_dir projectDir agent) w).1 as [[]|e].
  - destruct Hrun as (ts & Hts & Hrun).
    destruct (selection options templates_dir server_keys
                (prepared projectDir agent w)) as [[|[key t] sel]|e] eqn:Hsel;
      rewrite Hrun in Hin; cbn [trace] in Hin.
    + apply elem_of_cons in Hin as [Hin|Hin]; [discriminate|].
      exfalso. exact (reads_only_no_write _ _ _ Hts Hin).
    + exists ((key, t) :: sel). split; [reflexivity | discriminate].
    + apply elem_of_cons in Hin as [Hin|Hin]; [discriminate|].
      exfalso. exact (reads_only_no_write _ _ _ Hts Hin).
  - rewrite Hrun in Hin. trace_in Hin.
Qed.

(** X11: [configureMcp] is idempotent on a host whose files are what was
    last written to them: after a call that returned, a second call with
    the same arguments returns no other list than the first, and what it
    writes to the settings file is the document the first call wrote. *)
Theorem configureMcp_idempotent (projectDir : string) (options : McpOptions)
    (agentId : string) (agent : AgentConfig) (w : World) (l : list string) :
  getAgentConfig (JStr agentId) = Ok agent ->
  lawful_host ->
  templates_apart projectDir agent ->
  res (configureMcp projectDir options agentId w) = Ok l ->
  let o1 := configureMcp projectDir options agentId w in
  let o2 := configureMcp projectDir options agentId (final o1) in
  (forall l2, res o2 = Ok l2 -> l2 = l) /\
  (forall p doc p2 doc2,
      EvWriteJson p doc ∈ trace o1 ->
      EvWriteJson p2 doc2 ∈ trace o2 ->
      p2 = p /\ doc2 = doc).
Proof.
  intros Hg Hlaw Hapart Hres. cbv zeta.
  destruct (gated agent) eqn:Hgate.
  { rewrite (configureMcp_gated _ _ _ _ _ Hg Hgate) in Hres. injection Hres as <-.
    rewrite (configureMcp_gated _ _ _ _ _ Hg Hgate). cbn [final].
    rewrite (configureMcp_gated _ _ _ _ _ Hg Hgate). cbn [res trace].
    split; [congruence|]. intros p doc p2 doc2 Hin. inversion Hin. }
  destruct (configureMcp_returned _ _ _ _ _ _ Hg Hgate Hres)
    as (sel & Hsel & Hl & Hcase).
  set (o1 := configureMcp projectDir options agentId w) in *.
  set (w1 := prepared projectDir agent w) in *.
  set (path := settings_path projectDir agent) in *.
  set (k := sub_map_name agentId) in *.
  assert (forall sel2 l2,
            selection options templates_dir server_keys
                      (prepared projectDir agent (final o1)) = Ok sel2 ->
            res (configureMcp projectDir options agentId (final o1)) = Ok l2 ->
            sel2 = sel -> l2 = l) as Hsame.
  { intros sel2 l2 Hs2 Hr2 ->.
    destruct (configureMcp_returned _ _ _ _ _ _ Hg Hgate Hr2) as (sel3 & Hs3 & -> & _).
    rewrite Hs2 in Hs3. injection Hs3 as <-. symmetry. exact Hl. }
  destruct Hcase as [[-> Hf] | (Hne & sub' & Hm & Hw & Hf)].
  - assert (selection options templates_dir server_keys
                      (prepared projectDir agent (final o1)) = Ok []) as Hs2.
    { rewrite <- Hsel. apply selection_ext. intros key. rewrite Hf.
      apply (law_ensureDir_reads Hlaw). }
    split.
    + intros l2 Hr2. exact (Hsame [] l2 Hs2 Hr2 eq_refl).
    + intros p doc p2 doc2 Hin _.
      destruct (configureMcp_writes_selected _ _ _ _ _ _ _ Hg Hin)
        as (_ & sel' & Hs' & Hne).
      fold w1 in Hs'. rewrite Hsel in Hs'. congruence.
  - set (doc1 := merged_document k (loaded_settings path w1) sub') in *.
    set (wf := final o1) in *.
    assert (selection options templates_dir server_keys (prepared projectDir agent wf)
            = Ok sel) as Hs2.
    { rewrite <- Hsel. apply selection_ext. intros key.
      unfold prepared at 1. rewrite (law_ensureDir_reads Hlaw). rewrite Hf.
      apply (law_write_elsewhere Hlaw). apply Hapart. }
    assert (loaded_settings path (prepared projectDir agent wf) = doc1) as Hloaded.
    { unfold loaded_settings, prepared.
      rewrite (law_ensureDir_exists Hlaw), (law_ensureDir_reads Hlaw), Hf.
      rewrite (law_written_exists Hlaw _ _ _ Hw), (law_read_back Hlaw _ _ _ Hw).
      reflexivity. }
    destruct (selection_spec _ _ _ _ Hsel) as (_ & _ & Hnd).
    destruct (merge_servers_again _ _ _ _ _ (Hnd server_keys_NoDup) Hne Hm)
      as [Hagain Htruthy].
    destruct (merged_document_again k (loaded_settings path w1) sub' Htruthy)
      as (He & Hk & Hd).
    fold doc1 in He, Hk, Hd.
    split.
    + intros l2 Hr2. exact (Hsame sel l2 Hs2 Hr2 eq_refl).
    + intros p doc p2 doc2 Hin1 Hin2.
      destruct (configureMcp_writes _ _ _ _ _ _ _ Hg Hin1)
        as (-> & sel_a & sub_a & conf_a & Hsa & Hma & ->).
      fold w1 path k in Hsa, Hma. rewrite Hsel in Hsa. injection Hsa as <-.
      rewrite Hm in Hma. injection Hma as <- <-.
      destruct (configureMcp_writes _ _ _ _ _ _ _ Hg Hin2)
        as (-> & sel_b & sub_b & conf_b & Hsb & Hmb & ->).
      fold path k in Hsb, Hmb |- *. fold wf in Hsb, Hmb |- *.
      rewrite Hs2 in Hsb. injection Hsb as <-.
      rewrite Hloaded in Hmb |- *. rewrite He, Hk in Hmb. simpl in Hmb.
      rewrite Hagain in Hmb. injection Hmb as <- <-.
      split; [reflexivity|]. rewrite He.
      transitivity doc1; [apply insert_id; exact Hk | reflexivity].
Qed.

Lemma includes_elem (servers : list string) (name : string) :
  includes servers name = true <-> name ∈ servers.
Proof.
  unfold includes. rewrite existsb_exists. split.
  - intros (x & Hin & Hx). apply String.eqb_eq in Hx. subst x.
    apply list_elem_of_In. exact Hin.
  - intros Hin. exists name. split; [apply list_elem_of_In; exact Hin|].
    apply String.eqb_refl.
Qed.

Lemma includes_same (l1 l2 : list string) (name : string) :
  (forall x, x ∈ l1 <-> x ∈ l2) -> includes l1 name = includes l2 name.
Proof.
  intros H. destruct (includes l1 name) eqn:E1, (includes l2 name) eqn:E2;
    try reflexivity.
  - apply includes_elem, H, includes_elem in E1. congruence.
  - apply includes_elem, H, includes_elem in E2. congruence.
Qed.

Lemma includes_decide (servers : list string) (name : string) :
  includes servers name = bool_decide (name ∈ servers).
Proof.
  destruct (includes servers name) eqn:E; symmetry.
  - apply bool_decide_eq_true, includes_elem, E.
  - apply bool_decide_eq_false. intros Hin. apply includes_elem in Hin. congruence.
Qed.

Lemma instructions_length (servers : list string) :
  length (getMcpInstructions servers)
  = length (filter (fun name => name ∈ servers) known_servers).
Proof.
  unfold getMcpInstructions, known_servers. rewrite !includes_decide.
  rewrite !filter_cons, filter_nil.
  repeat case_bool_decide; repeat case_decide; try reflexivity; tauto.
Qed.

Lemma known_servers_NoDup : NoDup known_servers.
Proof.
  unfold known_servers. repeat constructor; intros Hin; trace_in Hin.
Qed.

Lemma known_servers_names (l : list string) :
  l `sublist_of` (key_name <$> server_keys) ->
  forall name, name ∈ l -> name ∈ known_servers.
Proof.
  intros Hs name Hin. apply sublist_submseteq in Hs.
  exact (elem_of_submseteq _ _ _ Hin Hs).
Qed.

(** X12: the instructions depend on which servers are named, not on
    their order nor on repetitions or unknown names; there is exactly one
    instruction per named known server; and so each server that
    [configureMcp] returns as configured gets exactly one. *)
Theorem getMcpInstructions_by_membership :
  (forall l1 l2,
      (forall name, name ∈ known_servers -> (name ∈ l1 <-> name ∈ l2)) ->
      getMcpInstructions l1 = getMcpInstructions l2) /\
  (forall l,
      length (getMcpInstructions l)
      = length (filter (fun name => name ∈ l) known_servers)) /\
  (forall l,
      NoDup l -> (forall name, name ∈ l -> name ∈ known_servers) ->
      length (getMcpInstructions l) = length l) /\
  (forall projectDir options agentId agent (w : World) l,
      getAgentConfig (JStr agentId) = Ok agent ->
      res (configureMcp projectDir options agentId w) = Ok l ->
      length (getMcpInstructions l) = length l).
Proof.
  assert (forall l, NoDup l -> (forall name, name ∈ l -> name ∈ known_servers) ->
                    length (getMcpInstructions l) = length l) as Hcount.
  { intros l Hnd Hk. rewrite instructions_length. apply Permutation_length.
    apply NoDup_Permutation;
      [apply NoDup_filter, known_servers_NoDup | exact Hnd |].
    intros name. rewrite list_elem_of_filter. split; [tauto|].
    intros Hin. split; [exact Hin | exact (Hk name Hin)]. }
  split; [|split; [exact instructions_length|split; [exact Hcount|]]].
  - intros l1 l2 H. unfold getMcpInstructions, known_servers in *.
    rewrite !includes_decide.
    assert (forall name, name ∈ ["github"; "filesystem"; "postgres"; "chromeDevtools"] ->
                         bool_decide (name ∈ l1) = bool_decide (name ∈ l2)) as Hb.
    { intros name Hin. apply bool_decide_ext. exact (H name Hin). }
    rewrite (Hb "github"), (Hb "filesystem"), (Hb "postgres"), (Hb "chromeDevtools");
      [reflexivity | | | |]; repeat constructor.
  - intros projectDir options agentId agent w l Hg Hres.
    destruct (gated agent) eqn:Hgate.
    { rewrite (configureMcp_gated _ _ _ _ _ Hg Hgate) in Hres.
      injection Hres as <-. reflexivity. }
    destruct (configureMcp_returned _ _ _ _ _ _ Hg Hgate Hres)
      as (sel & Hsel & -> & _).
    destruct (selection_spec _ _ _ _ Hsel) as (_ & _ & Hnd).
    apply Hcount.
    + replace (names_of sel) with (key_name <$> (fst <$> sel))
        by (unfold names_of; rewrite <- list_fmap_compose; reflexivity).
      apply NoDup_fmap; [intros k1 k2; apply key_name_inj|].
      exact (Hnd server_keys_NoDup).
    + apply known_servers_names. exact (selection_sublist _ _ _ _ Hsel).
Qed.

(** X13: [toOpenCodeFormat] on any template object.  It fails exactly
    when [args] is a truthy value that cannot be spread (an object, a
    non-zero number, [true]); otherwise its result has [type: 'local'],
    a [command] array that starts with the template's [command], an
    [environment] equal to [env] exactly when [env] is truthy, and no
    other property: whatever else the template holds is dropped. *)
Theorem toOpenCodeFormat_any_template (config : gmap string json) :
  is_ok (toOpenCodeFormat config) = args_spreadable (config !! "args") /\
  (forall out,
      toOpenCodeFormat config = Ok out ->
      exists m args,
        out = JObj m /\
        m !! "type" = Some (JStr "local") /\
        m !! "command" = Some (JArr (default JNull (config !! "command") :: args)) /\
        (truthy_opt (config !! "args") = false -> args = []) /\
        (forall l, config !! "args" = Some (JArr l) -> args = l) /\
        m !! "environment"
        = (if truthy_opt (config !! "env") then config !! "env" else None) /\
        (forall k, k <> "type" -> k <> "command" -> k <> "environment" ->
                   m !! k = None)).
Proof.
  unfold toOpenCodeFormat. split.
  - destruct (config !! "args") as [[| b | z | s | l | m]|]; simpl;
      try reflexivity.
    + destruct b; reflexivity.
    + destruct (Z.eqb z 0); reflexivity.
    + destruct (String.eqb s ""); reflexivity.
  - intros out.
    set (args := if truthy_opt (config !! "args")
                 then iterate (default JNull (config !! "args")) else Ok []).
    assert (forall l, args = Ok l ->
              (truthy_opt (config !! "args") = false -> l = []) /\
              (forall l', config !! "args" = Some (JArr l') -> l = l')) as Hargs.
    { subst args. intros l.
      destruct (config !! "args") as [[| b | z | s | l0 | m]|]; simpl.
      all: try (intros [= <-]; split; [reflexivity | discriminate]).
      - destruct b; simpl; [discriminate|].
        intros [= <-]; split; [reflexivity | discriminate].
      - destruct (Z.eqb z 0); simpl; [|discriminate].
        intros [= <-]; split; [reflexivity | discriminate].
      - destruct (String.eqb s ""); simpl; intros [= <-];
          (split; [try reflexivity; discriminate | discriminate]).
      - intros [= <-]. split; [discriminate | intros l' [= <-]; reflexivity].
      - discriminate. }
    destruct args as [l|e]; [|discriminate].
    destruct (Hargs l eq_refl) as [Hnone Harr].
    intros [= <-]. eexists. exists l. split; [reflexivity|].
    destruct (truthy_opt (config !! "env")) eqn:Henv.
    + destruct (config !! "env") as [env|]; [|discriminate]. simpl.
      split; [rewrite !lookup_insert_ne by discriminate; apply lookup_insert_eq|].
      split; [rewrite lookup_insert_ne by discriminate; apply lookup_insert_eq|].
      split; [exact Hnone|]. split; [exact Harr|].
      split; [apply lookup_insert_eq|].
      intros k H1 H2 H3. rewrite !lookup_insert_ne by congruence. apply lookup_empty.
    + split; [rewrite lookup_insert_ne by discriminate; apply lookup_insert_eq|].
      split; [apply lookup_insert_eq|].
      split; [exact Hnone|]. split; [exact Harr|].
      split; [rewrite !lookup_insert_ne by discriminate; apply lookup_empty|].
      intros k H1 H2 H3. rewrite !lookup_insert_ne by congruence. apply lookup_empty.
Qed.

Lemma select_loop_flagged (options : McpOptions) (keys : list McpServerKey) :
  forall (w : World) (acc : list (McpServerKey * gmap string json)) e,
    e ∈ trace (for_each keys (select_one options templates_dir) (w, acc)) ->
    exists key,
      key ∈ keys /\ flag options key = true /\
      e = EvReadJson (template_path templates_dir key).
Proof.
  induction keys as [|key keys IH]; intros w acc e.
  - intros Hin. inversion Hin.
  - pose proof (select_one_cases options key w acc) as Hc.
    assert (forall w' acc',
               e ∈ trace (for_each keys (select_one options templates_dir) (w', acc')) ->
               exists key0, key0 ∈ key :: keys /\ flag options key0 = true /\
                            e = EvReadJson (template_path templates_dir key0)) as Hrest.
    { intros w' acc' Hin. destruct (IH _ _ _ Hin) as (key0 & H1 & H2 & H3).
      exists key0. split; [apply elem_of_cons; auto | auto]. }
    destruct (flag options key) eqn:Hf.
    + destruct (readJsonFile (template_path templates_dir key) w) as [[t|]|err].
      * rewrite (for_each_cons_ok _ _ _ _ _ _ Hc). cbn [trace app].
        intros Hin. apply elem_of_cons in Hin as [->|Hin]; [|eauto].
        exists key. split; [apply elem_of_cons; auto | auto].
      * rewrite (for_each_cons_ok _ _ _ _ _ _ Hc). cbn [trace app].
        intros Hin. apply elem_of_cons in Hin as [->|Hin]; [|eauto].
        exists key. split; [apply elem_of_cons; auto | auto].
      * cbn [for_each]. unfold bind. rewrite Hc. cbn [res trace].
        intros Hin. apply list_elem_of_singleton in Hin as ->.
        exists key. split; [apply elem_of_cons; auto | auto].
    + rewrite (for_each_cons_ok _ _ _ _ _ _ Hc). cbn [trace app]. eauto.
Qed.

(** X14: [getSelectedServerTemplates] leaves the host state as it is and
    reads nothing but template files of servers whose flag is set; when
    no read throws it returns, in the fixed order of the servers, exactly
    the pairs of a flagged server and its template, a missing template
    file being skipped. *)
Theorem getSelectedServerTemplates_selects (options : McpOptions) (w : World) :
  let o := getSelectedServerTemplates options templates_dir w in
  final o = w /\
  (forall e, e ∈ trace o ->
             exists key, flag options key = true /\
                         e = EvReadJson (template_path templates_dir key)) /\
  ((forall key, flag options key = true ->
                is_ok (readJsonFile (template_path templates_dir key) w) = true) ->
   exists sel,
     res o = Ok sel /\
     names_of sel `sublist_of` (key_name <$> server_keys) /\
     forall key t, (key, t) ∈ sel <-> selected_template options key w = Some t).
Proof.
  cbv zeta.
  destruct (getSelectedServerTemplates_run options w) as (Hres & Hfinal & _).
  split; [exact Hfinal|]. split.
  - intros e Hin.
    unfold getSelectedServerTemplates, with_local, mbind, M_bind, bind, get_local in Hin.
    cbn [trace] in Hin.
    assert (e ∈ trace (for_each server_keys (select_one options templates_dir) (w, [])))
      as Hin'.
    { destruct (res (for_each server_keys (select_one options templates_dir) (w, [])));
        cbn [trace] in Hin; [rewrite app_nil_r in Hin|]; exact Hin. }
    destruct (select_loop_flagged _ _ _ _ _ Hin') as (key & _ & Hf & He). eauto.
  - intros Hreads.
    assert (forall keys, exists sel,
               selection options templates_dir keys w = Ok sel) as Hsel.
    { induction keys as [|key keys [sel IH]]; simpl; [eauto|].
      destruct (flag options key) eqn:Hf; simpl; [|eauto].
      specialize (Hreads key Hf).
      destruct (readJsonFile (template_path templates_dir key) w) as [[t|]|e];
        [| |discriminate]; rewrite IH; eauto. }
    destruct (Hsel server_keys) as [sel Hs]. exists sel.
    split; [rewrite Hres; exact Hs|].
    split; [exact (selection_sublist _ _ _ _ Hs)|].
    intros key t. destruct (selection_spec _ _ _ _ Hs) as (Hspec & _).
    rewrite Hspec. split; [tauto|]. intros Ht. split; [apply server_keys_all | exact Ht].
Qed.

(** X15: when [configureMcp] finds no settings to start from (the file
    is not there, or it is there and [readJsonFile] gives [null] for it),
    the document it writes holds the MCP sub-map and nothing else, and
    the sub-map holds exactly the selected servers: whatever the file
    held before is gone. *)
Theorem configureMcp_fresh_document (projectDir : string) (options : McpOptions)
    (agentId : string) (agent : AgentConfig) (w : World)
    (p : string) (doc : gmap string json) :
  getAgentConfig (JStr agentId) = Ok agent ->
  EvWriteJson p doc ∈ trace (configureMcp projectDir options agentId w) ->
  let w1 := prepared projectDir agent w in
  fileExists (settings_path projectDir agent) w1 = Ok false \/
  readJsonFile (settings_path projectDir agent) w1 = Ok None ->
  exists m,
    doc = <[sub_map_name agentId := JObj m]> ∅ /\
    forall name,
      is_Some (m !! name) <->
      exists key, key_name key = name /\
                  is_Some (selected_template options key w1).
Proof.
  intros Hg Hin w1 Hfresh.
  destruct (configureMcp_writes _ _ _ _ _ _ _ Hg Hin)
    as (_ & sel & sub' & conf & Hsel & Hm & ->).
  fold w1 in Hsel, Hm |- *.
  assert (loaded_settings (settings_path projectDir agent) w1 = ∅) as Hl.
  { unfold loaded_settings. destruct Hfresh as [-> | ->]; [reflexivity|].
    destruct (fileExists (settings_path projectDir agent) w1) as [[|]|e]; reflexivity. }
  rewrite Hl in Hm |- *.
  unfold ensure_sub_map in Hm |- *. rewrite lookup_empty in Hm |- *.
  simpl in Hm |- *. rewrite lookup_insert_eq in Hm. simpl in Hm.
  destruct (merge_servers_obj _ _ _ _ _ _ Hm) as (m' & -> & Hframe & Hstored).
  destruct (selection_spec _ _ _ _ Hsel) as (Hspec & _ & Hnd).
  exists m'. split; [apply insert_insert_eq|].
  intros name. split.
  - intros Hsome.
    destruct (decide (name ∈ names_of sel)) as [Hn|Hn].
    + apply list_elem_of_fmap in Hn as ([key t] & -> & Hk).
      exists key. split; [reflexivity|].
      apply Hspec in Hk as [_ Hk]. rewrite Hk. eauto.
    + exfalso. rewrite Hframe, lookup_empty in Hsome;
        [destruct Hsome; discriminate|].
      intros key t Hk E. apply Hn. apply list_elem_of_fmap.
      exists (key, t). split; [symmetry; exact E | exact Hk].
  - intros (key & <- & [t Ht]).
    destruct (Hstored (Hnd server_keys_NoDup) key t) as (entry & _ & He);
      [apply Hspec; split; [apply server_keys_all | exact Ht]|].
    rewrite He. eauto.
Qed.

End MoreMcpFacts.

(** ** What [configureMcp] stores for a selected server *)

Section ShapeFacts.

Context {Reg : Registry} {World : Type} {Host : HostOps World}.













End ShapeFacts.


(** ** The further properties on the sample host *)

Lemma sample_reads_back_writes : reads_back_writes (Host := Sample.host).
Proof. intros p d w _. cbn. rewrite lookup_insert_eq. reflexivity. Qed.

Lemma sample_lawful_host : lawful_host (Host := Sample.host).
Proof.
  split.
  - exact sample_reads_back_writes.
  - intros p d w _. cbn. unfold Sample.has_file. cbn.
    rewrite lookup_insert_eq.
    rewrite (bool_decide_eq_true_2 (is_Some (Some d))) by eauto.
    rewrite orb_true_r. reflexivity.
  - intros p p' d w Hne. cbn. rewrite lookup_insert_ne by congruence. reflexivity.
  - intros dir p w. reflexivity.
  - intros dir p w. reflexivity.
Qed.

Lemma sample_templates_apart :
  templates_apart (Host := Sample.host) "/proj" Sample.claude.
Proof. intros key. destruct key; vm_compute; discriminate. Qed.

Lemma migrateConfig_idempotent_witness :
  claude_registered (Reg := Sample.registry) /\
  exists out,
    migrateConfig (Reg := Sample.registry) stored_config = Ok out /\
    migrateConfig (Reg := Sample.registry) out = Ok out.
Proof.
  split; [reflexivity|].
  destruct (migrateConfig (Reg := Sample.registry) stored_config) as [out|e] eqn:E;
    [|vm_compute in E; discriminate].
  exists out. split; [reflexivity|].
  exact (migrateConfig_idempotent (Reg := Sample.registry) stored_config out eq_refl E).
Defined.

Lemma migrateConfig_keeps_stored_fields_witness :
  claude_registered (Reg := Sample.registry) /\
  exists out,
    migrateConfig (Reg := Sample.registry) annotated_config = Ok out /\
    out !! "note" = Some (JStr "kept") /\
    out !! "skillsDir" = Some (JStr "my/skills").
Proof.
  split; [reflexivity|].
  destruct (migrateConfig_keeps_stored_fields (Reg := Sample.registry)
              annotated_config eq_refl)
    as (agent & out & _ & Hm & Hkeep & _).
  exists out. split; [exact Hm|]. split.
  - apply Hkeep; [discriminate | discriminate | discriminate |].
    vm_compute. exact eq_refl.
  - apply Hkeep; [discriminate | discriminate | discriminate |].
    vm_compute. exact eq_refl.
Defined.

Lemma createDefaultConfig_is_migrated_witness :
  claude_registered (Reg := Sample.registry) /\
  createDefaultConfig (Reg := Sample.registry) (Some (JStr "no-such-agent"))
  = migrateConfig (Reg := Sample.registry) ∅.
Proof.
  split; [reflexivity|].
  destruct (createDefaultConfig_is_migrated (Reg := Sample.registry) eq_refl)
    as (Hempty & _ & Hunknown).
  rewrite <- Hempty. apply Hunknown. reflexivity.
Defined.

Lemma save_load_round_trip_witness :
  claude_registered (Reg := Sample.registry) /\
  reads_back_writes (Host := Sample.host) /\
  exists out,
    migrateConfig (Reg := Sample.registry) stored_config = Ok out /\
    res (loadConfig (Reg := Sample.registry) (Host := Sample.host) "/proj"
           (final (saveConfig (Host := Sample.host) "/proj" out Sample.package)))
    = Ok (Some out).
Proof.
  split; [reflexivity|]. split; [exact sample_reads_back_writes|].
  destruct (migrateConfig (Reg := Sample.registry) stored_config) as [out|e] eqn:E;
    [|vm_compute in E; discriminate].
  exists out. split; [reflexivity|].
  destruct (save_load_round_trip (Reg := Sample.registry) (Host := Sample.host)
              "/proj" Sample.package eq_refl) as (Hround & _).
  apply (Hround stored_config out sample_reads_back_writes E). reflexivity.
Defined.

Lemma install_fails_before_writing_witness :
  final (installSkillWithTransformer (Host := Sample.host)
           "/pkg/skills/missing" "missing" "/proj" ".claude/skills" "claude"
           Sample.claude Sample.package)
  = Sample.package.
Proof.
  pose proof (install_fails_before_writing (Host := Sample.host)
                "/pkg/skills/missing" "missing" "/proj" ".claude/skills" "claude"
                Sample.claude Sample.package) as H.
  cbv zeta in H. destruct H as [[(tr & c & r & _ & Hread & _) | (_ & Hfinal & _)] _].
  - vm_compute in Hread. discriminate.
  - exact Hfinal.
Defined.

Lemma updateSkills_result_witness :
  res (updateSkills (Reg := Sample.registry) (Host := Sample.host)
         saved_config "/proj" listed_package)
  = Ok ["plan"; "review"; "web/api"].
Proof.
  pose proof (updateSkills_result (Reg := Sample.registry) (Host := Sample.host)
                saved_config "/proj" Sample.claude ["plan"; "_templates"; "review"]
                listed_package eq_refl sample_exists_answers eq_refl eq_refl
                (sample_hook_succeeds _)) as H.
  cbv zeta in H. destruct H as (Hres & _).
  rewrite Hres. vm_compute. exact eq_refl.
Defined.

Lemma installSkills_events_witness :
  (length (warnings (trace (installSkills (Reg := Sample.registry) (Host := Sample.host)
                              three_skills Sample.package))) + 2)%nat = 3%nat /\
  posts (trace (installSkills (Reg := Sample.registry) (Host := Sample.host)
                  three_skills Sample.package)) = [].
Proof.
  pose proof (installSkills_events (Reg := Sample.registry) (Host := Sample.host)
                three_skills Sample.claude Sample.package eq_refl eq_refl) as H.
  cbv zeta in H. destruct H as (Hsum & _ & Hnone).
  split.
  - assert (length (installed_requested (Host := Sample.host) three_skills Sample.claude
                      (skills three_skills)
                      (start_of (Host := Sample.host) three_skills Sample.package).1)
            = 2%nat) as E by (vm_compute; exact eq_refl).
    rewrite E in Hsum. exact Hsum.
  - apply (Hnone Sample.directory_transformer); reflexivity.
Defined.

Lemma unknown_agent_is_fatal_witness :
  configureMcp (Reg := Sample.registry) (Host := Sample.host)
    "/proj" all_flags "nobody" configured_project
  = Outcome (Throw "Error: Unknown agent: nobody") configured_project [].
Proof.
  destruct (unknown_agent_is_fatal (Reg := Sample.registry) (Host := Sample.host)
              "Error: Unknown agent: nobody" configured_project)
    as (_ & _ & Hmcp & _).
  apply Hmcp. reflexivity.
Defined.

Lemma custom_key_parsing_witness :
  custom_stack "web/api" = Some "web" /\ custom_skill "web/api" = Some "api".
Proof.
  destruct custom_key_parsing as (_ & _ & _ & Hkey).
  destruct (Hkey "web" "api") as (Hstack & Hskill & _);
    [discriminate | discriminate | reflexivity | reflexivity |].
  split; [exact Hstack | exact Hskill].
Defined.

Lemma configureMcp_returns_selected_witness :
  exists l,
    res (configureMcp (Reg := Sample.registry) (Host := Sample.host)
           "/proj" github_only "claude" configured_project) = Ok l /\
    "github" ∈ l /\ NoDup l.
Proof.
  assert (res (configureMcp (Reg := Sample.registry) (Host := Sample.host)
                 "/proj" github_only "claude" configured_project) = Ok ["github"])
    as Hres by (vm_compute; exact eq_refl).
  exists ["github"]. split; [exact Hres|].
  destruct (configureMcp_returns_selected (Reg := Sample.registry) (Host := Sample.host)
              "/proj" github_only "claude" Sample.claude configured_project
              ["github"] eq_refl Hres) as (_ & Hnd & _ & Hall).
  split; [|exact Hnd].
  apply (Hall eq_refl KGithub). vm_compute. eauto.
Defined.

Lemma configureMcp_idempotent_witness :
  lawful_host (Host := Sample.host) /\
  templates_apart (Host := Sample.host) "/proj" Sample.claude /\
  res (configureMcp (Reg := Sample.registry) (Host := Sample.host)
         "/proj" github_only "claude" configured_project) = Ok ["github"] /\
  forall l2,
    res (configureMcp (Reg := Sample.registry) (Host := Sample.host)
           "/proj" github_only "claude"
           (final (configureMcp (Reg := Sample.registry) (Host := Sample.host)
                     "/proj" github_only "claude" configured_project))) = Ok l2 ->
    l2 = ["github"].
Proof.
  assert (res (configureMcp (Reg := Sample.registry) (Host := Sample.host)
                 "/proj" github_only "claude" configured_project) = Ok ["github"])
    as Hres by (vm_compute; exact eq_refl).
  split; [exact sample_lawful_host|]. split; [exact sample_templates_apart|].
  split; [exact Hres|].
  pose proof (configureMcp_idempotent (Reg := Sample.registry) (Host := Sample.host)
                "/proj" github_only "claude" Sample.claude configured_project
                ["github"] eq_refl sample_lawful_host sample_templates_apart Hres) as H.
  cbv zeta in H. exact (proj1 H).
Defined.

Lemma getMcpInstructions_by_membership_witness :
  length (getMcpInstructions ["postgres"; "github"]) = 2%nat.
Proof.
  destruct (getMcpInstructions_by_membership (Reg := Sample.registry)
              (Host := Sample.host)) as (_ & _ & Hlen & _).
  apply (Hlen ["postgres"; "github"]).
  - apply NoDup_cons. split; [|apply NoDup_singleton].
    intros Hin. apply list_elem_of_singleton in Hin. discriminate.
  - intros name Hin. unfold known_servers.
    apply elem_of_cons in Hin as [->|Hin];
      [|apply list_elem_of_singleton in Hin as ->]; set_solver.
Defined.

Lemma toOpenCodeFormat_any_template_witness :
  exists m,
    toOpenCodeFormat described_template = Ok (JObj m) /\
    m !! "description" = None /\
    m !! "command" = Some (JArr [JStr "npx"; JStr "-y"]).
Proof.
  destruct (toOpenCodeFormat described_template) as [out|e] eqn:E;
    [|vm_compute in E; discriminate].
  destruct (proj2 (toOpenCodeFormat_any_template described_template) out E)
    as (m & args & -> & _ & Hcommand & _ & Hargs & _ & Hrest).
  exists m. split; [reflexivity|]. split.
  - apply Hrest; discriminate.
  - rewrite Hcommand, (Hargs [JStr "-y"]); [reflexivity|].
    vm_compute. exact eq_refl.
Defined.

Lemma getSelectedServerTemplates_selects_witness :
  exists sel,
    res (getSelectedServerTemplates (Host := Sample.host) github_only
           (templates_dir (Host := Sample.host)) configured_project) = Ok sel /\
    (KGithub, github_template) ∈ sel.
Proof.
  pose proof (getSelectedServerTemplates_selects (Host := Sample.host)
                github_only configured_project) as H.
  cbv zeta in H. destruct H as (_ & _ & Hsel).
  destruct Hsel as (sel & Hres & _ & Hspec); [intros key _; reflexivity|].
  exists sel. split; [exact Hres|].
  apply Hspec. vm_compute. exact eq_refl.
Defined.

Lemma package_writes_fresh_document :
  EvWriteJson "/proj/.mcp.json" (<["mcpServers" := JObj (<["github" := JObj github_template]> ∅)]> ∅)
  ∈ trace (configureMcp (Reg := Sample.registry) (Host := Sample.host)
             "/proj" github_only "claude" Sample.package).
Proof.
  apply json_writes_elem.
  assert (json_writes (trace (configureMcp (Reg := Sample.registry) (Host := Sample.host)
                                "/proj" github_only "claude" Sample.package))
          = [("/proj/.mcp.json",
              <["mcpServers" := JObj (<["github" := JObj github_template]> ∅)]> ∅)]) as ->
    by (vm_compute; exact eq_refl).
  apply list_elem_of_singleton. reflexivity.
Qed.

Lemma configureMcp_fresh_document_witness :
  exists m,
    (<["mcpServers" := JObj (<["github" := JObj github_template]> ∅)]> ∅
     : gmap string json)
    = <["mcpServers" := JObj m]> ∅ /\
    is_Some (m !! "github") /\ ~ is_Some (m !! "postgres").
Proof.
  pose proof (configureMcp_fresh_document (Reg := Sample.registry) (Host := Sample.host)
                "/proj" github_only "claude" Sample.claude Sample.package
                "/proj/.mcp.json" _ eq_refl package_writes_fresh_document) as H.
  cbv zeta in H. destruct H as (m & Hdoc & Hnames); [left; reflexivity|].
  exists m. split; [exact Hdoc|]. split.
  - apply Hnames. exists KGithub. split; [reflexivity|]. vm_compute. eauto.
  - intros Hsome. apply Hnames in Hsome as (key & Hname & Hsel).
    destruct key; try discriminate. vm_compute in Hsel.
    destruct Hsel as [t Ht]. discriminate.
Defined.

(** ** The stored entries on the sample host *)




